(** * mcp-google-docs: configuration resolution and tool dispatch

    A shallow embedding of [config.py], [google_drive.py] and the tool
    functions of [main.py], with the properties of the specification
    stated over it.

    Conventions of the embedding.
    - A Python [str] is a Rocq [string] holding its UTF-8 encoding; every
      string operation the code uses ([split], [strip], [replace], [in])
      searches for ASCII characters only, so it acts on the bytes exactly as
      on the code points.
    - A Python value is a [PyVal]; a [dict] keeps its insertion order and is
      an association list with unique keys, written through [dict_set].
    - A raised exception is a value [Raised e]; [e] carries the class name and
      [str(e)].  Only subclasses of [Exception] are modelled.
    - Logging is not modelled: it never influences a result. *)

From Stdlib Require Import String Ascii List Bool ZArith Lia DecimalString.
Import ListNotations.
Open Scope list_scope.
Open Scope string_scope.

(* ================================================================== *)
(** * Python values *)

#[warnings="-register-all"]
Inductive PyVal : Type :=
| PNone
| PBool (b : bool)
| PInt (n : Z)
| PFloat (nonzero : bool)  (* a float, kept only up to [x != 0.0] *)
| PStr (s : string)
| PList (l : list PyVal)
| PDict (d : list (string * PyVal)).

(** [bool(v)]: what [if v:] tests. *)
Definition truthy (v : PyVal) : bool :=
  match v with
  | PNone => false
  | PBool b => b
  | PInt n => negb (n =? 0)%Z
  | PFloat nz => nz
  | PStr s => negb (s =? EmptyString)
  | PList l => match l with [] => false | _ => true end
  | PDict d => match d with [] => false | _ => true end
  end.

(** [type(v).__name__] *)
Definition type_name (v : PyVal) : string :=
  match v with
  | PNone => "NoneType"
  | PBool _ => "bool"
  | PInt _ => "int"
  | PFloat _ => "float"
  | PStr _ => "str"
  | PList _ => "list"
  | PDict _ => "dict"
  end.

(** [a or b] *)
Definition py_or (a b : PyVal) : PyVal := if truthy a then a else b.

(* ================================================================== *)
(** * Exceptions and outcomes *)

Record exn : Type := Exn { exn_type : string; exn_str : string }.

Inductive Outcome (A : Type) : Type :=
| Returned (a : A)
| Raised (e : exn).
Arguments Returned {A} a.
Arguments Raised {A} e.

Definition bindO {A B} (m : Outcome A) (k : A -> Outcome B) : Outcome B :=
  match m with
  | Returned a => k a
  | Raised e => Raised e
  end.

Declare Scope outcome_scope.
Delimit Scope outcome_scope with outcome.
Notation "x <-- m ;; k" := (bindO m (fun x => k))
  (at level 61, m at next level, right associativity) : outcome_scope.
Notation "' p <-- m ;; k" := (bindO m (fun x => match x with p => k end))
  (at level 61, p pattern, m at next level, right associativity) : outcome_scope.

Definition ValueError (msg : string) : exn := Exn "ValueError" msg.
Definition KeyError (key : string) : exn := Exn "KeyError" ("'" ++ key ++ "'").
Definition IndexError (msg : string) : exn := Exn "IndexError" msg.
Definition AttributeError (v : PyVal) (attr : string) : exn :=
  Exn "AttributeError"
      ("'" ++ type_name v ++ "' object has no attribute '" ++ attr ++ "'").

(* ================================================================== *)
(** * Dictionaries with insertion order *)

Section Dict.
Context {V : Type}.

(** [d.get(k)] as an option; [k in d] *)
Fixpoint dict_get (k : string) (d : list (string * V)) : option V :=
  match d with
  | [] => None
  | (k', v) :: r => if k' =? k then Some v else dict_get k r
  end.

Definition dict_mem (k : string) (d : list (string * V)) : bool :=
  match dict_get k d with Some _ => true | None => false end.

(** [d[k] = v]: an existing key keeps its place, a new one goes last. *)
Fixpoint dict_set (k : string) (v : V) (d : list (string * V))
  : list (string * V) :=
  match d with
  | [] => [(k, v)]
  | (k', v') :: r =>
      if k' =? k then (k', v) :: r else (k', v') :: dict_set k v r
  end.

(** [d[k]] *)
Definition dict_getitem (k : string) (d : list (string * V)) : Outcome V :=
  match dict_get k d with
  | Some v => Returned v
  | None => Raised (KeyError k)
  end.

(** [list(d.keys())] *)
Definition dict_keys (d : list (string * V)) : list string := map fst d.

(** [bool(d)] *)
Definition dict_nonempty (d : list (string * V)) : bool :=
  match d with [] => false | _ => true end.
End Dict.

(** [l[0]] *)
Definition list_first {A} (l : list A) : Outcome A :=
  match l with
  | x :: _ => Returned x
  | [] => Raised (IndexError "list index out of range")
  end.

(* ================================================================== *)
(** * String operations of the Python standard library *)

Module Str.

(** [bool(s)] *)
Definition nonempty (s : string) : bool := negb (s =? EmptyString).

(** [c in s] for a one-character [c] *)
Fixpoint contains (c : ascii) (s : string) : bool :=
  match s with
  | EmptyString => false
  | String x r => Ascii.eqb x c || contains c r
  end.

(** [s.split(sep)] for a one-character separator *)
Fixpoint split (sep : ascii) (s : string) : list string :=
  match s with
  | EmptyString => [EmptyString]
  | String c r =>
      if Ascii.eqb c sep then EmptyString :: split sep r
      else match split sep r with
           | h :: t => String c h :: t
           | [] => [String c EmptyString]
           end
  end.

(** [s.split(sep, 1)]: cut at the first separator only *)
Fixpoint split1 (sep : ascii) (s : string) : list string :=
  match s with
  | EmptyString => [EmptyString]
  | String c r =>
      if Ascii.eqb c sep then [EmptyString; r]
      else match split1 sep r with
           | h :: t => String c h :: t
           | [] => [String c EmptyString]
           end
  end.

Fixpoint rev_acc (s acc : string) : string :=
  match s with
  | EmptyString => acc
  | String c r => rev_acc r (String c acc)
  end.
Definition rev (s : string) : string := rev_acc s EmptyString.

(** Whitespace in the sense of [str.isspace], by UTF-8 encoding:
    U+0009..000D, U+001C..0020; U+0085, U+00A0; U+1680, U+2000..200A,
    U+2028, U+2029, U+202F, U+205F, U+3000. *)
Definition space1 (c : ascii) : bool :=
  let n := nat_of_ascii c in
  (((9 <=? n) && (n <=? 13)) || ((28 <=? n) && (n <=? 32)))%nat.

Definition space2 (c1 c2 : ascii) : bool :=
  ((nat_of_ascii c1 =? 194) &&
   ((nat_of_ascii c2 =? 133) || (nat_of_ascii c2 =? 160)))%nat.

Definition space3 (c1 c2 c3 : ascii) : bool :=
  let a := nat_of_ascii c1 in
  let b := nat_of_ascii c2 in
  let c := nat_of_ascii c3 in
  (((a =? 225) && (b =? 154) && (c =? 128)) ||
   ((a =? 226) && (b =? 128) &&
      (((128 <=? c) && (c <=? 138)) || (c =? 168) || (c =? 169) || (c =? 175))) ||
   ((a =? 226) && (b =? 129) && (c =? 159)) ||
   ((a =? 227) && (b =? 128) && (c =? 128)))%nat.

(** [s.lstrip()] *)
Fixpoint lstrip (s : string) : string :=
  match s with
  | String c1 r1 =>
      if space1 c1 then lstrip r1
      else match r1 with
           | String c2 r2 =>
               if space2 c1 c2 then lstrip r2
               else match r2 with
                    | String c3 r3 =>
                        if space3 c1 c2 c3 then lstrip r3 else s
                    | EmptyString => s
                    end
           | EmptyString => s
           end
  | EmptyString => s
  end.

(** [lstrip] on the reversed string: the bytes of a character arrive last
    byte first. *)
Fixpoint lstrip_rev (s : string) : string :=
  match s with
  | String c1 r1 =>
      if space1 c1 then lstrip_rev r1
      else match r1 with
           | String c2 r2 =>
               if space2 c2 c1 then lstrip_rev r2
               else match r2 with
                    | String c3 r3 =>
                        if space3 c3 c2 c1 then lstrip_rev r3 else s
                    | EmptyString => s
                    end
           | EmptyString => s
           end
  | EmptyString => s
  end.

(** [s.rstrip()] and [s.strip()] *)
Definition rstrip (s : string) : string := rev (lstrip_rev (rev s)).
Definition strip (s : string) : string := rstrip (lstrip s).

(** [s.strip(c)] for a one-character set *)
Fixpoint lstrip_char (c : ascii) (s : string) : string :=
  match s with
  | String x r => if Ascii.eqb x c then lstrip_char c r else s
  | EmptyString => s
  end.
Definition strip_char (c : ascii) (s : string) : string :=
  rev (lstrip_char c (rev (lstrip_char c s))).

(** [s.replace("\\n", "\n")]: every backslash followed by [n], scanning
    left to right, becomes a line feed. *)
Definition backslash : ascii := "\"%char.
Definition newline : ascii := ascii_of_nat 10.

Fixpoint replace_escaped_newlines (s : string) : string :=
  match s with
  | String c1 r1 =>
      match r1 with
      | String c2 r2 =>
          if Ascii.eqb c1 backslash && Ascii.eqb c2 "n"%char
          then String newline (replace_escaped_newlines r2)
          else String c1 (replace_escaped_newlines r1)
      | EmptyString => s
      end
  | EmptyString => s
  end.

End Str.

(* ================================================================== *)
(** * config.py *)

Module Config.

Open Scope outcome_scope.

(** The process environment as [from_env] sees it after [load_dotenv()]:
    [getenv] is [os.getenv], [home_dir] is [os.path.expanduser('~')]. *)
Record Env : Type := {
  getenv : string -> option string;
  home_dir : string
}.

(** [os.getenv(name, default)] *)
Definition getenv_default (env : Env) (name default : string) : string :=
  match getenv env name with
  | Some v => v
  | None => default
  end.

(** [os.path.join(a, b)] for a relative [b] *)
Definition path_join (a b : string) : string :=
  match Str.rev a with
  | EmptyString => b
  | String c _ => if Ascii.eqb c "/" then a ++ b else a ++ "/" ++ b
  end.

Record Config : Type := {
  client_secret_path : string;
  token_path : string;
  folder_id : string;
  folders : list (string * string);
  default_folder : string
}.

(** [alias, fid = item.split(':', 1)] *)
Definition unpack2 (parts : list string) : Outcome (string * string) :=
  match parts with
  | [a; b] => Returned (a, b)
  | [] | [_] =>
      Raised (ValueError "not enough values to unpack (expected 2, got 1)")
  | _ => Raised (ValueError "too many values to unpack (expected 2)")
  end.

(** The body of [for item in folders_str.split(','):] *)
Definition parse_item (folders : list (string * string)) (item : string)
  : Outcome (list (string * string)) :=
  let item := Str.strip item in
  if Str.contains ":" item then
    '(alias, fid) <-- unpack2 (Str.split1 ":" item) ;;
    Returned (dict_set (Str.strip alias) (Str.strip fid) folders)
  else Returned folders.

Fixpoint parse_items (folders : list (string * string)) (items : list string)
  : Outcome (list (string * string)) :=
  match items with
  | [] => Returned folders
  | item :: rest =>
      folders' <-- parse_item folders item ;;
      parse_items folders' rest
  end.

(** Lines 32-39 of [from_env]: the [folders] dict built from
    [MCPGD_FOLDERS]. *)
Definition parse_folders (folders_str : string)
  : Outcome (list (string * string)) :=
  if Str.nonempty folders_str
  then parse_items [] (Str.split "," folders_str)
  else Returned [].

(** Lines 44-58 of [from_env]: the two backward-compatibility branches.
    The result is [(folders, default_folder, folder_id)]. *)
Definition normalize (folders : list (string * string))
           (default_folder folder_id : string)
  : Outcome (list (string * string) * string * string) :=
  if negb (dict_nonempty folders) && Str.nonempty folder_id then
    Returned ([("default", folder_id)], "default", folder_id)
  else if dict_nonempty folders && negb (Str.nonempty folder_id) then
    if Str.nonempty default_folder && dict_mem default_folder folders then
      folder_id' <-- dict_getitem default_folder folders ;;
      Returned (folders, default_folder, folder_id')
    else if dict_nonempty folders then
      first_alias <-- list_first (dict_keys folders) ;;
      folder_id' <-- dict_getitem first_alias folders ;;
      Returned (folders,
                (if negb (Str.nonempty default_folder)
                 then first_alias else default_folder),
                folder_id')
    else Returned (folders, default_folder, folder_id)
  else Returned (folders, default_folder, folder_id).

Definition from_env (env : Env) : Outcome Config :=
  match getenv env "MCPGD_CLIENT_SECRET_PATH" with
  | None =>
      Raised (ValueError
                "MCPGD_CLIENT_SECRET_PATH environment variable is required")
  | Some client_secret_path =>
      if negb (Str.nonempty client_secret_path) then
        Raised (ValueError
                  "MCPGD_CLIENT_SECRET_PATH environment variable is required")
      else
        let token_path :=
          match getenv env "MCPGD_TOKEN_PATH" with
          | Some p =>
              if Str.nonempty p then p
              else path_join (home_dir env) ".mcp_google_spreadsheet.json"
          | None => path_join (home_dir env) ".mcp_google_spreadsheet.json"
          end in
        let folders_str := getenv_default env "MCPGD_FOLDERS" EmptyString in
        folders <-- parse_folders folders_str ;;
        let default_folder :=
          getenv_default env "MCPGD_DEFAULT_FOLDER" EmptyString in
        let folder_id := getenv_default env "MCPGD_FOLDER_ID" EmptyString in
        '(folders, default_folder, folder_id) <--
           normalize folders default_folder folder_id ;;
        if negb (Str.nonempty folder_id) && negb (dict_nonempty folders) then
          Raised (ValueError
            "MCPGD_FOLDERS or MCPGD_FOLDER_ID environment variable is required")
        else
          Returned {| client_secret_path := client_secret_path;
                      token_path := token_path;
                      folder_id := folder_id;
                      folders := folders;
                      default_folder := default_folder |}
  end.

(** [folder] is [None] or a [str]. *)
Definition get_folder_id (self : Config) (folder : option string)
  : Outcome string :=
  match folder with
  | None => Returned (folder_id self)
  | Some f =>
      if negb (Str.nonempty f) then Returned (folder_id self)
      else if dict_mem f (folders self) then dict_getitem f (folders self)
      else Returned f
  end.

Fixpoint first_alias_of (folder_id : string) (items : list (string * string))
  : string :=
  match items with
  | [] => EmptyString
  | (alias, fid) :: rest =>
      if fid =? folder_id then alias else first_alias_of folder_id rest
  end.

Definition get_folder_name (self : Config) (folder_id : string) : string :=
  first_alias_of folder_id (folders self).

(** An environment given by its variables, for examples. *)
Definition env_of (vars : list (string * string)) (home : string) : Env :=
  {| getenv := fun name => dict_get name vars; home_dir := home |}.

End Config.


(* ================================================================== *)
(** * json.loads

    The standard library's decoder with its default settings, on a [str]:
    the grammar of RFC 8259 plus [NaN], [Infinity] and [-Infinity], strict
    strings (no raw control character), any value at top level, blanks
    allowed around it.  A failure is [JSONDecodeError]; its message (a
    position in the text) is not modelled, nothing in the program reads it.
    Interpreter limits (recursion depth, digits of an integer) are not
    modelled either. *)

Module Json.

Definition JSONDecodeError : exn := Exn "JSONDecodeError" "invalid JSON".

Definition quote : ascii := ascii_of_nat 34.

Definition is_ws (c : ascii) : bool :=
  Ascii.eqb c " " || Ascii.eqb c (ascii_of_nat 9) ||
  Ascii.eqb c (ascii_of_nat 10) || Ascii.eqb c (ascii_of_nat 13).

Fixpoint skip_ws (s : string) : string :=
  match s with
  | String c r => if is_ws c then skip_ws r else s
  | EmptyString => s
  end.

Definition is_digit (c : ascii) : bool :=
  let n := nat_of_ascii c in ((48 <=? n) && (n <=? 57))%nat.

Definition digit_val (c : ascii) : Z := Z.of_nat (nat_of_ascii c) - 48.

(** The longest prefix of decimal digits, and what follows it *)
Fixpoint take_digits (s : string) : string * string :=
  match s with
  | String c r =>
      if is_digit c then let (d, r') := take_digits r in (String c d, r')
      else (EmptyString, s)
  | EmptyString => (EmptyString, s)
  end.

Fixpoint digits_value (acc : Z) (s : string) : Z :=
  match s with
  | String c r => digits_value (10 * acc + digit_val c) r
  | EmptyString => acc
  end.

(** Whether the binary64 nearest to [m * 10^e] is not zero: halfway to the
    least subnormal, 2^-1075, still rounds to zero. *)
Definition float_nonzero (m e : Z) : bool :=
  negb (m =? 0)%Z &&
  ((0 <=? e)%Z || (10 ^ (- e) <? m * 2 ^ 1075)%Z).

Definition hex_val (c : ascii) : option Z :=
  let n := nat_of_ascii c in
  if ((48 <=? n) && (n <=? 57))%nat then Some (Z.of_nat n - 48)%Z
  else if ((97 <=? n) && (n <=? 102))%nat then Some (Z.of_nat n - 87)%Z
  else if ((65 <=? n) && (n <=? 70))%nat then Some (Z.of_nat n - 55)%Z
  else None.

(** Four hexadecimal digits *)
Definition hex4 (s : string) : option (Z * string) :=
  match s with
  | String a (String b (String c (String d r))) =>
      match hex_val a, hex_val b, hex_val c, hex_val d with
      | Some x, Some y, Some z, Some w =>
          Some ((((x * 16 + y) * 16 + z) * 16 + w)%Z, r)
      | _, _, _, _ => None
      end
  | _ => None
  end.

Definition byte (n : Z) : ascii := ascii_of_nat (Z.to_nat n).

(** UTF-8 of a code point; a lone surrogate is encoded like any other
    three-byte code point. *)
Definition utf8 (c : Z) : string :=
  (if c <? 128 then String (byte c) EmptyString
   else if c <? 2048 then
     String (byte (192 + c / 64)) (String (byte (128 + c mod 64)) EmptyString)
   else if c <? 65536 then
     String (byte (224 + c / 4096))
       (String (byte (128 + (c / 64) mod 64))
          (String (byte (128 + c mod 64)) EmptyString))
   else
     String (byte (240 + c / 262144))
       (String (byte (128 + (c / 4096) mod 64))
          (String (byte (128 + (c / 64) mod 64))
             (String (byte (128 + c mod 64)) EmptyString))))%Z.

Definition simple_escape (c : ascii) : option ascii :=
  if Ascii.eqb c quote then Some quote
  else if Ascii.eqb c "\" then Some "\"%char
  else if Ascii.eqb c "/" then Some "/"%char
  else if Ascii.eqb c "b" then Some (ascii_of_nat 8)
  else if Ascii.eqb c "f" then Some (ascii_of_nat 12)
  else if Ascii.eqb c "n" then Some (ascii_of_nat 10)
  else if Ascii.eqb c "r" then Some (ascii_of_nat 13)
  else if Ascii.eqb c "t" then Some (ascii_of_nat 9)
  else None.

(** The text of a string after its opening quote: the decoded content and
    what follows the closing quote. *)
Fixpoint scan_string (fuel : nat) (s acc : string) : option (string * string) :=
  match fuel with
  | O => None
  | S fuel =>
      match s with
      | EmptyString => None
      | String c r =>
          if Ascii.eqb c quote then Some (acc, r)
          else if Ascii.eqb c "\" then
            match r with
            | EmptyString => None
            | String e r2 =>
                if Ascii.eqb e "u" then
                  match hex4 r2 with
                  | None => None
                  | Some (u1, r3) =>
                      if ((55296 <=? u1) && (u1 <=? 56319))%Z then
                        match r3 with
                        | String b1 (String b2 r4) =>
                            if Ascii.eqb b1 "\" && Ascii.eqb b2 "u" then
                              match hex4 r4 with
                              | None => None
                              | Some (u2, r5) =>
                                  if ((56320 <=? u2) && (u2 <=? 57343))%Z then
                                    scan_string fuel r5
                                      (acc ++ utf8 (65536 + (u1 - 55296) * 1024
                                                    + (u2 - 56320)))
                                  else scan_string fuel r3 (acc ++ utf8 u1)
                              end
                            else scan_string fuel r3 (acc ++ utf8 u1)
                        | _ => scan_string fuel r3 (acc ++ utf8 u1)
                        end
                      else scan_string fuel r3 (acc ++ utf8 u1)
                  end
                else
                  match simple_escape e with
                  | Some x => scan_string fuel r2 (acc ++ String x EmptyString)
                  | None => None
                  end
            end
          else if (nat_of_ascii c <? 32)%nat then None
          else scan_string fuel r (acc ++ String c EmptyString)
      end
  end.

(** A number: an optional minus sign; a zero, or a digit from 1 to 9 and
    any digits; then, each optional, a dot with one digit or more, and an
    [e] or [E] with an optional sign and one digit or more.  It is an
    [int] when it has neither fraction nor exponent, a [float] otherwise. *)
Definition scan_number (s : string) : option (PyVal * string) :=
  let (neg, s1) :=
    match s with
    | String c r => if Ascii.eqb c "-" then (true, r) else (false, s)
    | EmptyString => (false, s)
    end in
  match s1 with
  | EmptyString => None
  | String c r =>
      if negb (is_digit c) then None
      else
        let (int_digits, s2) :=
          if Ascii.eqb c "0" then ("0", r) else take_digits s1 in
        let (frac, s3) :=
          match s2 with
          | String d r2 =>
              if Ascii.eqb d "." then
                let (fd, r3) := take_digits r2 in
                if Str.nonempty fd then (Some fd, r3) else (None, s2)
              else (None, s2)
          | EmptyString => (None, s2)
          end in
        let (exp, s4) :=
          match s3 with
          | String d r3 =>
              if Ascii.eqb d "e" || Ascii.eqb d "E" then
                let (eneg, r4) :=
                  match r3 with
                  | String sg r' =>
                      if Ascii.eqb sg "-" then (true, r')
                      else if Ascii.eqb sg "+" then (false, r')
                      else (false, r3)
                  | EmptyString => (false, r3)
                  end in
                let (ed, r5) := take_digits r4 in
                if Str.nonempty ed
                then (Some (if eneg then (- digits_value 0 ed)%Z
                            else digits_value 0 ed), r5)
                else (None, s3)
              else (None, s3)
          | EmptyString => (None, s3)
          end in
        match frac, exp with
        | None, None =>
            let n := digits_value 0 int_digits in
            Some (PInt (if neg then (- n)%Z else n), s4)
        | _, _ =>
            let fd := match frac with Some fd => fd | None => EmptyString end in
            let e := match exp with Some e => e | None => 0%Z end in
            Some (PFloat (float_nonzero (digits_value 0 (int_digits ++ fd))
                                        (e - Z.of_nat (String.length fd))),
                  s4)
        end
  end.

(** [s] with the prefix [p] removed *)
Fixpoint drop_prefix (p s : string) : option string :=
  match p with
  | EmptyString => Some s
  | String a p' =>
      match s with
      | String b s' => if Ascii.eqb a b then drop_prefix p' s' else None
      | EmptyString => None
      end
  end.

(** One value at the head of [s], and the rest of the text *)
Fixpoint scan_once (fuel : nat) (s : string) : option (PyVal * string) :=
  match fuel with
  | O => None
  | S fuel =>
      match s with
      | EmptyString => None
      | String c r =>
          if Ascii.eqb c quote then
            match scan_string (S (String.length r)) r EmptyString with
            | Some (str, rest) => Some (PStr str, rest)
            | None => None
            end
          else if Ascii.eqb c "{" then
            match skip_ws r with
            | String c1 r1 =>
                if Ascii.eqb c1 "}" then Some (PDict [], r1)
                else scan_members fuel (skip_ws r) []
            | EmptyString => None
            end
          else if Ascii.eqb c "[" then
            match skip_ws r with
            | String c1 r1 =>
                if Ascii.eqb c1 "]" then Some (PList [], r1)
                else scan_items fuel (skip_ws r) []
            | EmptyString => None
            end
          else
            match drop_prefix "null" s, drop_prefix "true" s,
                  drop_prefix "false" s with
            | Some rest, _, _ => Some (PNone, rest)
            | _, Some rest, _ => Some (PBool true, rest)
            | _, _, Some rest => Some (PBool false, rest)
            | None, None, None =>
                match drop_prefix "NaN" s, drop_prefix "Infinity" s,
                      drop_prefix "-Infinity" s with
                | Some rest, _, _ => Some (PFloat true, rest)
                | _, Some rest, _ => Some (PFloat true, rest)
                | _, _, Some rest => Some (PFloat true, rest)
                | None, None, None => scan_number s
                end
            end
      end
  end

(** The members of an object from a key on, up to the closing brace *)
with scan_members (fuel : nat) (s : string) (acc : list (string * PyVal))
  : option (PyVal * string) :=
  match fuel with
  | O => None
  | S fuel =>
      match s with
      | String c r =>
          if Ascii.eqb c quote then
            match scan_string (S (String.length r)) r EmptyString with
            | None => None
            | Some (key, r1) =>
                match skip_ws r1 with
                | String c2 r2 =>
                    if Ascii.eqb c2 ":" then
                      match scan_once fuel (skip_ws r2) with
                      | None => None
                      | Some (v, r3) =>
                          let acc := dict_set key v acc in
                          match skip_ws r3 with
                          | String c4 r4 =>
                              if Ascii.eqb c4 "}" then Some (PDict acc, r4)
                              else if Ascii.eqb c4 ","
                              then scan_members fuel (skip_ws r4) acc
                              else None
                          | EmptyString => None
                          end
                      end
                    else None
                | EmptyString => None
                end
            end
          else None
      | EmptyString => None
      end
  end

(** The items of an array from an item on, up to the closing bracket *)
with scan_items (fuel : nat) (s : string) (acc : list PyVal)
  : option (PyVal * string) :=
  match fuel with
  | O => None
  | S fuel =>
      match scan_once fuel s with
      | None => None
      | Some (v, r1) =>
          let acc := (acc ++ [v])%list in
          match skip_ws r1 with
          | String c2 r2 =>
              if Ascii.eqb c2 "]" then Some (PList acc, r2)
              else if Ascii.eqb c2 ","
              then scan_items fuel (skip_ws r2) acc
              else None
          | EmptyString => None
          end
      end
  end.

(** [json.loads(s)] *)
Definition loads (s : string) : Outcome PyVal :=
  match scan_once (2 * String.length s + 2) (skip_ws s) with
  | Some (v, rest) =>
      match skip_ws rest with
      | EmptyString => Returned v
      | String _ _ => Raised JSONDecodeError
      end
  | None => Raised JSONDecodeError
  end.

End Json.

(* ================================================================== *)
(** * Computations with a state and exceptions

    [SE S A]: a computation that reads and writes a state [S] and returns an
    [A] or raises.  What was written before an exception stays written. *)

Definition SE (S A : Type) : Type := S -> Outcome A * S.

Section SE.
Context {S : Type}.

Definition ret {A} (a : A) : SE S A := fun s => (Returned a, s).

Definition raise {A} (e : exn) : SE S A := fun s => (Raised e, s).

Definition bind {A B} (m : SE S A) (k : A -> SE S B) : SE S B :=
  fun s =>
    match m s with
    | (Returned a, s') => k a s'
    | (Raised e, s') => (Raised e, s')
    end.

(** [try: m / except Exception as e: handler e] *)
Definition try_except {A} (m : SE S A) (handler : exn -> SE S A) : SE S A :=
  fun s =>
    match m s with
    | (Returned a, s') => (Returned a, s')
    | (Raised e, s') => handler e s'
    end.

(** A pure step that may raise *)
Definition liftO {A} (o : Outcome A) : SE S A := fun s => (o, s).
End SE.

Declare Scope se_scope.
Delimit Scope se_scope with se.
Notation "x <- m ;; k" := (bind m (fun x => k))
  (at level 61, m at next level, right associativity) : se_scope.
Notation "m ;;; k" := (bind m (fun _ => k))
  (at level 61, right associativity) : se_scope.

(* ================================================================== *)
(** * Operations on Python values *)

Definition TypeError (msg : string) : exn := Exn "TypeError" msg.

(** [v.get(k)] and [v.get(k, default)] *)
Definition py_get_default (v : PyVal) (k : string) (default : PyVal)
  : Outcome PyVal :=
  match v with
  | PDict d =>
      Returned (match dict_get k d with Some x => x | None => default end)
  | _ => Raised (AttributeError v "get")
  end.

Definition py_get (v : PyVal) (k : string) : Outcome PyVal :=
  py_get_default v k PNone.

(** [v[k]] for a string [k] *)
Definition py_getitem (v : PyVal) (k : string) : Outcome PyVal :=
  match v with
  | PDict d => dict_getitem k d
  | PStr _ => Raised (TypeError "string indices must be integers")
  | PList _ => Raised (TypeError "list indices must be integers or slices, not str")
  | _ => Raised (TypeError ("'" ++ type_name v ++ "' object is not subscriptable"))
  end.

(** [",".join(v)] *)
Fixpoint join_strs (items : list PyVal) : Outcome string :=
  match items with
  | [] => Returned EmptyString
  | PStr s :: rest =>
      match rest with
      | [] => Returned s
      | _ => bindO (join_strs rest) (fun t => Returned (s ++ "," ++ t))
      end
  | v :: _ =>
      Raised (TypeError ("sequence item: expected str instance, "
                           ++ type_name v ++ " found"))
  end.

(** A comma before every character of [s]: a byte from 128 to 191 continues
    the character before it. *)
Fixpoint comma_before_each (s : string) : string :=
  match s with
  | EmptyString => EmptyString
  | String c r =>
      let n := nat_of_ascii c in
      if ((128 <=? n) && (n <=? 191))%nat then String c (comma_before_each r)
      else String "," (String c (comma_before_each r))
  end.

Definition py_join_comma (v : PyVal) : Outcome string :=
  match v with
  | PList l => join_strs l
  | PDict d => join_strs (map (fun kv => PStr (fst kv)) d)
  | PStr s =>
      Returned (match s with
                | EmptyString => EmptyString
                | String c r => String c (comma_before_each r)
                end)
  | _ => Raised (TypeError "can only join an iterable")
  end.

(** [x or default] for an optional string *)
Definition opt_or (x : option string) (default : string) : string :=
  match x with
  | Some s => if Str.nonempty s then s else default
  | None => default
  end.

(** [sep.join(items)] for a list of strings *)
Fixpoint join_with (sep : string) (items : list string) : string :=
  match items with
  | [] => EmptyString
  | s :: rest =>
      match rest with
      | [] => s
      | _ => s ++ sep ++ join_with sep rest
      end
  end.

(** The bytes from 128 to 191 at the head of [s]: what continues a
    character begun before *)
Fixpoint continuation_bytes (s : string) : string :=
  match s with
  | String c r =>
      let n := nat_of_ascii c in
      if ((128 <=? n) && (n <=? 191))%nat then String c (continuation_bytes r)
      else EmptyString
  | EmptyString => EmptyString
  end.

(** [v[0]] *)
Definition py_first (v : PyVal) : Outcome PyVal :=
  match v with
  | PList (x :: _) => Returned x
  | PList [] => Raised (IndexError "list index out of range")
  | PStr (String c r) => Returned (PStr (String c (continuation_bytes r)))
  | PStr EmptyString => Raised (IndexError "string index out of range")
  | PDict _ => Raised (Exn "KeyError" "0")
  | _ => Raised (TypeError ("'" ++ type_name v ++ "' object is not subscriptable"))
  end.

(** [str(n)] for an [int] *)
Definition py_str_int (n : Z) : string := NilZero.string_of_int (Z.to_int n).

(* ================================================================== *)
(** * google_drive.py *)

Module GoogleDrive.

Open Scope se_scope.

Section Client.
(** The state of Google's services *)
Context {W : Type}.

(** A request of the Drive client [self.service] and of the Sheets client
    [self.sheets_service]: [service "files.copy" kwargs] stands for
    [self.service.files().copy(...).execute()] called with the keyword
    arguments [kwargs]. *)
Variable service : string -> list (string * PyVal) -> SE W PyVal.
Variable sheets_service : string -> list (string * PyVal) -> SE W PyVal.
Variable config : Config.Config.

Definition get_folder_id (folder : option string) : SE W string :=
  liftO (Config.get_folder_id config folder).

Definition copy_file (file_id new_name : PyVal) : SE W PyVal :=
  try_except
    (let file_metadata := PDict [("name", new_name)] in
     result <- service "files.copy"
                 [("fileId", file_id); ("body", file_metadata)] ;;
     ret result)
    (fun e => ret (PDict [])).

Definition rename_file (file_id new_name : PyVal) : SE W PyVal :=
  try_except
    (let file_metadata := PDict [("name", new_name)] in
     result <- service "files.update"
                 [("fileId", file_id); ("body", file_metadata)] ;;
     ret result)
    (fun e => ret (PDict [])).

Definition create_spreadsheet (title : string) (folder : option string)
  : SE W PyVal :=
  try_except
    (target_folder_id <- get_folder_id folder ;;
     let spreadsheet :=
       PDict [("properties", PDict [("title", PStr title)]);
              ("sheets",
               PList [PDict [("properties",
                              PDict [("title", PStr "Sheet1")])]])] in
     spreadsheet <- sheets_service "spreadsheets.create"
                      [("body", spreadsheet);
                       ("fields", PStr "spreadsheetId")] ;;
     spreadsheet_id <- liftO (py_getitem spreadsheet "spreadsheetId") ;;
     try_except
       (file <- service "files.get"
                  [("fileId", spreadsheet_id); ("fields", PStr "parents")] ;;
        parents <- liftO (py_get_default file "parents" (PList [])) ;;
        previous_parents <- liftO (py_join_comma parents) ;;
        if Str.nonempty previous_parents then
          service "files.update"
            [("fileId", spreadsheet_id);
             ("addParents", PStr target_folder_id);
             ("removeParents", PStr previous_parents);
             ("fields", PStr "id, parents")] ;;;
          ret tt
        else
          service "files.update"
            [("fileId", spreadsheet_id);
             ("addParents", PStr target_folder_id);
             ("fields", PStr "id, parents")] ;;;
          ret tt)
       (fun e => ret tt) ;;;
     let result :=
       PDict [("spreadsheetId", spreadsheet_id);
              ("title", PStr title);
              ("folder",
               PStr (opt_or folder (Config.default_folder config)))] in
     ret result)
    (fun e => ret (PDict [])).

(** The common body of [create_spreadsheet_from_template] and
    [create_spreadsheet_from_existing], which differ in the name of
    their first parameter and in their log messages. *)
Definition copy_spreadsheet (source_id : PyVal) (title : string)
           (folder : option string) : SE W PyVal :=
  try_except
    (target_folder_id <- get_folder_id folder ;;
     let file_metadata :=
       PDict [("name", PStr title);
              ("parents", PList [PStr target_folder_id])] in
     result <- service "files.copy"
                 [("fileId", source_id); ("body", file_metadata)] ;;
     if truthy result then
       id <- liftO (py_get result "id") ;;
       let response :=
         PDict [("spreadsheetId", id);
                ("title", PStr title);
                ("folder",
                 PStr (opt_or folder (Config.default_folder config)))] in
       ret response
     else ret (PDict []))
    (fun e => ret (PDict [])).

Definition create_spreadsheet_from_template := copy_spreadsheet.
Definition create_spreadsheet_from_existing := copy_spreadsheet.

(** The query of [list_files]: the files of any configured folder, or of
    the default folder when no folder is configured *)
Definition files_query : string :=
  if dict_nonempty (Config.folders config) then
    "(" ++ join_with " or "
             (map (fun kv => "'" ++ snd kv ++ "' in parents")
                  (Config.folders config))
        ++ ") and trashed=false"
  else "'" ++ Config.folder_id config ++ "' in parents and trashed=false".

(** One round of [for file in files:].  [get_folder_name] compares its
    argument with the configured identifiers, which are strings: anything
    else has no alias. *)
Definition annotate_file (file : PyVal) : Outcome PyVal :=
  match file with
  | PDict d =>
      let parents :=
        match dict_get "parents" d with Some v => v | None => PList [] end in
      if truthy parents then
        bindO (py_first parents)
              (fun first =>
                 let folder_name :=
                   match first with
                   | PStr id => Config.get_folder_name config id
                   | _ => EmptyString
                   end in
                 Returned
                   (PDict (dict_set "folder_name" (PStr folder_name)
                                    (dict_set "folder_id" first d))))
      else Returned file
  | v => Raised (AttributeError v "get")
  end.

Fixpoint annotate_files (files : list PyVal) : Outcome (list PyVal) :=
  match files with
  | [] => Returned []
  | file :: rest =>
      bindO (annotate_file file)
            (fun file' =>
               bindO (annotate_files rest)
                     (fun rest' => Returned (file' :: rest')))
  end.

(** [for file in files:] with its body, for whatever [files] is: a list is
    gone through; a dictionary or a string yields strings, which have no
    [get]; nothing else can be iterated over. *)
Definition annotate_all (files : PyVal) : Outcome PyVal :=
  match files with
  | PList l => bindO (annotate_files l) (fun l' => Returned (PList l'))
  | PDict ((k, _) :: _) => Raised (AttributeError (PStr k) "get")
  | PStr (String c r) => Raised (AttributeError (PStr EmptyString) "get")
  | PDict [] | PStr EmptyString => Returned files
  | v => Raised (TypeError ("'" ++ type_name v ++ "' object is not iterable"))
  end.

Definition list_files : SE W PyVal :=
  try_except
    (results <- service "files.list"
                  [("q", PStr files_query);
                   ("fields",
                    PStr "files(id, name, mimeType, parents, createdTime, modifiedTime)");
                   ("orderBy", PStr "modifiedTime desc")] ;;
     files <- liftO (py_get_default results "files" (PList [])) ;;
     if negb (truthy files) then
       ret (PList [PDict [("message", PStr "Folders are empty")]])
     else
       files <- liftO (annotate_all files) ;;
       ret files)
    (fun e => ret (PList [])).

End Client.
End GoogleDrive.

(* ================================================================== *)
(** * main.py *)

Module Main.

Open Scope se_scope.

(** The module's global [current_spreadsheet_id] and the outside world *)
Record State (W : Type) : Type := {
  current_spreadsheet_id : PyVal;
  world : W
}.
Arguments current_spreadsheet_id {W} s.
Arguments world {W} s.

(** [st] with its world replaced *)
Definition with_world {W} (st : State W) (w : W) : State W :=
  {| current_spreadsheet_id := current_spreadsheet_id st; world := w |}.

(** The objects [main.py] builds at import time and delegates to.
    [drive] has its methods in [google_drive.py]; the modules of [sheets],
    [slides] and [docs] are outside this development, so a call of one of
    their methods is a request by name: [sheets "list_sheets" [x]] is
    [sheets.list_sheets(x)], keyword arguments in the order written. *)
Record DriveClient (W : Type) : Type := {
  drive_copy_file : PyVal -> PyVal -> SE W PyVal;
  drive_rename_file : PyVal -> PyVal -> SE W PyVal;
  drive_create_spreadsheet : string -> option string -> SE W PyVal;
  drive_create_spreadsheet_from_template :
    PyVal -> string -> option string -> SE W PyVal;
  drive_create_spreadsheet_from_existing :
    PyVal -> string -> option string -> SE W PyVal
}.
Arguments drive_copy_file {W} d.
Arguments drive_rename_file {W} d.
Arguments drive_create_spreadsheet {W} d.
Arguments drive_create_spreadsheet_from_template {W} d.
Arguments drive_create_spreadsheet_from_existing {W} d.

(** [drive = GoogleDrive(auth)] *)
Definition google_drive {W} (service sheets_service
                             : string -> list (string * PyVal) -> SE W PyVal)
           (config : Config.Config) : DriveClient W :=
  {| drive_copy_file := GoogleDrive.copy_file service;
     drive_rename_file := GoogleDrive.rename_file service;
     drive_create_spreadsheet :=
       GoogleDrive.create_spreadsheet service sheets_service config;
     drive_create_spreadsheet_from_template :=
       GoogleDrive.create_spreadsheet_from_template service config;
     drive_create_spreadsheet_from_existing :=
       GoogleDrive.create_spreadsheet_from_existing service config |}.

Section Tools.
Context {W : Type}.
Variable json_loads : string -> Outcome PyVal.
Variable drive : DriveClient W.
Variables sheets slides docs : string -> list PyVal -> SE W PyVal.

Definition M (A : Type) : Type := SE (State W) A.

(** A call of a collaborator: it acts on the world, not on the global. *)
Definition delegate {A} (call : SE W A) : M A :=
  fun st => let (r, w) := call (world st) in (r, with_world st w).

Definition get_current : M PyVal :=
  fun st => (Returned (current_spreadsheet_id st), st).

Definition set_current (id : PyVal) : M unit :=
  fun st => (Returned tt,
             {| current_spreadsheet_id := id; world := world st |}).

(** ** Drive tools *)

Definition copy_file (file_id new_name : PyVal) : M PyVal :=
  delegate (drive_copy_file drive file_id new_name).

Definition rename_file (file_id new_name : PyVal) : M PyVal :=
  delegate (drive_rename_file drive file_id new_name).

(** The lines the three creation tools share, after the delegate
    returned [result]:
    [spreadsheet_id = result.get('spreadsheetId') or result.get('id')]
    and the assignment to the global. *)
Definition remember_created (result : PyVal) : M unit :=
  if truthy result then
    a <- liftO (py_get result "spreadsheetId") ;;
    spreadsheet_id <- (if truthy a then ret a
                       else liftO (py_get result "id")) ;;
    if truthy spreadsheet_id then set_current spreadsheet_id
    else ret tt
  else ret tt.

Definition create_spreadsheet (title : string) (folder : option string)
  : M PyVal :=
  result <- delegate (drive_create_spreadsheet drive title folder) ;;
  remember_created result ;;;
  ret result.

Definition create_spreadsheet_from_template
           (template_id : PyVal) (title : string) (folder : option string)
  : M PyVal :=
  result <- delegate (drive_create_spreadsheet_from_template
                        drive template_id title folder) ;;
  remember_created result ;;;
  ret result.

Definition create_spreadsheet_from_existing
           (source_id : PyVal) (title : string) (folder : option string)
  : M PyVal :=
  result <- delegate (drive_create_spreadsheet_from_existing
                        drive source_id title folder) ;;
  remember_created result ;;;
  ret result.

(** ** Sheet tools *)

(** The block every sheet tool but [add_sheet] opens with:
    [if spreadsheet_id is None: spreadsheet_id = current_spreadsheet_id] *)
Definition or_current (spreadsheet_id : PyVal) : M PyVal :=
  match spreadsheet_id with
  | PNone => get_current
  | _ => ret spreadsheet_id
  end.

Definition list_sheets (spreadsheet_id : PyVal) : M PyVal :=
  spreadsheet_id <- or_current spreadsheet_id ;;
  delegate (sheets "list_sheets" [spreadsheet_id]).

Definition add_sheet (spreadsheet_id sheet_name : PyVal) : M PyVal :=
  delegate (sheets "add_sheet" [spreadsheet_id; sheet_name]).

Definition duplicate_sheet (spreadsheet_id sheet_id new_name : PyVal)
  : M PyVal :=
  spreadsheet_id <- or_current spreadsheet_id ;;
  delegate (sheets "duplicate_sheet" [spreadsheet_id; sheet_id; new_name]).

Definition rename_sheet (spreadsheet_id sheet_id new_name : PyVal)
  : M PyVal :=
  spreadsheet_id <- or_current spreadsheet_id ;;
  delegate (sheets "rename_sheet" [spreadsheet_id; sheet_id; new_name]).

Definition get_sheet_data (spreadsheet_id sheet_name range_name : PyVal)
  : M PyVal :=
  spreadsheet_id <- or_current spreadsheet_id ;;
  delegate (sheets "get_sheet_data" [spreadsheet_id; sheet_name; range_name]).

Definition add_rows (spreadsheet_id sheet_name values : PyVal) : M PyVal :=
  spreadsheet_id <- or_current spreadsheet_id ;;
  delegate (sheets "add_rows" [spreadsheet_id; sheet_name; values]).

Definition add_columns (spreadsheet_id sheet_name values : PyVal)
  : M PyVal :=
  spreadsheet_id <- or_current spreadsheet_id ;;
  delegate (sheets "add_columns" [spreadsheet_id; sheet_name; values]).

Definition update_cells (spreadsheet_id sheet_name range_name values : PyVal)
  : M PyVal :=
  spreadsheet_id <- or_current spreadsheet_id ;;
  delegate (sheets "update_cells"
                   [spreadsheet_id; sheet_name; range_name; values]).

Definition batch_update_cells (spreadsheet_id sheet_name updates : PyVal)
  : M PyVal :=
  spreadsheet_id <- or_current spreadsheet_id ;;
  delegate (sheets "batch_update_cells"
                   [spreadsheet_id; sheet_name; updates]).

Definition delete_rows (spreadsheet_id sheet_name start_index end_index
                        : PyVal) : M PyVal :=
  spreadsheet_id <- or_current spreadsheet_id ;;
  delegate (sheets "delete_rows"
                   [spreadsheet_id; sheet_name; start_index; end_index]).

Definition delete_columns (spreadsheet_id sheet_name start_index end_index
                           : PyVal) : M PyVal :=
  spreadsheet_id <- or_current spreadsheet_id ;;
  delegate (sheets "delete_columns"
                   [spreadsheet_id; sheet_name; start_index; end_index]).

Definition create_chart (chart_type range_name sheet_name spreadsheet_id
                         title : PyVal) : M PyVal :=
  spreadsheet_id <- or_current spreadsheet_id ;;
  delegate (sheets "create_chart"
                   [chart_type; range_name; sheet_name; spreadsheet_id;
                    title]).

(** ** Slides and Docs tools *)

Definition failure (message : string) : PyVal :=
  PDict [("success", PBool false); ("message", PStr message)].

Definition create_presentation (title : string) : M PyVal :=
  presentation_id <- delegate (slides "create_presentation" [PStr title]) ;;
  if truthy presentation_id then
    dimensions <- delegate (slides "get_slide_dimensions"
                                   [presentation_id; PStr "p"]) ;;
    ret (PDict [("success", PBool true);
                ("presentation_id", presentation_id);
                ("message", PStr ("Created presentation: " ++ title));
                ("dimensions", dimensions)])
  else ret (failure "Failed to create presentation").

(** Lines 393-407 of [add_slide_to_presentation]: what becomes of the
    [content] argument before the delegate sees it. *)
Definition slide_content (content : PyVal) : Outcome PyVal :=
  match content with
  | PStr text =>
      let stripped := Str.strip_char "`" text in
      bindO (match json_loads stripped with
             | Returned parsed_content => Returned parsed_content
             | Raised e =>
                 if exn_type e =? "JSONDecodeError"
                 then Returned (PStr stripped)
                 else Raised e
             end)
            (fun content =>
               match content with
               | PStr s => Returned (PStr (Str.replace_escaped_newlines s))
               | v => Raised (AttributeError v "replace")
               end)
  | _ => Returned content
  end.

(** [result and result.get('success')], as a condition *)
Definition reports_success (result : PyVal) : Outcome bool :=
  if truthy result
  then bindO (py_get result "success") (fun s => Returned (truthy s))
  else Returned false.

Definition add_slide_to_presentation
           (presentation_id : PyVal) (title : string) (content : PyVal)
  : M PyVal :=
  try_except
    (content <- liftO (slide_content content) ;;
     result <- delegate (slides "add_slide"
                                [presentation_id; PStr title; content]) ;;
     ok <- liftO (reports_success result) ;;
     if ok then
       slide_id <- liftO (py_get result "slide_id") ;;
       dimensions <- liftO (py_get result "dimensions") ;;
       ret (PDict [("success", PBool true);
                   ("message", PStr ("Added slide: " ++ title));
                   ("slide_id", slide_id);
                   ("dimensions", dimensions)])
     else ret (failure "Failed to add slide"))
    (fun e => ret (failure ("Error: " ++ exn_str e))).

Definition add_image_to_slide
           (presentation_id slide_id image_url x y width height rotation
            : PyVal) : M PyVal :=
  try_except
    (image_id <- delegate (slides "add_image"
                             [presentation_id; slide_id; image_url;
                              x; y; width; height; rotation]) ;;
     if truthy image_id then
       ret (PDict [("success", PBool true);
                   ("message", PStr "Image added successfully");
                   ("image_id", image_id)])
     else ret (failure "Failed to add image"))
    (fun e => ret (failure ("Error adding image: " ++ exn_str e))).

Definition get_presentation_details (presentation_id : PyVal) : M PyVal :=
  presentation <- delegate (slides "get_presentation" [presentation_id]) ;;
  if truthy presentation then
    ret (PDict [("success", PBool true); ("presentation", presentation)])
  else ret (failure "Failed to get presentation details").

Definition delete_presentation (presentation_id : PyVal) : M PyVal :=
  success <- delegate (slides "delete_presentation" [presentation_id]) ;;
  if truthy success then
    ret (PDict [("success", PBool true);
                ("message", PStr "Deleted presentation")])
  else ret (failure "Failed to delete presentation").

Definition search_slide_elements
           (presentation_id slide_id element_type : PyVal) : M PyVal :=
  try_except
    (elements <- delegate (slides "search_elements"
                             [presentation_id; slide_id; element_type]) ;;
     ret (PDict [("success", PBool true); ("elements", elements)]))
    (fun e => ret (failure (exn_str e))).

Definition delete_slide_element
           (presentation_id slide_id element_id : PyVal) : M PyVal :=
  try_except
    (success <- delegate (slides "delete_element"
                            [presentation_id; slide_id; element_id]) ;;
     ret (PDict [("success", success);
                 ("message",
                  PStr (if truthy success
                        then "Element deleted successfully"
                        else "Failed to delete element"))]))
    (fun e => ret (failure (exn_str e))).

Definition create_document (title : string) : M PyVal :=
  document_id <- delegate (docs "create_document" [PStr title]) ;;
  if truthy document_id then
    ret (PDict [("success", PBool true);
                ("document_id", document_id);
                ("message", PStr ("Created document: " ++ title))])
  else ret (failure "Failed to create document").

Definition delete_document (document_id : PyVal) : M PyVal :=
  success <- delegate (docs "delete_document" [document_id]) ;;
  if truthy success then
    ret (PDict [("success", PBool true);
                ("message", PStr "Deleted document")])
  else ret (failure "Failed to delete document").

(** ** The tools by family *)

(** The three tools that create a spreadsheet, with their arguments *)
Inductive CreationTool : Type :=
| Blank (title : string) (folder : option string)
| FromTemplate (template_id : PyVal) (title : string) (folder : option string)
| FromExisting (source_id : PyVal) (title : string) (folder : option string).

Definition run_creation (t : CreationTool) : M PyVal :=
  match t with
  | Blank title folder => create_spreadsheet title folder
  | FromTemplate id title folder =>
      create_spreadsheet_from_template id title folder
  | FromExisting id title folder =>
      create_spreadsheet_from_existing id title folder
  end.

(** The method of [drive] a creation tool delegates to *)
Definition creation_delegate (t : CreationTool) : SE W PyVal :=
  match t with
  | Blank title folder => drive_create_spreadsheet drive title folder
  | FromTemplate id title folder =>
      drive_create_spreadsheet_from_template drive id title folder
  | FromExisting id title folder =>
      drive_create_spreadsheet_from_existing drive id title folder
  end.

(** The sheet tools that fall back on the current spreadsheet, with
    their arguments other than [spreadsheet_id] *)
Inductive SheetTool : Type :=
| ListSheets
| DuplicateSheet (sheet_id new_name : PyVal)
| RenameSheet (sheet_id new_name : PyVal)
| GetSheetData (sheet_name range_name : PyVal)
| AddRows (sheet_name values : PyVal)
| AddColumns (sheet_name values : PyVal)
| UpdateCells (sheet_name range_name values : PyVal)
| BatchUpdateCells (sheet_name updates : PyVal)
| DeleteRows (sheet_name start_index end_index : PyVal)
| DeleteColumns (sheet_name start_index end_index : PyVal)
| CreateChart (chart_type range_name sheet_name title : PyVal).

Definition run_sheet (t : SheetTool) (spreadsheet_id : PyVal) : M PyVal :=
  match t with
  | ListSheets => list_sheets spreadsheet_id
  | DuplicateSheet a b => duplicate_sheet spreadsheet_id a b
  | RenameSheet a b => rename_sheet spreadsheet_id a b
  | GetSheetData a b => get_sheet_data spreadsheet_id a b
  | AddRows a b => add_rows spreadsheet_id a b
  | AddColumns a b => add_columns spreadsheet_id a b
  | UpdateCells a b c => update_cells spreadsheet_id a b c
  | BatchUpdateCells a b => batch_update_cells spreadsheet_id a b
  | DeleteRows a b c => delete_rows spreadsheet_id a b c
  | DeleteColumns a b c => delete_columns spreadsheet_id a b c
  | CreateChart a b c d => create_chart a b c spreadsheet_id d
  end.

(** The request to [sheets] a sheet tool makes for the spreadsheet [id] *)
Definition sheet_request (t : SheetTool) (id : PyVal) : SE W PyVal :=
  match t with
  | ListSheets => sheets "list_sheets" [id]
  | DuplicateSheet a b => sheets "duplicate_sheet" [id; a; b]
  | RenameSheet a b => sheets "rename_sheet" [id; a; b]
  | GetSheetData a b => sheets "get_sheet_data" [id; a; b]
  | AddRows a b => sheets "add_rows" [id; a; b]
  | AddColumns a b => sheets "add_columns" [id; a; b]
  | UpdateCells a b c => sheets "update_cells" [id; a; b; c]
  | BatchUpdateCells a b => sheets "batch_update_cells" [id; a; b]
  | DeleteRows a b c => sheets "delete_rows" [id; a; b; c]
  | DeleteColumns a b c => sheets "delete_columns" [id; a; b; c]
  | CreateChart a b c d => sheets "create_chart" [a; b; c; id; d]
  end.

End Tools.

(** The state [main.py] starts in: [current_spreadsheet_id = None] *)
Definition initial {W} (w : W) : State W :=
  {| current_spreadsheet_id := PNone; world := w |}.

(** ** The other tools *)

Section MoreTools.
Context {W : Type}.
Variable drive_list_files : SE W PyVal.
Variables slides docs : string -> list PyVal -> SE W PyVal.

Definition list_files : @M W PyVal := delegate drive_list_files.

Definition succeeded (message : string) : PyVal :=
  PDict [("success", PBool true); ("message", PStr message)].

(** The shape of most Docs tools:
    [success = call; if success: return {success: True, message: ok}]
    [return {success: False, message: fail}] *)
Definition tested (call : SE W PyVal) (ok fail : string) : @M W PyVal :=
  success <- delegate call ;;
  if truthy success then ret (succeeded ok) else ret (failure fail).

(** The shape of the Slides tools that update or delete:
    [try: success = call;]
    [return {'success': success, 'message': ok if success else fail}]
    [except Exception as e: return {'success': False, 'message': str(e)}] *)
Definition reported (call : SE W PyVal) (ok fail : string) : @M W PyVal :=
  try_except
    (success <- delegate call ;;
     ret (PDict [("success", success);
                 ("message", PStr (if truthy success then ok else fail))]))
    (fun e => ret (failure (exn_str e))).

(** The shape of the Slides tools that add an element:
    [try: id = call; if id: return {success: True, message: ok, key: id}]
    [else: return {success: False, message: fail}]
    [except Exception as e: return {success: False, message: prefix + str(e)}] *)
Definition guarded (call : SE W PyVal) (ok key fail error_prefix : string)
  : @M W PyVal :=
  try_except
    (id <- delegate call ;;
     if truthy id then
       ret (PDict [("success", PBool true); ("message", PStr ok); (key, id)])
     else ret (failure fail))
    (fun e => ret (failure (error_prefix ++ exn_str e))).

(** *** Slides *)

Definition update_text_style
           (presentation_id slide_id element_id font_family font_size
            font_weight font_style foreground_color background_color : PyVal)
  : @M W PyVal :=
  reported (slides "update_text_style"
                   [presentation_id; slide_id; element_id; font_family;
                    font_size; font_weight; font_style; foreground_color;
                    background_color])
           "Text style updated successfully" "Failed to update text style".

Definition update_shape_style
           (presentation_id slide_id element_id width height x y fill_color
            border_color border_width : PyVal) : @M W PyVal :=
  reported (slides "update_shape_style"
                   [presentation_id; slide_id; element_id; width; height;
                    x; y; fill_color; border_color; border_width])
           "Shape style updated successfully" "Failed to update shape style".

Definition add_shape_to_slide
           (presentation_id slide_id shape_type x y width height fill_color
            border_color border_width : PyVal) : @M W PyVal :=
  guarded (slides "add_shape"
                  [presentation_id; slide_id; shape_type; x; y; width; height;
                   fill_color; border_color; border_width])
          "Shape added successfully" "shape_id" "Failed to add shape"
          "Error adding shape: ".

Definition add_line_to_slide
           (presentation_id slide_id start_x start_y end_x end_y line_color
            line_width line_type : PyVal) : @M W PyVal :=
  guarded (slides "add_line"
                  [presentation_id; slide_id; start_x; start_y; end_x; end_y;
                   line_color; line_width; line_type])
          "Line added successfully" "line_id" "Failed to add line"
          "Error adding line: ".

Definition update_slide_background
           (presentation_id slide_id background_color background_image_url
            : PyVal) : @M W PyVal :=
  reported (slides "update_slide_background"
                   [presentation_id; slide_id; background_color;
                    background_image_url])
           "Slide background updated successfully"
           "Failed to update slide background".

Definition update_slide_layout (presentation_id slide_id layout_type : PyVal)
  : @M W PyVal :=
  reported (slides "update_slide_layout"
                   [presentation_id; slide_id; layout_type])
           "Slide layout updated successfully" "Failed to update slide layout".

Definition update_slide_transition
           (presentation_id slide_id transition_type duration : PyVal)
  : @M W PyVal :=
  reported (slides "update_slide_transition"
                   [presentation_id; slide_id; transition_type; duration])
           "Slide transition updated successfully"
           "Failed to update slide transition".

Definition add_slide_notes (presentation_id slide_id notes_text : PyVal)
  : @M W PyVal :=
  reported (slides "add_slide_notes" [presentation_id; slide_id; notes_text])
           "Slide notes updated successfully" "Failed to update slide notes".

(** *** Docs *)

Definition insert_text_to_document
           (document_id text index font_family font_size bold italic underline
            strikethrough foreground_color background_color alignment
            line_spacing space_before space_after first_line_indent bullet
            numbered_list : PyVal) : @M W PyVal :=
  tested (docs "insert_text"
               [document_id; text; index; font_family; font_size; bold; italic;
                underline; strikethrough; foreground_color; background_color;
                alignment; line_spacing; space_before; space_after;
                first_line_indent; bullet; numbered_list])
         "Inserted text into document with formatting" "Failed to insert text".

Definition insert_heading_to_document
           (document_id text : PyVal) (level : Z) (index : PyVal)
  : @M W PyVal :=
  tested (docs "insert_heading" [document_id; text; PInt level; index])
         ("Inserted heading level " ++ py_str_int level)
         "Failed to insert heading".

Definition insert_image_to_document (document_id image_url index : PyVal)
  : @M W PyVal :=
  tested (docs "insert_image" [document_id; image_url; index])
         "Inserted image into document" "Failed to insert image".

Definition get_document_details (document_id : PyVal) : @M W PyVal :=
  document <- delegate (docs "get_document" [document_id]) ;;
  if truthy document then
    ret (PDict [("success", PBool true); ("document", document)])
  else ret (failure "Failed to get document details").

Definition create_table_in_document
           (document_id : PyVal) (rows columns : Z) (index : PyVal)
  : @M W PyVal :=
  tested (docs "create_table" [document_id; PInt rows; PInt columns; index])
         ("Created " ++ py_str_int rows ++ "x" ++ py_str_int columns ++ " table")
         "Failed to create table".

Definition update_text_style_in_document
           (document_id start_index end_index font_family font_size bold italic
            underline strikethrough foreground_color background_color : PyVal)
  : @M W PyVal :=
  tested (docs "update_text_style"
               [document_id; start_index; end_index; font_family; font_size;
                bold; italic; underline; strikethrough; foreground_color;
                background_color])
         "Text style updated successfully" "Failed to update text style".

Definition update_paragraph_style_in_document
           (document_id start_index end_index alignment line_spacing
            space_before space_after first_line_indent bullet numbered_list
            : PyVal) : @M W PyVal :=
  tested (docs "update_paragraph_style"
               [document_id; start_index; end_index; alignment; line_spacing;
                space_before; space_after; first_line_indent; bullet;
                numbered_list])
         "Paragraph style updated successfully"
         "Failed to update paragraph style".

Definition insert_page_break_in_document (document_id index : PyVal)
  : @M W PyVal :=
  tested (docs "insert_page_break" [document_id; index])
         "Page break inserted successfully" "Failed to insert page break".

Definition insert_horizontal_rule_in_document (document_id index : PyVal)
  : @M W PyVal :=
  tested (docs "insert_horizontal_rule" [document_id; index])
         "Horizontal rule inserted successfully"
         "Failed to insert horizontal rule".

Definition update_table_cell_content
           (document_id table_id row_index column_index content : PyVal)
  : @M W PyVal :=
  tested (docs "update_table_cell_content"
               [document_id; table_id; row_index; column_index; content])
         "Updated table cell content" "Failed to update table cell content".

Definition update_table_cell_style
           (document_id table_id row_index column_index background_color
            border_color border_width padding : PyVal) : @M W PyVal :=
  tested (docs "update_table_cell_style"
               [document_id; table_id; row_index; column_index;
                background_color; border_color; border_width; padding])
         "Table cell style updated successfully"
         "Failed to update table cell style".

Definition update_table_row_style
           (document_id table_id row_index background_color height : PyVal)
  : @M W PyVal :=
  tested (docs "update_table_row_style"
               [document_id; table_id; row_index; background_color; height])
         "Table row style updated successfully"
         "Failed to update table row style".

Definition update_table_column_style
           (document_id table_id column_index width : PyVal) : @M W PyVal :=
  tested (docs "update_table_column_style"
               [document_id; table_id; column_index; width])
         "Table column style updated successfully"
         "Failed to update table column style".

Definition merge_table_cells
           (document_id table_id start_row start_column end_row end_column
            : PyVal) : @M W PyVal :=
  tested (docs "merge_table_cells"
               [document_id; table_id; start_row; start_column; end_row;
                end_column])
         "Table cells merged successfully" "Failed to merge table cells".

Definition insert_table_row (document_id table_id row_index num_rows : PyVal)
  : @M W PyVal :=
  tested (docs "insert_table_row" [document_id; table_id; row_index; num_rows])
         "Table rows inserted successfully" "Failed to insert table rows".

Definition insert_table_column
           (document_id table_id column_index num_columns : PyVal)
  : @M W PyVal :=
  tested (docs "insert_table_column"
               [document_id; table_id; column_index; num_columns])
         "Table columns inserted successfully"
         "Failed to insert table columns".

Definition delete_table_row (document_id table_id row_index num_rows : PyVal)
  : @M W PyVal :=
  tested (docs "delete_table_row" [document_id; table_id; row_index; num_rows])
         "Table rows deleted successfully" "Failed to delete table rows".

Definition delete_table_column
           (document_id table_id column_index num_columns : PyVal)
  : @M W PyVal :=
  tested (docs "delete_table_column"
               [document_id; table_id; column_index; num_columns])
         "Table columns deleted successfully" "Failed to delete table columns".

Definition update_document_style
           (document_id default_font_family default_font_size
            default_line_spacing default_margin_top default_margin_bottom
            default_margin_left default_margin_right default_page_color
            : PyVal) : @M W PyVal :=
  tested (docs "update_document_style"
               [document_id; default_font_family; default_font_size;
                default_line_spacing; default_margin_top;
                default_margin_bottom; default_margin_left;
                default_margin_right; default_page_color])
         "Document style updated successfully"
         "Failed to update document style".

Definition create_table_with_content (document_id rows columns content : PyVal)
  : @M W PyVal :=
  tested (docs "create_table_and_insert_text"
               [document_id; rows; columns; content])
         "Created table and inserted content successfully"
         "Failed to create table and insert content".

End MoreTools.

(** ** All the tools *)

(** A call of a tool by the client: the tool and its arguments.  The first
    two constructors stand for the families above; the others are one tool
    each, in the order of [main.py]. *)
Inductive Tool : Type :=
| Creation (c : CreationTool)
| Sheet (t : SheetTool) (spreadsheet_id : PyVal)
| ListFiles
| CopyFile (file_id new_name : PyVal)
| RenameFile (file_id new_name : PyVal)
| AddSheet (spreadsheet_id sheet_name : PyVal)
| CreatePresentation (title : string)
| AddSlideToPresentation (presentation_id : PyVal) (title : string) (content
    : PyVal)
| AddImageToSlide (presentation_id slide_id image_url x y width height
    rotation : PyVal)
| GetPresentationDetails (presentation_id : PyVal)
| DeletePresentation (presentation_id : PyVal)
| CreateDocument (title : string)
| InsertTextToDocument (document_id text index font_family font_size bold
    italic underline strikethrough foreground_color background_color
    alignment line_spacing space_before space_after first_line_indent bullet
    numbered_list : PyVal)
| InsertHeadingToDocument (document_id text : PyVal) (level : Z) (index :
    PyVal)
| InsertImageToDocument (document_id image_url index : PyVal)
| GetDocumentDetails (document_id : PyVal)
| DeleteDocument (document_id : PyVal)
| CreateTableInDocument (document_id : PyVal) (rows columns : Z) (index :
    PyVal)
| SearchSlideElements (presentation_id slide_id element_type : PyVal)
| UpdateTextStyle (presentation_id slide_id element_id font_family font_size
    font_weight font_style foreground_color background_color : PyVal)
| UpdateShapeStyle (presentation_id slide_id element_id width height x y
    fill_color border_color border_width : PyVal)
| DeleteSlideElement (presentation_id slide_id element_id : PyVal)
| AddShapeToSlide (presentation_id slide_id shape_type x y width height
    fill_color border_color border_width : PyVal)
| AddLineToSlide (presentation_id slide_id start_x start_y end_x end_y
    line_color line_width line_type : PyVal)
| UpdateSlideBackground (presentation_id slide_id background_color
    background_image_url : PyVal)
| UpdateSlideLayout (presentation_id slide_id layout_type : PyVal)
| UpdateSlideTransition (presentation_id slide_id transition_type duration :
    PyVal)
| AddSlideNotes (presentation_id slide_id notes_text : PyVal)
| UpdateTextStyleInDocument (document_id start_index end_index font_family
    font_size bold italic underline strikethrough foreground_color
    background_color : PyVal)
| UpdateParagraphStyleInDocument (document_id start_index end_index
    alignment line_spacing space_before space_after first_line_indent bullet
    numbered_list : PyVal)
| InsertPageBreakInDocument (document_id index : PyVal)
| InsertHorizontalRuleInDocument (document_id index : PyVal)
| UpdateTableCellContent (document_id table_id row_index column_index
    content : PyVal)
| UpdateTableCellStyle (document_id table_id row_index column_index
    background_color border_color border_width padding : PyVal)
| UpdateTableRowStyle (document_id table_id row_index background_color
    height : PyVal)
| UpdateTableColumnStyle (document_id table_id column_index width : PyVal)
| MergeTableCells (document_id table_id start_row start_column end_row
    end_column : PyVal)
| InsertTableRow (document_id table_id row_index num_rows : PyVal)
| InsertTableColumn (document_id table_id column_index num_columns : PyVal)
| DeleteTableRow (document_id table_id row_index num_rows : PyVal)
| DeleteTableColumn (document_id table_id column_index num_columns : PyVal)
| UpdateDocumentStyle (document_id default_font_family default_font_size
    default_line_spacing default_margin_top default_margin_bottom
    default_margin_left default_margin_right default_page_color : PyVal)
| CreateTableWithContent (document_id rows columns content : PyVal).

Section Dispatch.
Context {W : Type}.
Variable json_loads : string -> Outcome PyVal.
Variable drive : DriveClient W.
Variable drive_list_files : SE W PyVal.
Variables sheets slides docs : string -> list PyVal -> SE W PyVal.

(** The tool function a call runs *)
Definition run_tool (call : Tool) : @M W PyVal :=
  match call with
  | Creation c => run_creation drive c
  | Sheet t spreadsheet_id => run_sheet sheets t spreadsheet_id
  | ListFiles => list_files drive_list_files
  | CopyFile a1 a2 => copy_file drive a1 a2
  | RenameFile a1 a2 => rename_file drive a1 a2
  | AddSheet a1 a2 => add_sheet sheets a1 a2
  | CreatePresentation a1 => create_presentation slides a1
  | AddSlideToPresentation a1 a2 a3 =>
      add_slide_to_presentation json_loads slides a1 a2 a3
  | AddImageToSlide a1 a2 a3 a4 a5 a6 a7 a8 =>
      add_image_to_slide slides a1 a2 a3 a4 a5 a6 a7 a8
  | GetPresentationDetails a1 => get_presentation_details slides a1
  | DeletePresentation a1 => delete_presentation slides a1
  | CreateDocument a1 => create_document docs a1
  | InsertTextToDocument a1 a2 a3 a4 a5 a6 a7 a8 a9 a10 a11 a12 a13 a14 a15 a16 a17 a18 =>
      insert_text_to_document docs a1 a2 a3 a4 a5 a6 a7 a8 a9 a10 a11 a12
        a13 a14 a15 a16 a17 a18
  | InsertHeadingToDocument a1 a2 a3 a4 =>
      insert_heading_to_document docs a1 a2 a3 a4
  | InsertImageToDocument a1 a2 a3 => insert_image_to_document docs a1 a2 a3
  | GetDocumentDetails a1 => get_document_details docs a1
  | DeleteDocument a1 => delete_document docs a1
  | CreateTableInDocument a1 a2 a3 a4 =>
      create_table_in_document docs a1 a2 a3 a4
  | SearchSlideElements a1 a2 a3 => search_slide_elements slides a1 a2 a3
  | UpdateTextStyle a1 a2 a3 a4 a5 a6 a7 a8 a9 =>
      update_text_style slides a1 a2 a3 a4 a5 a6 a7 a8 a9
  | UpdateShapeStyle a1 a2 a3 a4 a5 a6 a7 a8 a9 a10 =>
      update_shape_style slides a1 a2 a3 a4 a5 a6 a7 a8 a9 a10
  | DeleteSlideElement a1 a2 a3 => delete_slide_element slides a1 a2 a3
  | AddShapeToSlide a1 a2 a3 a4 a5 a6 a7 a8 a9 a10 =>
      add_shape_to_slide slides a1 a2 a3 a4 a5 a6 a7 a8 a9 a10
  | AddLineToSlide a1 a2 a3 a4 a5 a6 a7 a8 a9 =>
      add_line_to_slide slides a1 a2 a3 a4 a5 a6 a7 a8 a9
  | UpdateSlideBackground a1 a2 a3 a4 =>
      update_slide_background slides a1 a2 a3 a4
  | UpdateSlideLayout a1 a2 a3 => update_slide_layout slides a1 a2 a3
  | UpdateSlideTransition a1 a2 a3 a4 =>
      update_slide_transition slides a1 a2 a3 a4
  | AddSlideNotes a1 a2 a3 => add_slide_notes slides a1 a2 a3
  | UpdateTextStyleInDocument a1 a2 a3 a4 a5 a6 a7 a8 a9 a10 a11 =>
      update_text_style_in_document docs a1 a2 a3 a4 a5 a6 a7 a8 a9 a10 a11
  | UpdateParagraphStyleInDocument a1 a2 a3 a4 a5 a6 a7 a8 a9 a10 =>
      update_paragraph_style_in_document docs a1 a2 a3 a4 a5 a6 a7 a8 a9 a10
  | InsertPageBreakInDocument a1 a2 =>
      insert_page_break_in_document docs a1 a2
  | InsertHorizontalRuleInDocument a1 a2 =>
      insert_horizontal_rule_in_document docs a1 a2
  | UpdateTableCellContent a1 a2 a3 a4 a5 =>
      update_table_cell_content docs a1 a2 a3 a4 a5
  | UpdateTableCellStyle a1 a2 a3 a4 a5 a6 a7 a8 =>
      update_table_cell_style docs a1 a2 a3 a4 a5 a6 a7 a8
  | UpdateTableRowStyle a1 a2 a3 a4 a5 =>
      update_table_row_style docs a1 a2 a3 a4 a5
  | UpdateTableColumnStyle a1 a2 a3 a4 =>
      update_table_column_style docs a1 a2 a3 a4
  | MergeTableCells a1 a2 a3 a4 a5 a6 =>
      merge_table_cells docs a1 a2 a3 a4 a5 a6
  | InsertTableRow a1 a2 a3 a4 => insert_table_row docs a1 a2 a3 a4
  | InsertTableColumn a1 a2 a3 a4 => insert_table_column docs a1 a2 a3 a4
  | DeleteTableRow a1 a2 a3 a4 => delete_table_row docs a1 a2 a3 a4
  | DeleteTableColumn a1 a2 a3 a4 => delete_table_column docs a1 a2 a3 a4
  | UpdateDocumentStyle a1 a2 a3 a4 a5 a6 a7 a8 a9 =>
      update_document_style docs a1 a2 a3 a4 a5 a6 a7 a8 a9
  | CreateTableWithContent a1 a2 a3 a4 =>
      create_table_with_content docs a1 a2 a3 a4
  end.

(** The request a tool makes of its collaborator (for
    [create_presentation], the first of its two), given the current
    spreadsheet identifier; [None] when the tool raises before it gets to
    make one, which only the content preparation of
    [add_slide_to_presentation] can do. *)
Definition delegated (call : Tool) (current : PyVal) : option (SE W PyVal) :=
  match call with
  | Creation c =>
      Some (creation_delegate drive c)
  | Sheet t spreadsheet_id =>
      Some (sheet_request sheets t
              (match spreadsheet_id with
               | PNone => current
               | _ => spreadsheet_id
               end))
  | ListFiles =>
      Some drive_list_files
  | CopyFile file_id new_name =>
      Some (drive_copy_file drive file_id new_name)
  | RenameFile file_id new_name =>
      Some (drive_rename_file drive file_id new_name)
  | AddSheet spreadsheet_id sheet_name =>
      Some (sheets "add_sheet" [spreadsheet_id; sheet_name])
  | CreatePresentation title =>
      Some (slides "create_presentation" [PStr title])
  | AddSlideToPresentation presentation_id title content =>
      match slide_content json_loads content with
      | Returned prepared =>
          Some (slides "add_slide" [presentation_id; PStr title; prepared])
      | Raised _ => None
      end
  | AddImageToSlide presentation_id slide_id image_url x y width height
      rotation =>
      Some (slides "add_image" [presentation_id; slide_id; image_url; x; y;
              width; height; rotation])
  | GetPresentationDetails presentation_id =>
      Some (slides "get_presentation" [presentation_id])
  | DeletePresentation presentation_id =>
      Some (slides "delete_presentation" [presentation_id])
  | CreateDocument title =>
      Some (docs "create_document" [PStr title])
  | InsertTextToDocument document_id text index font_family font_size bold
      italic underline strikethrough foreground_color background_color
      alignment line_spacing space_before space_after first_line_indent bullet
      numbered_list =>
      Some (docs "insert_text" [document_id; text; index; font_family;
              font_size; bold; italic; underline; strikethrough;
              foreground_color; background_color; alignment; line_spacing;
              space_before; space_after; first_line_indent; bullet;
              numbered_list])
  | InsertHeadingToDocument document_id text level index =>
      Some (docs "insert_heading" [document_id; text; PInt level; index])
  | InsertImageToDocument document_id image_url index =>
      Some (docs "insert_image" [document_id; image_url; index])
  | GetDocumentDetails document_id =>
      Some (docs "get_document" [document_id])
  | DeleteDocument document_id =>
      Some (docs "delete_document" [document_id])
  | CreateTableInDocument document_id rows columns index =>
      Some (docs "create_table" [document_id; PInt rows; PInt columns;
              index])
  | SearchSlideElements presentation_id slide_id element_type =>
      Some (slides "search_elements" [presentation_id; slide_id;
              element_type])
  | UpdateTextStyle presentation_id slide_id element_id font_family font_size
      font_weight font_style foreground_color background_color =>
      Some (slides "update_text_style" [presentation_id; slide_id;
              element_id; font_family; font_size; font_weight; font_style;
              foreground_color; background_color])
  | UpdateShapeStyle presentation_id slide_id element_id width height x y
      fill_color border_color border_width =>
      Some (slides "update_shape_style" [presentation_id; slide_id;
              element_id; width; height; x; y; fill_color; border_color;
              border_width])
  | DeleteSlideElement presentation_id slide_id element_id =>
      Some (slides "delete_element" [presentation_id; slide_id; element_id])
  | AddShapeToSlide presentation_id slide_id shape_type x y width height
      fill_color border_color border_width =>
      Some (slides "add_shape" [presentation_id; slide_id; shape_type; x; y;
              width; height; fill_color; border_color; border_width])
  | AddLineToSlide presentation_id slide_id start_x start_y end_x end_y
      line_color line_width line_type =>
      Some (slides "add_line" [presentation_id; slide_id; start_x; start_y;
              end_x; end_y; line_color; line_width; line_type])
  | UpdateSlideBackground presentation_id slide_id background_color
      background_image_url =>
      Some (slides "update_slide_background" [presentation_id; slide_id;
              background_color; background_image_url])
  | UpdateSlideLayout presentation_id slide_id layout_type =>
      Some (slides "update_slide_layout" [presentation_id; slide_id;
              layout_type])
  | UpdateSlideTransition presentation_id slide_id transition_type duration =>
      Some (slides "update_slide_transition" [presentation_id; slide_id;
              transition_type; duration])
  | AddSlideNotes presentation_id slide_id notes_text =>
      Some (slides "add_slide_notes" [presentation_id; slide_id;
              notes_text])
  | UpdateTextStyleInDocument document_id start_index end_index font_family
      font_size bold italic underline strikethrough foreground_color
      background_color =>
      Some (docs "update_text_style" [document_id; start_index; end_index;
              font_family; font_size; bold; italic; underline;
              strikethrough; foreground_color; background_color])
  | UpdateParagraphStyleInDocument document_id start_index end_index alignment
      line_spacing space_before space_after first_line_indent bullet
      numbered_list =>
      Some (docs "update_paragraph_style" [document_id; start_index;
              end_index; alignment; line_spacing; space_before; space_after;
              first_line_indent; bullet; numbered_list])
  | InsertPageBreakInDocument document_id index =>
      Some (docs "insert_page_break" [document_id; index])
  | InsertHorizontalRuleInDocument document_id index =>
      Some (docs "insert_horizontal_rule" [document_id; index])
  | UpdateTableCellContent document_id table_id row_index column_index content
      =>
      Some (docs "update_table_cell_content" [document_id; table_id;
              row_index; column_index; content])
  | UpdateTableCellStyle document_id table_id row_index column_index
      background_color border_color border_width padding =>
      Some (docs "update_table_cell_style" [document_id; table_id;
              row_index; column_index; background_color; border_color;
              border_width; padding])
  | UpdateTableRowStyle document_id table_id row_index background_color height
      =>
      Some (docs "update_table_row_style" [document_id; table_id; row_index;
              background_color; height])
  | UpdateTableColumnStyle document_id table_id column_index width =>
      Some (docs "update_table_column_style" [document_id; table_id;
              column_index; width])
  | MergeTableCells document_id table_id start_row start_column end_row
      end_column =>
      Some (docs "merge_table_cells" [document_id; table_id; start_row;
              start_column; end_row; end_column])
  | InsertTableRow document_id table_id row_index num_rows =>
      Some (docs "insert_table_row" [document_id; table_id; row_index;
              num_rows])
  | InsertTableColumn document_id table_id column_index num_columns =>
      Some (docs "insert_table_column" [document_id; table_id; column_index;
              num_columns])
  | DeleteTableRow document_id table_id row_index num_rows =>
      Some (docs "delete_table_row" [document_id; table_id; row_index;
              num_rows])
  | DeleteTableColumn document_id table_id column_index num_columns =>
      Some (docs "delete_table_column" [document_id; table_id; column_index;
              num_columns])
  | UpdateDocumentStyle document_id default_font_family default_font_size
      default_line_spacing default_margin_top default_margin_bottom
      default_margin_left default_margin_right default_page_color =>
      Some (docs "update_document_style" [document_id; default_font_family;
              default_font_size; default_line_spacing; default_margin_top;
              default_margin_bottom; default_margin_left;
              default_margin_right; default_page_color])
  | CreateTableWithContent document_id rows columns content =>
      Some (docs "create_table_and_insert_text" [document_id; rows; columns;
              content])
  end.

(** The calls of a client, served one after the other: whatever a call
    returns or raises goes to the client, and the next call finds the state
    the one before left. *)
Fixpoint run_all (calls : list Tool) (st : State W) : State W :=
  match calls with
  | [] => st
  | call :: rest => run_all rest (snd (run_tool call st))
  end.

End Dispatch.

End Main.

(* ================================================================== *)
(** * Collaborators for experiments

    A collaborator that answers every request from a fixed table and keeps
    the list of the requests it received, the latest last. *)

Module Probe.

Definition Log : Type := list (string * list PyVal).

Definition recording (respond : string -> list PyVal -> Outcome PyVal)
  : string -> list PyVal -> SE Log PyVal :=
  fun name args log => (respond name args, (log ++ [(name, args)])%list).

(** A service whose every request fails *)
Definition failing {K} (name : string) (kwargs : K) : SE Log PyVal :=
  fun log => (Raised (Exn "HttpError" "503 Service Unavailable"), log).


(** A [drive] whose creation methods return [result] *)
Definition drive_returning (result : PyVal) : Main.DriveClient Log :=
  {| Main.drive_copy_file := fun _ _ => ret result;
     Main.drive_rename_file := fun _ _ => ret result;
     Main.drive_create_spreadsheet := fun _ _ => ret result;
     Main.drive_create_spreadsheet_from_template := fun _ _ _ => ret result;
     Main.drive_create_spreadsheet_from_existing := fun _ _ _ => ret result |}.

Definition silent (name : string) (args : list PyVal) : Outcome PyVal :=
  Returned PNone.

(** A Google service that answers every request with [result] and keeps
    the names of the requests *)
Definition service_returning (result : PyVal)
  : string -> list (string * PyVal) -> SE Log PyVal :=
  fun name kwargs log =>
    (Returned result, (log ++ [(name, map snd kwargs)])%list).

End Probe.

(* ================================================================== *)
(** * The specification's vocabulary *)

Module Spec.

(** [s] cut at its first [sep]: what is before and what is after, if [sep]
    occurs. *)
Fixpoint cut (sep : ascii) (s : string) : option (string * string) :=
  match s with
  | EmptyString => None
  | String c r =>
      if Ascii.eqb c sep then Some (EmptyString, r)
      else match cut sep r with
           | Some (a, b) => Some (String c a, b)
           | None => None
           end
  end.

(** Section 4.1, parsing rules: the raw string is split on [,]; each entry
    is trimmed and split on the first [:] into a trimmed pair; an entry
    without [:] is dropped. *)
Definition entry_of (item : string) : list (string * string) :=
  match cut ":" (Str.strip item) with
  | Some (alias, fid) => [(Str.strip alias, Str.strip fid)]
  | None => []
  end.

Definition folder_entries (raw : string) : list (string * string) :=
  flat_map entry_of (Str.split "," raw).

(** The pieces put together again, with [sep] between them *)
Fixpoint join (sep : ascii) (pieces : list string) : string :=
  match pieces with
  | [] => EmptyString
  | [p] => p
  | p :: rest => p ++ String sep (join sep rest)
  end.

(** Section 4.1, "trimmed": white space, in the sense of [str.isspace],
    is taken off both ends of the string and nothing else is. *)

(** [s] begins with a white-space character *)
Definition starts_blank (s : string) : bool :=
  match s with
  | String c1 r1 =>
      Str.space1 c1 ||
      match r1 with
      | String c2 r2 =>
          Str.space2 c1 c2 ||
          match r2 with
          | String c3 _ => Str.space3 c1 c2 c3
          | EmptyString => false
          end
      | EmptyString => false
      end
  | EmptyString => false
  end.

(** [s] ends with a white-space character *)
Definition ends_blank (s : string) : bool :=
  match Str.rev s with
  | String c1 r1 =>
      Str.space1 c1 ||
      match r1 with
      | String c2 r2 =>
          Str.space2 c2 c1 ||
          match r2 with
          | String c3 _ => Str.space3 c3 c2 c1
          | EmptyString => false
          end
      | EmptyString => false
      end
  | EmptyString => false
  end.

(** [s] is made of white-space characters only *)
Fixpoint blank (s : string) : bool :=
  match s with
  | EmptyString => true
  | String c1 r1 =>
      if Str.space1 c1 then blank r1
      else match r1 with
           | String c2 r2 =>
               if Str.space2 c1 c2 then blank r2
               else match r2 with
                    | String c3 r3 => Str.space3 c1 c2 c3 && blank r3
                    | EmptyString => false
                    end
           | EmptyString => false
           end
  end.

(** [t] is [s] trimmed *)
Definition trimmed_of (s t : string) : Prop :=
  exists l r,
    s = l ++ t ++ r /\
    blank l = true /\ blank r = true /\
    starts_blank t = false /\ ends_blank t = false.

(** [e] is the entry of the item [item]: the item trimmed, cut at its first
    [:], both parts trimmed *)
Definition is_entry (item : string) (e : string * string) : Prop :=
  exists item' a b,
    trimmed_of item item' /\
    cut ":" item' = Some (a, b) /\
    trimmed_of a (fst e) /\ trimmed_of b (snd e).

(** Mapping insertion, entry after entry *)
Definition insert_all (entries d : list (string * string))
  : list (string * string) :=
  fold_left (fun d e => dict_set (fst e) (snd e) d) entries d.

Definition dict_of (entries : list (string * string)) : list (string * string) :=
  insert_all entries [].

(** The value of the last entry for [alias] *)
Definition last_entry (alias : string) (entries : list (string * string))
  : option string :=
  match find (fun e => fst e =? alias) (List.rev entries) with
  | Some e => Some (snd e)
  | None => None
  end.

(** Section 4.1, contract: the two conditions under which resolution
    fails. *)
Definition absent_or_empty (v : option string) : bool :=
  match v with
  | Some s => negb (Str.nonempty s)
  | None => true
  end.

Definition refused (env : Config.Env) : bool :=
  absent_or_empty (Config.getenv env "MCPGD_CLIENT_SECRET_PATH")
  || (absent_or_empty (Config.getenv env "MCPGD_FOLDER_ID")
      && match folder_entries
                 (Config.getenv_default env "MCPGD_FOLDERS" EmptyString) with
         | [] => true
         | _ => false
         end).

(** Section 4.3, [resolveOrCurrent]: the explicit identifier when it is
    not empty, the stored one otherwise. *)
Definition resolveOrCurrent (explicit current : PyVal) : PyVal :=
  if truthy explicit then explicit else current.

(** Section 4.4, step 5: [{success: false, message: <non-empty string>}] *)
Definition is_failure_envelope (v : PyVal) : bool :=
  match v with
  | PDict d =>
      (List.length d =? 2)%nat &&
      match dict_get "success" d, dict_get "message" d with
      | Some (PBool false), Some (PStr m) => Str.nonempty m
      | _, _ => false
      end
  | _ => false
  end.

(** The delegate raised, or returned something empty or falsy *)
Definition delegate_failed {S} (r : Outcome PyVal * S) : Prop :=
  match fst r with
  | Raised _ => True
  | Returned v => truthy v = false
  end.

(** [sub] occurs in [s] at its head *)
Fixpoint prefix (sub s : string) : bool :=
  match sub with
  | EmptyString => true
  | String a sub' =>
      match s with
      | String b s' => Ascii.eqb a b && prefix sub' s'
      | EmptyString => false
      end
  end.

(** The two characters backslash and [n] occur in [s] *)
Fixpoint has_escaped_newline (s : string) : bool :=
  match s with
  | EmptyString => false
  | String c r =>
      prefix (String Str.backslash (String "n" EmptyString)) s
      || has_escaped_newline r
  end.

(** The characters of JSON structure: braces, brackets, the double quote,
    the colon and the comma *)
Definition structural : list ascii :=
  ["{"; "}"; "["; "]"; Json.quote; ":"; ","]%char.

(** Plain text in the sense of property P8: no backtick, no escaped
    newline, no character of JSON structure *)
Definition plain (x : string) : bool :=
  negb (Str.contains "`" x) && negb (has_escaped_newline x)
  && forallb (fun c => negb (Str.contains c x)) structural.

(** The identifier a creation result carries: under ['spreadsheetId'], or
    else under ['id'] *)
Definition carried_id (d : list (string * PyVal)) : PyVal :=
  py_or (match dict_get "spreadsheetId" d with Some v => v | None => PNone end)
        (match dict_get "id" d with Some v => v | None => PNone end).

End Spec.

(* ================================================================== *)
(** * The tools by how they treat their delegate *)

Module Session.
Import Main.

(** A computation that leaves [current_spreadsheet_id] as it found it *)
Definition keeps_current {W A : Type} (m : @M W A) : Prop :=
  forall st, current_spreadsheet_id (snd (m st)) = current_spreadsheet_id st.

(** [None], the value at start, or a value [if] takes for true *)
Definition unset_or_truthy (v : PyVal) : Prop :=
  v = PNone \/ truthy v = true.

Definition is_creation (call : Tool) : bool :=
  match call with
  | Creation _ => true
  | _ => false
  end.

(** The tools that delegate to [drive], whose methods catch everything *)
Definition drive_tool (call : Tool) : bool :=
  match call with
  | Creation _ | ListFiles | CopyFile _ _ | RenameFile _ _ => true
  | _ => false
  end.

(** The tools whose delegate call is under [try ... except Exception] *)
Definition under_try (call : Tool) : bool :=
  match call with
  | AddSlideToPresentation _ _ _
  | AddImageToSlide _ _ _ _ _ _ _ _
  | SearchSlideElements _ _ _
  | UpdateTextStyle _ _ _ _ _ _ _ _ _
  | UpdateShapeStyle _ _ _ _ _ _ _ _ _ _
  | DeleteSlideElement _ _ _
  | AddShapeToSlide _ _ _ _ _ _ _ _ _ _
  | AddLineToSlide _ _ _ _ _ _ _ _ _
  | UpdateSlideBackground _ _ _ _
  | UpdateSlideLayout _ _ _
  | UpdateSlideTransition _ _ _ _
  | AddSlideNotes _ _ _ => true
  | _ => false
  end.

(** Among them, the tools that also test what the delegate returned and
    build the failure envelope themselves *)
Definition tests_under_try (call : Tool) : bool :=
  match call with
  | AddSlideToPresentation _ _ _
  | AddImageToSlide _ _ _ _ _ _ _ _
  | AddShapeToSlide _ _ _ _ _ _ _ _ _ _
  | AddLineToSlide _ _ _ _ _ _ _ _ _ => true
  | _ => false
  end.

(** The tools that test what the delegate returned, outside any [try] *)
Definition tests_result (call : Tool) : bool :=
  match call with
  | Creation _ | Sheet _ _ | ListFiles | CopyFile _ _ | RenameFile _ _
  | AddSheet _ _ => false
  | _ => negb (under_try call)
  end.

(** What such a tool answers with: its message for a falsy result, and what
    it writes before [str(e)] for an exception *)
Definition failure_text (call : Tool) : string :=
  match call with
  | AddSlideToPresentation _ _ _ => "Failed to add slide"
  | AddImageToSlide _ _ _ _ _ _ _ _ => "Failed to add image"
  | AddShapeToSlide _ _ _ _ _ _ _ _ _ _ => "Failed to add shape"
  | AddLineToSlide _ _ _ _ _ _ _ _ _ => "Failed to add line"
  | _ => EmptyString
  end.

Definition error_prefix (call : Tool) : string :=
  match call with
  | AddSlideToPresentation _ _ _ => "Error: "
  | AddImageToSlide _ _ _ _ _ _ _ _ => "Error adding image: "
  | AddShapeToSlide _ _ _ _ _ _ _ _ _ _ => "Error adding shape: "
  | AddLineToSlide _ _ _ _ _ _ _ _ _ => "Error adding line: "
  | _ => EmptyString
  end.



(** [{success: True, ...}] *)
Definition is_success (v : PyVal) : bool :=
  match v with
  | PDict d =>
      match dict_get "success" d with
      | Some (PBool true) => true
      | _ => false
      end
  | _ => false
  end.

(** Collaborators by what they answer to every request *)
Definition always_raises {W K} (client : string -> K -> SE W PyVal) : Prop :=
  forall name args w, exists e w', client name args w = (Raised e, w').

Definition always_falsy {W K} (client : string -> K -> SE W PyVal) : Prop :=
  forall name args w,
    exists v w', client name args w = (Returned v, w') /\ truthy v = false.

Definition always_truthy {W K} (client : string -> K -> SE W PyVal) : Prop :=
  forall name args w,
    exists v w', client name args w = (Returned v, w') /\ truthy v = true.

Definition always_fails {W K} (client : string -> K -> SE W PyVal) : Prop :=
  forall name args w, Spec.delegate_failed (client name args w).

End Session.

(* ================================================================== *)
(** * The requests and answers of [GoogleDrive], by name *)

Module Requests.

(** [spreadsheets().create(body=..., fields='spreadsheetId')] *)
Definition create (title : string) : list (string * PyVal) :=
  [("body",
    PDict [("properties", PDict [("title", PStr title)]);
           ("sheets",
            PList [PDict [("properties", PDict [("title", PStr "Sheet1")])]])]);
   ("fields", PStr "spreadsheetId")].

(** [files().get(fileId=..., fields='parents')] *)
Definition parents_of (spreadsheet_id : PyVal) : list (string * PyVal) :=
  [("fileId", spreadsheet_id); ("fields", PStr "parents")].

(** [files().update(...)] that puts the file into [target], out of the
    folders [previous] (joined by commas) when there are any *)
Definition move (spreadsheet_id : PyVal) (target previous : string)
  : list (string * PyVal) :=
  if Str.nonempty previous then
    [("fileId", spreadsheet_id); ("addParents", PStr target);
     ("removeParents", PStr previous); ("fields", PStr "id, parents")]
  else
    [("fileId", spreadsheet_id); ("addParents", PStr target);
     ("fields", PStr "id, parents")].

(** [files().copy(fileId=..., body={'name': ..., 'parents': [...]})] *)
Definition copy_into (source_id : PyVal) (title target : string)
  : list (string * PyVal) :=
  [("fileId", source_id);
   ("body", PDict [("name", PStr title); ("parents", PList [PStr target])])].

(** [files().copy] and [files().update] with a new name only *)
Definition named (file_id new_name : PyVal) : list (string * PyVal) :=
  [("fileId", file_id); ("body", PDict [("name", new_name)])].

(** [files().list(q=..., fields=..., orderBy=...)] *)
Definition listing (query : string) : list (string * PyVal) :=
  [("q", PStr query);
   ("fields",
    PStr "files(id, name, mimeType, parents, createdTime, modifiedTime)");
   ("orderBy", PStr "modifiedTime desc")].

(** What a creation method of [GoogleDrive] returns on success *)
Definition created (spreadsheet_id : PyVal) (title : string)
           (folder : option string) (config : Config.Config) : PyVal :=
  PDict [("spreadsheetId", spreadsheet_id);
         ("title", PStr title);
         ("folder", PStr (opt_or folder (Config.default_folder config)))].

(** What [list_files] returns for no file *)
Definition nothing_listed : PyVal :=
  PList [PDict [("message", PStr "Folders are empty")]].

(** [results.get('files', [])] *)
Definition files_of (results : list (string * PyVal)) : PyVal :=
  match dict_get "files" results with Some v => v | None => PList [] end.

(** The alias [list_files] writes for the first parent of a file *)
Definition folder_name_of (config : Config.Config) (parent : PyVal) : string :=
  match parent with
  | PStr id => Config.get_folder_name config id
  | _ => EmptyString
  end.

(** A file as the Drive service lists it: a dictionary whose ['parents'],
    when it has any, is a list *)
Definition listed (file : PyVal) : Prop :=
  exists d,
    file = PDict d /\
    match dict_get "parents" d with
    | Some (PList _) | None => True
    | Some _ => False
    end.

(** [file'] is [file] with the identifier and the alias of its first
    parent folder added, or [file] itself when it has no parent *)
Definition annotated (config : Config.Config) (file file' : PyVal) : Prop :=
  exists d d',
    file = PDict d /\ file' = PDict d' /\
    match dict_get "parents" d with
    | Some (PList (parent :: _)) =>
        dict_get "folder_id" d' = Some parent /\
        dict_get "folder_name" d' = Some (PStr (folder_name_of config parent)) /\
        forall k, k <> "folder_id" -> k <> "folder_name" ->
                  dict_get k d' = dict_get k d
    | _ => d' = d
    end.

End Requests.

(* ================================================================== *)
(** * Inputs for examples *)

Module Examples.
Import Config.

Definition env_legacy : Env :=
  env_of [("MCPGD_CLIENT_SECRET_PATH", "secret.json");
          ("MCPGD_FOLDER_ID", "F1")] "/home/u".

Definition env_new : Env :=
  env_of [("MCPGD_CLIENT_SECRET_PATH", "secret.json");
          ("MCPGD_FOLDERS", "a:1,b:2")] "/home/u".

Definition env_new_default : Env :=
  env_of [("MCPGD_CLIENT_SECRET_PATH", "secret.json");
          ("MCPGD_FOLDERS", "work:W1,home:H1");
          ("MCPGD_DEFAULT_FOLDER", "home")] "/home/u".

Definition env_no_folder : Env :=
  env_of [("MCPGD_CLIENT_SECRET_PATH", "secret.json");
          ("MCPGD_FOLDERS", "bad")] "/home/u".

Definition config_legacy : Config :=
  {| client_secret_path := "secret.json";
     token_path := "/home/u/.mcp_google_spreadsheet.json";
     folder_id := "F1";
     folders := [("default", "F1")];
     default_folder := "default" |}.

Definition env_both : Env :=
  env_of [("MCPGD_CLIENT_SECRET_PATH", "secret.json");
          ("MCPGD_FOLDERS", "a:1,b:2");
          ("MCPGD_FOLDER_ID", "F1")] "/home/u".

Definition config_new_default : Config :=
  {| client_secret_path := "secret.json";
     token_path := "/home/u/.mcp_google_spreadsheet.json";
     folder_id := "H1";
     folders := [("work", "W1"); ("home", "H1")];
     default_folder := "home" |}.

(** A mapping with an empty alias and with identifiers under two aliases *)
Definition config_empty_alias : Config :=
  {| client_secret_path := "secret.json";
     token_path := "/home/u/.mcp_google_spreadsheet.json";
     folder_id := "X";
     folders := [(EmptyString, "X"); ("home", "X"); ("work", "H1");
                 ("den", "H1")];
     default_folder := EmptyString |}.

(** [s] between double quotes: the JSON text of a string without
    escapes *)
Definition quoted (s : string) : string :=
  String Json.quote (s ++ String Json.quote EmptyString).

(** What the Sheets and Drive services answer when a spreadsheet is
    created: its identifier and its parent folder *)
Definition created_file : PyVal :=
  PDict [("spreadsheetId", PStr "S9"); ("id", PStr "S9");
         ("parents", PList [PStr "root"])].

Definition working_drive : Main.DriveClient Probe.Log :=
  Main.google_drive (Probe.service_returning created_file)
                    (Probe.service_returning created_file)
                    config_legacy.

Definition broken_drive : Main.DriveClient Probe.Log :=
  Main.google_drive Probe.failing Probe.failing config_legacy.

Definition with_current (id : PyVal) : Main.State Probe.Log :=
  {| Main.current_spreadsheet_id := id; Main.world := [] |}.

(** A [drive] every method of which raises *)
Definition raising_drive : Main.DriveClient Probe.Log :=
  {| Main.drive_copy_file := fun _ _ => raise (Exn "RuntimeError" "boom");
     Main.drive_rename_file := fun _ _ => raise (Exn "RuntimeError" "boom");
     Main.drive_create_spreadsheet :=
       fun _ _ => raise (Exn "RuntimeError" "boom");
     Main.drive_create_spreadsheet_from_template :=
       fun _ _ _ => raise (Exn "RuntimeError" "boom");
     Main.drive_create_spreadsheet_from_existing :=
       fun _ _ _ => raise (Exn "RuntimeError" "boom") |}.

(** A collaborator that answers [True] to every request *)
Definition agreeing (name : string) (args : list PyVal) : Outcome PyVal :=
  Returned (PBool true).

(** A session: a creation that fails, then calls of other tools *)
Definition calls_after_failure : list Main.Tool :=
  [Main.Creation (Main.Blank "Q1 Report" None);
   Main.Sheet Main.ListSheets PNone;
   Main.AddSheet (PStr EmptyString) (PStr "Totals");
   Main.CreateDocument "Minutes";
   Main.DeleteSlideElement (PStr "P1") (PStr "p") (PStr "e1")].

(** Two files as the Drive service lists them, and its answer with both *)
Definition file_in_home : PyVal :=
  PDict [("id", PStr "D1"); ("name", PStr "Budget");
         ("parents", PList [PStr "H1"])].

Definition file_elsewhere : PyVal :=
  PDict [("id", PStr "D2"); ("name", PStr "Notes")].

Definition listing_answer : PyVal :=
  PDict [("files", PList [file_in_home; file_elsewhere])].

End Examples.

(* ================================================================== *)
(** * Facts about dictionaries and strings *)

Section DictFacts.
Context {V : Type}.
Implicit Types (d : list (string * V)) (k a : string) (v : V).

Lemma dict_get_set d k v a :
  dict_get a (dict_set k v d) = if k =? a then Some v else dict_get a d.
Proof.
  induction d as [|[k' v'] r IH]; simpl.
  - reflexivity.
  - destruct (k' =? k) eqn:Ek; simpl.
    + apply String.eqb_eq in Ek; subst k'.
      destruct (k =? a); reflexivity.
    + rewrite IH.
      destruct (k' =? a) eqn:Ea; [|reflexivity].
      apply String.eqb_eq in Ea; subst k'. now rewrite String.eqb_sym, Ek.
Qed.

Lemma dict_set_nonempty d k v : dict_nonempty (dict_set k v d) = true.
Proof. destruct d as [|[k' v'] r]; simpl; [|destruct (k' =? k)]; reflexivity. Qed.

Lemma dict_getitem_mem d k :
  dict_mem k d = true -> exists v, dict_getitem k d = Returned v /\ dict_get k d = Some v.
Proof.
  unfold dict_mem, dict_getitem. destruct (dict_get k d) as [v|]; [|discriminate].
  intros _. now exists v.
Qed.
End DictFacts.

Lemma find_snoc {A} (f : A -> bool) (l : list A) (x : A) :
  find f (l ++ [x])%list =
  match find f l with
  | Some y => Some y
  | None => if f x then Some x else None
  end.
Proof.
  induction l as [|y l IH]; simpl; [reflexivity|].
  destruct (f y); [reflexivity|apply IH].
Qed.

Module StrFacts.

Lemma append_assoc s t u : (s ++ t) ++ u = s ++ t ++ u.
Proof. induction s; simpl; congruence. Qed.

Lemma rev_acc_app s acc : Str.rev_acc s acc = Str.rev s ++ acc.
Proof.
  unfold Str.rev. revert acc.
  induction s as [|c r IH]; intros acc; simpl; [reflexivity|].
  rewrite IH, (IH (String c EmptyString)).
  now rewrite append_assoc.
Qed.

Lemma rev_cons c s : Str.rev (String c s) = Str.rev s ++ String c EmptyString.
Proof. unfold Str.rev at 1. simpl. apply rev_acc_app. Qed.

Lemma append_empty_r s : s ++ EmptyString = s.
Proof. induction s; simpl; congruence. Qed.

Lemma rev_app s t : Str.rev (s ++ t) = Str.rev t ++ Str.rev s.
Proof.
  induction s as [|c r IH]; simpl.
  - now rewrite append_empty_r.
  - now rewrite !rev_cons, IH, append_assoc.
Qed.

Lemma rev_involutive s : Str.rev (Str.rev s) = s.
Proof.
  induction s as [|c r IH]; [reflexivity|].
  now rewrite rev_cons, rev_app, IH.
Qed.

Lemma contains_app c s t :
  Str.contains c (s ++ t) = Str.contains c s || Str.contains c t.
Proof.
  induction s as [|x r IH]; simpl; [reflexivity|].
  now rewrite IH, orb_assoc.
Qed.

Lemma contains_rev c s : Str.contains c (Str.rev s) = Str.contains c s.
Proof.
  induction s as [|x r IH]; [reflexivity|].
  rewrite rev_cons, contains_app, IH. simpl.
  rewrite orb_false_r. apply orb_comm.
Qed.

Lemma lstrip_char_absent c s :
  Str.contains c s = false -> Str.lstrip_char c s = s.
Proof.
  destruct s as [|x r]; simpl; [reflexivity|].
  destruct (Ascii.eqb x c); [discriminate|reflexivity].
Qed.

(** Stripping a character a string does not contain changes nothing. *)
Lemma strip_char_absent c s :
  Str.contains c s = false -> Str.strip_char c s = s.
Proof.
  intros H. unfold Str.strip_char.
  rewrite (lstrip_char_absent c s H).
  rewrite lstrip_char_absent by now rewrite contains_rev.
  apply rev_involutive.
Qed.

(** Replacing escaped newlines in a string that has none changes nothing. *)
Lemma replace_absent s :
  Spec.has_escaped_newline s = false -> Str.replace_escaped_newlines s = s.
Proof.
  induction s as [|c1 r1 IH]; [reflexivity|].
  intros H. cbn [Spec.has_escaped_newline] in H.
  apply orb_false_iff in H as [Hp Hr].
  cbn [Str.replace_escaped_newlines].
  destruct r1 as [|c2 r2]; [reflexivity|].
  cbn [Spec.prefix] in Hp. rewrite andb_true_r in Hp.
  rewrite (Ascii.eqb_sym c1), (Ascii.eqb_sym c2), Hp.
  now rewrite (IH Hr).
Qed.

Lemma split1_cut sep s :
  Str.split1 sep s =
  match Spec.cut sep s with
  | Some (a, b) => [a; b]
  | None => [s]
  end.
Proof.
  induction s as [|c r IH]; simpl; [reflexivity|].
  destruct (Ascii.eqb c sep); [reflexivity|].
  rewrite IH. now destruct (Spec.cut sep r) as [[a b]|].
Qed.

Lemma contains_cut sep s :
  Str.contains sep s =
  match Spec.cut sep s with Some _ => true | None => false end.
Proof.
  induction s as [|c r IH]; simpl; [reflexivity|].
  destruct (Ascii.eqb c sep); [reflexivity|].
  rewrite IH. now destruct (Spec.cut sep r) as [[a b]|].
Qed.

End StrFacts.

(* ================================================================== *)
(** * Configuration resolution *)

Module ConfigFacts.
Import Config.

Import Spec.

Lemma insert_all_app es1 es2 d :
  insert_all (es1 ++ es2)%list d = insert_all es2 (insert_all es1 d).
Proof. apply fold_left_app. Qed.

(** One round of the loop inserts the entry the item stands for, if any. *)
Lemma parse_item_entry d item :
  parse_item d item = Returned (insert_all (Spec.entry_of item) d).
Proof.
  unfold parse_item, Spec.entry_of.
  rewrite StrFacts.contains_cut, StrFacts.split1_cut.
  destruct (Spec.cut ":" (Str.strip item)) as [[alias fid]|]; reflexivity.
Qed.

Lemma parse_items_entries items d :
  parse_items d items = Returned (insert_all (flat_map Spec.entry_of items) d).
Proof.
  revert d. induction items as [|item rest IH]; intros d; simpl.
  - reflexivity.
  - rewrite parse_item_entry. simpl. rewrite IH.
    now rewrite insert_all_app.
Qed.

(** The loop never raises, and computes the mapping of the entries. *)
Lemma parse_folders_entries raw :
  parse_folders raw = Returned (Spec.dict_of (Spec.folder_entries raw)).
Proof.
  unfold parse_folders. destruct raw as [|c r].
  - reflexivity.
  - simpl Str.nonempty. cbv iota. apply parse_items_entries.
Qed.

Lemma insert_all_get es d alias :
  dict_get alias (insert_all es d) =
  match Spec.last_entry alias es with
  | Some v => Some v
  | None => dict_get alias d
  end.
Proof.
  unfold Spec.last_entry. revert d.
  induction es as [|[k v] es IH]; intros d; simpl.
  - reflexivity.
  - rewrite IH, find_snoc, dict_get_set. simpl.
    destruct (find (fun e => fst e =? alias) (List.rev es)); [reflexivity|].
    now destruct (k =? alias).
Qed.

Lemma insert_all_nonempty es d :
  dict_nonempty (insert_all es d) =
  dict_nonempty d || match es with [] => false | _ => true end.
Proof.
  revert d. induction es as [|[k v] es IH]; intros d; simpl.
  - now rewrite orb_false_r.
  - rewrite IH. simpl. rewrite dict_set_nonempty. now rewrite orb_true_r.
Qed.

Lemma dict_of_nonempty es :
  dict_nonempty (Spec.dict_of es) = match es with [] => false | _ => true end.
Proof. apply (insert_all_nonempty es []). Qed.

(** What the two backward-compatibility branches compute *)
Lemma normalize_legacy_only fid dflt :
  Str.nonempty fid = true ->
  normalize [] dflt fid = Returned ([("default", fid)], "default", fid).
Proof. intros H. unfold normalize. simpl. now rewrite H. Qed.

Lemma normalize_new_only a0 f0 rest dflt fid :
  Str.nonempty fid = false ->
  normalize ((a0, f0) :: rest) dflt fid =
  Returned ((a0, f0) :: rest,
            (if Str.nonempty dflt then dflt else a0),
            match (if Str.nonempty dflt
                   then dict_get dflt ((a0, f0) :: rest) else None) with
            | Some id => id
            | None => f0
            end).
Proof.
  intros H. unfold normalize. rewrite H.
  cbn [dict_nonempty negb andb].
  destruct (Str.nonempty dflt) eqn:Ed; cbn [andb negb].
  - unfold dict_mem, dict_getitem.
    destruct (dict_get dflt ((a0, f0) :: rest)) as [v|] eqn:Eg.
    + reflexivity.
    + cbn. now rewrite String.eqb_refl.
  - unfold dict_getitem. cbn. now rewrite String.eqb_refl.
Qed.

Lemma normalize_both folders dflt fid :
  dict_nonempty folders = true -> Str.nonempty fid = true ->
  normalize folders dflt fid = Returned (folders, dflt, fid).
Proof. intros Hf Hi. unfold normalize. now rewrite Hf, Hi. Qed.

Lemma normalize_neither dflt fid :
  Str.nonempty fid = false ->
  normalize [] dflt fid = Returned ([], dflt, fid).
Proof. intros Hi. unfold normalize. simpl. now rewrite Hi. Qed.

Lemma getenv_default_nonempty env name :
  Str.nonempty (getenv_default env name EmptyString) =
  negb (Spec.absent_or_empty (getenv env name)).
Proof.
  unfold getenv_default, Spec.absent_or_empty.
  destruct (getenv env name); [now rewrite negb_involutive|reflexivity].
Qed.

(** [from_env] once the credential path is there *)
Lemma from_env_with_secret env secret :
  getenv env "MCPGD_CLIENT_SECRET_PATH" = Some secret ->
  Str.nonempty secret = true ->
  from_env env =
  let token_path :=
    match getenv env "MCPGD_TOKEN_PATH" with
    | Some p => if Str.nonempty p then p
                else path_join (home_dir env) ".mcp_google_spreadsheet.json"
    | None => path_join (home_dir env) ".mcp_google_spreadsheet.json"
    end in
  bindO (normalize
           (Spec.dict_of (Spec.folder_entries
                            (getenv_default env "MCPGD_FOLDERS" EmptyString)))
           (getenv_default env "MCPGD_DEFAULT_FOLDER" EmptyString)
           (getenv_default env "MCPGD_FOLDER_ID" EmptyString))
        (fun '(folders, default_folder, folder_id) =>
           if negb (Str.nonempty folder_id) && negb (dict_nonempty folders)
           then Raised (ValueError
             "MCPGD_FOLDERS or MCPGD_FOLDER_ID environment variable is required")
           else Returned {| client_secret_path := secret;
                            token_path := token_path;
                            folder_id := folder_id;
                            folders := folders;
                            default_folder := default_folder |}).
Proof.
  intros Hs Hn. unfold from_env. rewrite Hs, Hn. cbn [negb].
  rewrite parse_folders_entries. reflexivity.
Qed.

(** C4.  [Config.from_env] raises (a [ValueError], the configuration
    error of the specification) when, and only when, the credential-path
    variable is absent or empty, or there is neither a legacy folder
    identifier nor any parsed folder entry; in every other case it returns
    a configuration. *)
Theorem from_env_refuses_exactly (env : Env) :
  (refused env = true ->
   exists msg, from_env env = Raised (ValueError msg)) /\
  (refused env = false ->
   exists cfg, from_env env = Returned cfg).
Proof.
  unfold refused.
  destruct (getenv env "MCPGD_CLIENT_SECRET_PATH") as [secret|] eqn:Hs.
  2:{ split; [intros _|discriminate].
      unfold from_env. rewrite Hs. eauto. }
  cbn [absent_or_empty].
  destruct (Str.nonempty secret) eqn:Hn; cbn [negb orb].
  2:{ split; [intros _|discriminate].
      unfold from_env. rewrite Hs, Hn. cbn. eauto. }
  rewrite (from_env_with_secret env secret Hs Hn). cbv zeta.
  pose proof (getenv_default_nonempty env "MCPGD_FOLDER_ID") as Hid.
  pose proof (dict_of_nonempty
                (folder_entries
                   (getenv_default env "MCPGD_FOLDERS" EmptyString))) as Hd.
  destruct (absent_or_empty (getenv env "MCPGD_FOLDER_ID")); cbn [negb] in Hid;
    cbn [andb].
  - (* no legacy identifier *)
    destruct (folder_entries (getenv_default env "MCPGD_FOLDERS" EmptyString))
      as [|e es] eqn:He.
    + split; [intros _|discriminate].
      cbn [dict_of insert_all fold_left].
      rewrite (normalize_neither _ _ Hid). cbn. rewrite Hid. cbn. eauto.
    + split; [discriminate|intros _].
      destruct (dict_of (e :: es)) as [|[a0 f0] rest]; [discriminate|].
      rewrite (normalize_new_only _ _ _ _ _ Hid). cbn.
      rewrite andb_false_r. eauto.
  - (* a legacy identifier *)
    split; [discriminate|intros _].
    destruct (folder_entries (getenv_default env "MCPGD_FOLDERS" EmptyString))
      as [|e es] eqn:He.
    + cbn [dict_of insert_all fold_left].
      rewrite (normalize_legacy_only _ _ Hid). cbn. rewrite Hid. cbn. eauto.
    + rewrite (normalize_both _ _ _ Hd Hid). cbn. rewrite Hid. cbn. eauto.
Qed.

Lemma from_env_refuses_exactly_witness :
  (exists msg, from_env Examples.env_no_folder = Raised (ValueError msg)) /\
  (exists cfg, from_env Examples.env_new = Returned cfg).
Proof.
  split.
  - apply (proj1 (from_env_refuses_exactly Examples.env_no_folder)).
    reflexivity.
  - apply (proj2 (from_env_refuses_exactly Examples.env_new)).
    reflexivity.
Defined.

(** What [from_env] returns when only the new scheme is supplied *)
Lemma from_env_new_only env secret raw a0 f0 rest :
  getenv env "MCPGD_CLIENT_SECRET_PATH" = Some secret ->
  Str.nonempty secret = true ->
  absent_or_empty (getenv env "MCPGD_FOLDER_ID") = true ->
  getenv env "MCPGD_FOLDERS" = Some raw ->
  parse_folders raw = Returned ((a0, f0) :: rest) ->
  let dflt := getenv_default env "MCPGD_DEFAULT_FOLDER" EmptyString in
  exists cfg,
    from_env env = Returned cfg /\
    folders cfg = (a0, f0) :: rest /\
    folder_id cfg =
      match (if Str.nonempty dflt
             then dict_get dflt ((a0, f0) :: rest) else None) with
      | Some id => id
      | None => f0
      end /\
    default_folder cfg = (if Str.nonempty dflt then dflt else a0).
Proof.
  intros Hs Hn Hid Hraw Hparse dflt.
  rewrite (from_env_with_secret env secret Hs Hn). cbv zeta.
  assert (Hraw' : getenv_default env "MCPGD_FOLDERS" EmptyString = raw)
    by (unfold getenv_default; now rewrite Hraw).
  rewrite Hraw'.
  rewrite parse_folders_entries in Hparse. injection Hparse as Hparse.
  rewrite Hparse.
  assert (Hid' : Str.nonempty
                   (getenv_default env "MCPGD_FOLDER_ID" EmptyString) = false)
    by (rewrite getenv_default_nonempty; now rewrite Hid).
  rewrite (normalize_new_only _ _ _ _ _ Hid'). cbn.
  rewrite andb_false_r.
  eexists. split; [reflexivity|]. cbn. auto.
Qed.

(** C5.  When only the new folders variable is supplied (it yields at
    least one entry, and the legacy folder identifier is unset or empty),
    [folder_id] is [folders[default_folder]] if the default-folder variable
    is set and is a key of [folders], and the identifier of the first entry
    otherwise; [default_folder] becomes the first alias when the variable
    was empty.  For ["a:1,b:2"] and no default-folder variable the result
    has [folder_id = "1"] and [default_folder = "a"]. *)
Theorem new_scheme_backfills_legacy (env : Env) (secret : string) :
  getenv env "MCPGD_CLIENT_SECRET_PATH" = Some secret ->
  Str.nonempty secret = true ->
  absent_or_empty (getenv env "MCPGD_FOLDER_ID") = true ->
  (forall raw a0 f0 rest,
      getenv env "MCPGD_FOLDERS" = Some raw ->
      parse_folders raw = Returned ((a0, f0) :: rest) ->
      let dflt := getenv_default env "MCPGD_DEFAULT_FOLDER" EmptyString in
      exists cfg,
        from_env env = Returned cfg /\
        folders cfg = (a0, f0) :: rest /\
        folder_id cfg =
          (if Str.nonempty dflt && dict_mem dflt ((a0, f0) :: rest)
           then match dict_get dflt ((a0, f0) :: rest) with
                | Some id => id
                | None => f0
                end
           else f0) /\
        default_folder cfg = (if Str.nonempty dflt then dflt else a0)) /\
  (getenv env "MCPGD_FOLDERS" = Some "a:1,b:2" ->
   getenv env "MCPGD_DEFAULT_FOLDER" = None ->
   exists cfg,
     from_env env = Returned cfg /\
     folder_id cfg = "1" /\ default_folder cfg = "a").
Proof.
  intros Hs Hn Hid. split.
  - intros raw a0 f0 rest Hraw Hparse dflt.
    destruct (from_env_new_only env secret raw a0 f0 rest Hs Hn Hid Hraw Hparse)
      as (cfg & Hcfg & Hf & Hi & Hd).
    exists cfg. repeat split; try assumption.
    rewrite Hi. fold dflt. unfold dict_mem.
    destruct (Str.nonempty dflt); [|reflexivity].
    now destruct (dict_get dflt ((a0, f0) :: rest)).
  - intros Hraw Hdflt.
    destruct (from_env_new_only env secret "a:1,b:2" "a" "1" [("b", "2")]
                                Hs Hn Hid Hraw eq_refl)
      as (cfg & Hcfg & Hf & Hi & Hd).
    exists cfg. unfold getenv_default in Hi, Hd. rewrite Hdflt in Hi, Hd.
    now repeat split.
Qed.

Lemma new_scheme_backfills_legacy_witness :
  (exists cfg, from_env Examples.env_new_default = Returned cfg /\
               folder_id cfg = "H1" /\ default_folder cfg = "home") /\
  (exists cfg, from_env Examples.env_new = Returned cfg /\
               folder_id cfg = "1" /\ default_folder cfg = "a").
Proof.
  split.
  - destruct (proj1 (new_scheme_backfills_legacy
                       Examples.env_new_default "secret.json"
                       eq_refl eq_refl eq_refl)
                    "work:W1,home:H1" "work" "W1" [("home", "H1")]
                    eq_refl eq_refl)
      as (cfg & Hcfg & _ & Hi & Hd).
    exists cfg. now repeat split.
  - exact (proj2 (new_scheme_backfills_legacy
                    Examples.env_new "secret.json" eq_refl eq_refl eq_refl)
                 eq_refl eq_refl).
Defined.

(** C7 as stated fails on the empty string: it is no key of [folders],
    and [get_folder_id] answers the default folder identifier. *)
Lemma get_folder_id_empty_not_identity :
  from_env Examples.env_legacy = Returned Examples.config_legacy /\
  dict_mem EmptyString (folders Examples.config_legacy) = false /\
  get_folder_id Examples.config_legacy (Some EmptyString) = Returned "F1" /\
  get_folder_id Examples.config_legacy (Some EmptyString)
    <> Returned EmptyString.
Proof. repeat split. discriminate. Qed.

(** C7, amended.  For every non-empty string that is not a key of
    [folders], [get_folder_id] returns the string unchanged. *)
Theorem get_folder_id_raw_id (cfg : Config) (folder : string) :
  Str.nonempty folder = true ->
  dict_mem folder (folders cfg) = false ->
  get_folder_id cfg (Some folder) = Returned folder.
Proof. intros Hn Hm. unfold get_folder_id. now rewrite Hn, Hm. Qed.

Lemma get_folder_id_raw_id_witness :
  get_folder_id Examples.config_legacy (Some "unknown-raw-id")
  = Returned "unknown-raw-id".
Proof.
  apply (get_folder_id_raw_id Examples.config_legacy "unknown-raw-id");
    reflexivity.
Defined.

End ConfigFacts.

(* ================================================================== *)
(** * Tool dispatch *)

Module MainFacts.
Import Main Spec.

Section Generic.
Context {W : Type}.
Implicit Types (st : State W) (drive : DriveClient W).

Lemma delegate_run {A} (call : SE W A) st :
  delegate call st =
  (fst (call (world st)), with_world st (snd (call (world st)))).
Proof. unfold delegate. now destruct (call (world st)). Qed.

(** What the stored identifier is after the lines shared by the
    creation tools *)
Lemma remember_created_dict d st :
  remember_created (PDict d) st =
  (Returned tt,
   {| current_spreadsheet_id :=
        (if truthy (carried_id d) then carried_id d
         else current_spreadsheet_id st);
      world := world st |}).
Proof.
  unfold remember_created, carried_id, py_or.
  destruct d as [|kv d']; [destruct st; reflexivity|].
  cbn [truthy]. set (d := kv :: d').
  unfold bind, liftO, py_get, py_get_default, ret, set_current.
  destruct (truthy (match dict_get "spreadsheetId" d with
                    | Some x => x | None => PNone end)) eqn:Ea.
  - rewrite Ea. reflexivity.
  - destruct (truthy (match dict_get "id" d with
                      | Some x => x | None => PNone end)) eqn:Eb.
    + reflexivity.
    + destruct st; reflexivity.
Qed.

Lemma remember_created_falsy result st :
  truthy result = false -> remember_created result st = (Returned tt, st).
Proof. intros H. unfold remember_created. now rewrite H. Qed.

Lemma run_creation_unfold drive c st :
  run_creation drive c st =
  bind (delegate (creation_delegate drive c))
       (fun result => bind (remember_created result) (fun _ => ret result))
       st.
Proof. destruct c; reflexivity. Qed.

Lemma carried_id_absent d :
  dict_mem "spreadsheetId" d = false -> dict_mem "id" d = false ->
  carried_id d = PNone.
Proof.
  unfold dict_mem, carried_id, py_or. intros Ha Hb.
  destruct (dict_get "spreadsheetId" d); [discriminate|].
  destruct (dict_get "id" d); [discriminate|]. reflexivity.
Qed.

(** Every sheet tool with the fallback block sends its request for the
    given identifier, or for the stored one when given [None]. *)
Lemma run_sheet_request sheets t spreadsheet_id st :
  run_sheet sheets t spreadsheet_id st =
  delegate (sheet_request sheets t
              (match spreadsheet_id with
               | PNone => current_spreadsheet_id st
               | _ => spreadsheet_id
               end)) st.
Proof.
  destruct t; destruct spreadsheet_id; reflexivity.
Qed.

(** C2, amended.  Every sheet tool with the fallback block delegates
    with the identifier the caller supplied whenever that is not [None]
    (the empty string included), and with the stored current identifier
    (which may itself be [None]) when the caller supplied [None]. *)
Theorem sheet_tools_resolve_identifier
        (sheets : string -> list PyVal -> SE W PyVal)
        (t : SheetTool) (spreadsheet_id : PyVal) st :
  run_sheet sheets t spreadsheet_id st =
  delegate (sheet_request sheets t
              (match spreadsheet_id with
               | PNone => current_spreadsheet_id st
               | _ => spreadsheet_id
               end)) st.
Proof. apply run_sheet_request. Qed.

(** The state a creation tool ends in when its delegate returns a
    dictionary *)
Lemma run_creation_dict drive c st d w :
  creation_delegate drive c (world st) = (Returned (PDict d), w) ->
  run_creation drive c st =
  (Returned (PDict d),
   {| current_spreadsheet_id :=
        (if truthy (carried_id d) then carried_id d
         else current_spreadsheet_id st);
      world := w |}).
Proof.
  intros H. rewrite run_creation_unfold. unfold bind at 1.
  rewrite delegate_run, H. cbn [fst snd].
  unfold bind. rewrite remember_created_dict. reflexivity.
Qed.

Lemma run_creation_falsy drive c st result w :
  creation_delegate drive c (world st) = (Returned result, w) ->
  truthy result = false ->
  run_creation drive c st = (Returned result, with_world st w).
Proof.
  intros H Hf. rewrite run_creation_unfold. unfold bind at 1.
  rewrite delegate_run, H. cbn [fst snd].
  unfold bind. now rewrite (remember_created_falsy _ _ Hf).
Qed.

(** A creation tool returns what its delegate returned, or raises. *)
Lemma run_creation_returns drive c st result st1 :
  run_creation drive c st = (Returned result, st1) ->
  creation_delegate drive c (world st) = (Returned result, world st1).
Proof.
  rewrite run_creation_unfold. unfold bind at 1. rewrite delegate_run.
  destruct (creation_delegate drive c (world st)) as [[r|e] w];
    cbn [fst snd]; [|discriminate].
  unfold bind.
  destruct (remember_created r (with_world st w)) as [[[]|e] st'] eqn:Hr;
    [|discriminate].
  unfold ret. intros [= -> ->]. f_equal.
  revert Hr. unfold remember_created.
  destruct (truthy result); [|now intros [= <-]].
  unfold bind, liftO.
  destruct (py_get result "spreadsheetId") as [a|]; [|discriminate].
  destruct (truthy a).
  - unfold ret. destruct (truthy a); now intros [= <-].
  - destruct (py_get result "id") as [b|]; [|discriminate].
    unfold ret, set_current. destruct (truthy b); now intros [= <-].
Qed.

(** After any of the three creation tools returns a result that carries
    the identifier [S] (a non-empty value under ['spreadsheetId'], or else
    under ['id']), a sheet tool with the fallback block called next with
    no spreadsheet identifier delegates with [S]. *)
Theorem created_spreadsheet_is_current
        drive (sheets : string -> list PyVal -> SE W PyVal)
        (c : CreationTool) (t : SheetTool) st d st1 (S : PyVal) :
  run_creation drive c st = (Returned (PDict d), st1) ->
  carried_id d = S ->
  truthy S = true ->
  run_sheet sheets t PNone st1 = delegate (sheet_request sheets t S) st1.
Proof.
  intros Hrun HS Ht.
  pose proof (run_creation_returns _ _ _ _ _ Hrun) as Hd.
  rewrite (run_creation_dict _ _ _ _ _ Hd) in Hrun.
  injection Hrun as Hst. rewrite HS, Ht in Hst.
  rewrite run_sheet_request. now rewrite <- Hst.
Qed.

(** C10.  When the delegate of a creation tool returns a falsy result,
    or a non-empty dictionary with neither a ['spreadsheetId'] nor an
    ['id'] key, the tool returns that result and the stored current
    identifier is what it was before the call. *)
Theorem creation_without_identifier_keeps_current
        drive (c : CreationTool) st result w :
  creation_delegate drive c (world st) = (Returned result, w) ->
  truthy result = false \/
  (exists d, result = PDict d /\ truthy result = true /\
             dict_mem "spreadsheetId" d = false /\
             dict_mem "id" d = false) ->
  run_creation drive c st = (Returned result, with_world st w) /\
  current_spreadsheet_id (snd (run_creation drive c st))
  = current_spreadsheet_id st.
Proof.
  intros H [Hf | (d & -> & _ & Ha & Hb)].
  - rewrite (run_creation_falsy _ _ _ _ _ H Hf). now split.
  - rewrite (run_creation_dict _ _ _ _ _ H).
    rewrite (carried_id_absent _ Ha Hb). now split.
Qed.

End Generic.

Lemma failure_is_envelope msg :
  Str.nonempty msg = true -> is_failure_envelope (failure msg) = true.
Proof. intros H. unfold failure, is_failure_envelope. cbn. exact H. Qed.

Lemma reports_success_falsy result :
  truthy result = false -> reports_success result = Returned false.
Proof. intros H. unfold reports_success. now rewrite H. Qed.

Section Envelope.
Context {W : Type}.
Variable json_loads : string -> Outcome PyVal.
Variables slides docs : string -> list PyVal -> SE W PyVal.
Implicit Types (st : State W).

(** Under [try], the content is prepared and then sent once. *)
Lemma slide_content_non_string content :
  (forall text, content <> PStr text) ->
  slide_content json_loads content = Returned content.
Proof. intros H. destruct content; try reflexivity. now destruct (H s). Qed.

Lemma slide_content_json_string text s :
  json_loads (Str.strip_char "`" text) = Returned (PStr s) ->
  slide_content json_loads (PStr text)
  = Returned (PStr (Str.replace_escaped_newlines s)).
Proof. intros H. unfold slide_content. now rewrite H. Qed.

Lemma slide_content_not_json text e :
  json_loads (Str.strip_char "`" text) = Raised e ->
  exn_type e = "JSONDecodeError" ->
  slide_content json_loads (PStr text)
  = Returned (PStr (Str.replace_escaped_newlines
                      (Str.strip_char "`" text))).
Proof. intros H He. unfold slide_content. now rewrite H, He. Qed.

(** On plain text, without backticks, without escaped newlines, and
    which [json.loads] rejects, the content transform is the identity, and
    applying it twice is applying it once. *)
Theorem slide_content_plain_text (x : string) (e : exn) :
  Str.contains "`" x = false ->
  has_escaped_newline x = false ->
  json_loads x = Raised e ->
  exn_type e = "JSONDecodeError" ->
  slide_content json_loads (PStr x) = Returned (PStr x) /\
  bindO (slide_content json_loads (PStr x)) (slide_content json_loads)
  = slide_content json_loads (PStr x).
Proof.
  intros Hb Hn Hj He.
  assert (H : slide_content json_loads (PStr x) = Returned (PStr x)).
  { pose proof (StrFacts.strip_char_absent "`" x Hb) as Hs.
    rewrite (slide_content_not_json x e); [| now rewrite Hs | exact He].
    now rewrite Hs, (StrFacts.replace_absent x Hn). }
  split; [exact H|]. rewrite H. exact H.
Qed.

End Envelope.

(** The one request [add_slide_to_presentation] makes carries the
    prepared content. *)
Lemma add_slide_request json_loads respond presentation_id title content c
      (st : State Probe.Log) :
  slide_content json_loads content = Returned c ->
  world (snd (add_slide_to_presentation
                json_loads (Probe.recording respond)
                presentation_id title content st))
  = (world st ++ [("add_slide", [presentation_id; PStr title; c])])%list.
Proof.
  intros H.
  unfold add_slide_to_presentation, try_except, bind at 1, liftO at 1.
  rewrite H. unfold bind at 1. rewrite delegate_run.
  unfold Probe.recording at 1 2. cbn [fst snd].
  destruct (respond "add_slide" [presentation_id; PStr title; c])
    as [result|e]; [|reflexivity].
  unfold bind at 1, liftO at 1.
  destruct (reports_success result) as [[|]|e]; try reflexivity.
  unfold bind, liftO.
  destruct (py_get result "slide_id"); [|reflexivity].
  destruct (py_get result "dimensions"); reflexivity.
Qed.

(** C8, amended.  For a string content, all leading and trailing
    backticks are stripped.  If what remains parses as a JSON string, the
    delegate receives the parsed string with every two-character escaped
    newline in it turned into a newline; if it does not parse as JSON, the
    delegate receives the stripped text with the same replacement. *)
Theorem string_content_sent json_loads respond presentation_id title text
        (st : State Probe.Log) :
  let stripped := Str.strip_char "`" text in
  let sent c :=
    world (snd (add_slide_to_presentation
                  json_loads (Probe.recording respond)
                  presentation_id title (PStr text) st))
    = (world st ++ [("add_slide", [presentation_id; PStr title; PStr c])])%list
  in
  (forall s, json_loads stripped = Returned (PStr s) ->
             sent (Str.replace_escaped_newlines s)) /\
  (forall e, json_loads stripped = Raised e ->
             exn_type e = "JSONDecodeError" ->
             sent (Str.replace_escaped_newlines stripped)).
Proof.
  intros stripped sent. subst sent. split.
  - intros s Hj. apply add_slide_request.
    now apply slide_content_json_string.
  - intros e Hj He. apply add_slide_request.
    now apply (slide_content_not_json json_loads text e).
Qed.


(** C8 as stated fails when the content is the JSON text of a string that
    holds a backslash followed by [n]: the parsed value keeps the two
    characters, the delegate receives a newline in their place. *)
Lemma parsed_string_is_rewritten :
  let text := Examples.quoted "a\\nb" in
  Json.loads (Str.strip_char "`" text) = Returned (PStr "a\nb") /\
  world (snd (add_slide_to_presentation
                Json.loads (Probe.recording Probe.silent)
                (PStr "P1") "Title" (PStr text) (initial [])))
  = [("add_slide",
      [PStr "P1"; PStr "Title";
       PStr (String "a" (String Str.newline "b"))])] /\
  PStr (String "a" (String Str.newline "b")) <> PStr "a\nb".
Proof. repeat split. discriminate. Qed.

(** A content that parses as JSON but not as a string never reaches the
    delegate: [replace] is no method of the parsed value. *)
Lemma parsed_number_is_not_sent :
  add_slide_to_presentation Json.loads (Probe.recording Probe.silent)
                            (PStr "P1") "Title" (PStr "2024") (initial [])
  = (Returned (failure "Error: 'int' object has no attribute 'replace'"),
     initial []).
Proof. reflexivity. Qed.

Lemma string_content_sent_witness :
  let sent text c :=
    world (snd (add_slide_to_presentation
                  Json.loads (Probe.recording Probe.silent)
                  (PStr "P1") "Title" (PStr text) (initial [])))
    = [("add_slide", [PStr "P1"; PStr "Title"; PStr c])] in
  sent (Examples.quoted "a\\nb") (String "a" (String Str.newline "b")) /\
  sent "```Hello\nworld```" (String "H" (String "e" (String "l" (String "l"
         (String "o" (String Str.newline "world")))))).
Proof.
  intros sent. subst sent. split.
  - apply (proj1 (string_content_sent
                    Json.loads Probe.silent (PStr "P1") "Title"
                    (Examples.quoted "a\\nb") (initial [])) "a\nb").
    reflexivity.
  - apply (proj2 (string_content_sent
                    Json.loads Probe.silent (PStr "P1") "Title"
                    "```Hello\nworld```" (initial []))
                 Json.JSONDecodeError);
      reflexivity.
Defined.

(** C9.  The content transform is not the identity on every plain text:
    ["2024"], ["true"] and ["null"] hold no backtick, no escaped newline
    and no character of JSON structure, [json.loads] parses them, and
    [replace] is no method of the parsed value.  The transform raises
    [AttributeError] where the claim has it return the text, and
    [add_slide_to_presentation] answers with an error without a request to
    [slides]. *)
Theorem plain_literal_is_not_returned :
  let slides := Probe.recording Probe.silent in
  (plain "2024" = true /\
   slide_content Json.loads (PStr "2024")
   = Raised (AttributeError (PInt 2024) "replace") /\
   slide_content Json.loads (PStr "2024") <> Returned (PStr "2024") /\
   add_slide_to_presentation Json.loads slides (PStr "P1") "Year"
                             (PStr "2024") (initial [])
   = (Returned (failure "Error: 'int' object has no attribute 'replace'"),
      initial [])) /\
  (plain "true" = true /\
   slide_content Json.loads (PStr "true")
   = Raised (AttributeError (PBool true) "replace")) /\
  (plain "null" = true /\
   slide_content Json.loads (PStr "null")
   = Raised (AttributeError PNone "replace")) /\
  (plain "Hello world" = true /\
   slide_content Json.loads (PStr "Hello world")
   = Returned (PStr "Hello world")).
Proof. cbv zeta. repeat split. discriminate. Qed.

Lemma slide_content_plain_text_witness :
  slide_content Json.loads (PStr "Hello world") = Returned (PStr "Hello world")
  /\
  bindO (slide_content Json.loads (PStr "Hello world"))
        (slide_content Json.loads)
  = slide_content Json.loads (PStr "Hello world").
Proof.
  apply (slide_content_plain_text Json.loads "Hello world"
                                  Json.JSONDecodeError);
    reflexivity.
Defined.

(** C2 as stated fails for an empty identifier: the specification's
    [resolveOrCurrent] would fall back on the stored identifier, the tool
    sends the empty string. *)
Lemma empty_identifier_is_forwarded :
  resolveOrCurrent (PStr EmptyString) (PStr "S1") = PStr "S1" /\
  list_sheets (Probe.recording Probe.silent) (PStr EmptyString)
              (Examples.with_current (PStr "S1"))
  = (Returned PNone,
     {| current_spreadsheet_id := PStr "S1";
        world := [("list_sheets", [PStr EmptyString])] |}).
Proof. split; reflexivity. Qed.

(** C3.  [add_sheet] is the one sheet tool without the fallback block:
    it names the global and never reads it.  After [create_spreadsheet]
    has returned the identifier [S9] and made it current, [add_sheet]
    called with no spreadsheet identifier delegates with [None], where
    [rename_sheet], called the same way, delegates with [S9]. *)
Theorem add_sheet_ignores_current :
  let sheets := Probe.recording Probe.silent in
  let st1 := snd (run_creation Examples.working_drive
                               (Blank "Q1 Report" None) (initial [])) in
  (exists d,
      fst (run_creation Examples.working_drive (Blank "Q1 Report" None)
                        (initial [])) = Returned (PDict d) /\
      carried_id d = PStr "S9") /\
  current_spreadsheet_id st1 = PStr "S9" /\
  add_sheet sheets PNone (PStr "Totals") st1
  = delegate (sheets "add_sheet" [PNone; PStr "Totals"]) st1 /\
  add_sheet sheets PNone (PStr "Totals") st1
  <> delegate (sheets "add_sheet" [PStr "S9"; PStr "Totals"]) st1 /\
  rename_sheet sheets PNone (PInt 0) (PStr "Totals") st1
  = delegate (sheets "rename_sheet" [PStr "S9"; PInt 0; PStr "Totals"]) st1.
Proof.
  cbv zeta. split; [eexists; split; reflexivity|].
  repeat split. discriminate.
Qed.

Lemma created_spreadsheet_is_current_witness :
  run_creation Examples.working_drive (Blank "Q1 Report" None)
               (initial [])
  = (Returned (PDict [("spreadsheetId", PStr "S9");
                      ("title", PStr "Q1 Report");
                      ("folder", PStr "default")]),
     {| current_spreadsheet_id := PStr "S9";
        world := [("spreadsheets.create",
                   [PDict [("properties", PDict [("title", PStr "Q1 Report")]);
                           ("sheets",
                            PList [PDict [("properties",
                                           PDict [("title", PStr "Sheet1")])]])];
                    PStr "spreadsheetId"]);
                  ("files.get", [PStr "S9"; PStr "parents"]);
                  ("files.update",
                   [PStr "S9"; PStr "F1"; PStr "root"; PStr "id, parents"])] |})
  /\
  forall st1,
    st1 = snd (run_creation Examples.working_drive (Blank "Q1 Report" None)
                            (initial [])) ->
    run_sheet (Probe.recording Probe.silent) ListSheets PNone st1
    = delegate (Probe.recording Probe.silent "list_sheets" [PStr "S9"]) st1.
Proof.
  split; [reflexivity|]. intros st1 ->.
  eapply (created_spreadsheet_is_current
            Examples.working_drive (Probe.recording Probe.silent)
            (Blank "Q1 Report" None) ListSheets (initial [])).
  - reflexivity.
  - reflexivity.
  - reflexivity.
Defined.

Lemma creation_without_identifier_keeps_current_witness :
  (run_creation Examples.broken_drive (Blank "Q1 Report" None)
                (Examples.with_current (PStr "S1"))
   = (Returned (PDict []), Examples.with_current (PStr "S1")) /\
   current_spreadsheet_id
     (snd (run_creation Examples.broken_drive (Blank "Q1 Report" None)
                        (Examples.with_current (PStr "S1"))))
   = PStr "S1") /\
  (let drive := Probe.drive_returning (PDict [("title", PStr "Q1 Report")]) in
   run_creation drive (FromTemplate (PStr "T1") "Q1 Report" None)
                (Examples.with_current (PStr "S1"))
   = (Returned (PDict [("title", PStr "Q1 Report")]),
      Examples.with_current (PStr "S1")) /\
   current_spreadsheet_id
     (snd (run_creation drive (FromTemplate (PStr "T1") "Q1 Report" None)
                        (Examples.with_current (PStr "S1"))))
   = PStr "S1").
Proof.
  split.
  - apply (creation_without_identifier_keeps_current
             Examples.broken_drive (Blank "Q1 Report" None)
             (Examples.with_current (PStr "S1")) (PDict []) []).
    + reflexivity.
    + left; reflexivity.
  - apply (creation_without_identifier_keeps_current
             (Probe.drive_returning (PDict [("title", PStr "Q1 Report")]))
             (FromTemplate (PStr "T1") "Q1 Report" None)
             (Examples.with_current (PStr "S1"))
             (PDict [("title", PStr "Q1 Report")]) []).
    + reflexivity.
    + right. eexists. repeat split.
Defined.

End MainFacts.


(* ================================================================== *)
(** * More on configuration resolution *)

Module ConfigMore.
Import Config Spec.

(** ** Keys of a dictionary *)

Lemma dict_mem_keys {V} (d : list (string * V)) k :
  dict_mem k d = true <-> In k (dict_keys d).
Proof.
  unfold dict_mem, dict_keys.
  induction d as [|[k' v'] r IH]; simpl.
  - split; [discriminate|tauto].
  - destruct (k' =? k) eqn:E.
    + apply String.eqb_eq in E. split; auto.
    + apply String.eqb_neq in E. rewrite IH. split; [auto|].
      intros [H|H]; [contradiction|exact H].
Qed.

Lemma dict_set_keys {V} (d : list (string * V)) k v :
  dict_keys (dict_set k v d) =
  if dict_mem k d then dict_keys d else (dict_keys d ++ [k])%list.
Proof.
  unfold dict_mem, dict_keys.
  induction d as [|[k' v'] r IH]; simpl; [reflexivity|].
  destruct (k' =? k) eqn:E; simpl; [reflexivity|].
  rewrite IH. now destruct (dict_get k r).
Qed.

Lemma dict_set_nodup {V} (d : list (string * V)) k v :
  NoDup (dict_keys d) -> NoDup (dict_keys (dict_set k v d)).
Proof.
  intros H. rewrite dict_set_keys.
  destruct (dict_mem k d) eqn:E; [exact H|].
  assert (Hn : ~ In k (dict_keys d)).
  { intros Hin. apply dict_mem_keys in Hin. congruence. }
  clear E. induction (dict_keys d) as [|x l IH]; simpl.
  - constructor; [tauto|constructor].
  - inversion H; subst. constructor.
    + rewrite in_app_iff. simpl. intros [Hx|[Hx|[]]]; [contradiction|].
      apply Hn. now left.
    + apply IH; [assumption|]. intros Hk. apply Hn. now right.
Qed.

Lemma insert_all_nodup es d :
  NoDup (dict_keys d) -> NoDup (dict_keys (insert_all es d)).
Proof.
  revert d. induction es as [|[k v] es IH]; intros d H; simpl; [exact H|].
  apply IH. now apply dict_set_nodup.
Qed.

Lemma dict_get_in {V} (d : list (string * V)) k v :
  dict_get k d = Some v -> In (k, v) d.
Proof.
  induction d as [|[k' v'] r IH]; simpl; [discriminate|].
  destruct (k' =? k) eqn:E.
  - apply String.eqb_eq in E. intros [= ->]. left. now subst.
  - auto.
Qed.

(** ** What [from_env] returns *)

Lemma from_env_needs_secret env cfg :
  from_env env = Returned cfg ->
  exists secret,
    getenv env "MCPGD_CLIENT_SECRET_PATH" = Some secret /\
    Str.nonempty secret = true.
Proof.
  unfold from_env.
  destruct (getenv env "MCPGD_CLIENT_SECRET_PATH") as [secret|]; [|discriminate].
  destruct (Str.nonempty secret) eqn:E; [|discriminate].
  intros _. now exists secret.
Qed.

Lemma parse_folders_dict raw d :
  parse_folders raw = Returned d -> d = dict_of (folder_entries raw).
Proof.
  rewrite ConfigFacts.parse_folders_entries. now intros [= <-].
Qed.

Lemma path_join_nonempty a b :
  Str.nonempty b = true -> Str.nonempty (path_join a b) = true.
Proof.
  unfold path_join. intros Hb.
  destruct (Str.rev a) as [|c r] eqn:E; [exact Hb|].
  destruct a as [|x a'].
  - discriminate.
  - now destruct (Ascii.eqb c "/").
Qed.

(** [from_env] on an environment with its credential path, by which of the
    two folder schemes is supplied *)
Lemma from_env_by_scheme env cfg :
  from_env env = Returned cfg ->
  let parsed := dict_of (folder_entries
                           (getenv_default env "MCPGD_FOLDERS" EmptyString)) in
  let id := getenv_default env "MCPGD_FOLDER_ID" EmptyString in
  let dflt := getenv_default env "MCPGD_DEFAULT_FOLDER" EmptyString in
  (parsed = [] /\ Str.nonempty id = true /\
   folders cfg = [("default", id)] /\ default_folder cfg = "default" /\
   folder_id cfg = id) \/
  (exists a0 f0 rest,
      parsed = (a0, f0) :: rest /\ Str.nonempty id = false /\
      folders cfg = parsed /\
      default_folder cfg = (if Str.nonempty dflt then dflt else a0) /\
      folder_id cfg = match (if Str.nonempty dflt
                             then dict_get dflt parsed else None) with
                      | Some x => x
                      | None => f0
                      end) \/
  (dict_nonempty parsed = true /\ Str.nonempty id = true /\
   folders cfg = parsed /\ default_folder cfg = dflt /\ folder_id cfg = id).
Proof.
  intros H parsed id dflt.
  destruct (from_env_needs_secret env cfg H) as (secret & Hs & Hn).
  rewrite (ConfigFacts.from_env_with_secret env secret Hs Hn) in H.
  cbv zeta in H. fold parsed id dflt in H.
  destruct parsed as [|[a0 f0] rest] eqn:Hp; destruct (Str.nonempty id) eqn:Hi.
  - rewrite (ConfigFacts.normalize_legacy_only _ _ Hi) in H. cbn in H.
    rewrite Hi in H. cbn in H. injection H as <-. left. now repeat split.
  - rewrite (ConfigFacts.normalize_neither _ _ Hi) in H. cbn in H.
    rewrite Hi in H. discriminate.
  - rewrite (ConfigFacts.normalize_both ((a0, f0) :: rest) dflt id eq_refl Hi)
      in H. cbn in H.
    rewrite Hi in H. cbn in H. injection H as <-. right; right.
    now repeat split.
  - rewrite (ConfigFacts.normalize_new_only _ _ _ _ _ Hi) in H. cbn in H.
    rewrite andb_false_r in H. injection H as <-. right; left.
    exists a0, f0, rest. now repeat split.
Qed.

(** X1.  When only the legacy folder variable is supplied, the resolved
    configuration has [folders = {"default": id}] and
    [default_folder = "default"], whatever the default-folder variable
    holds. *)
Theorem legacy_only_is_normalized (env : Env) (secret id : string) :
  getenv env "MCPGD_CLIENT_SECRET_PATH" = Some secret ->
  Str.nonempty secret = true ->
  getenv env "MCPGD_FOLDER_ID" = Some id ->
  Str.nonempty id = true ->
  parse_folders (getenv_default env "MCPGD_FOLDERS" EmptyString) = Returned [] ->
  exists cfg,
    from_env env = Returned cfg /\
    folder_id cfg = id /\
    folders cfg = [("default", id)] /\
    default_folder cfg = "default".
Proof.
  intros Hs Hn Hid Hi Hparse.
  apply parse_folders_dict in Hparse.
  rewrite (ConfigFacts.from_env_with_secret env secret Hs Hn). cbv zeta.
  rewrite <- Hparse.
  assert (E : getenv_default env "MCPGD_FOLDER_ID" EmptyString = id)
    by (unfold getenv_default; now rewrite Hid).
  rewrite E, (ConfigFacts.normalize_legacy_only _ _ Hi). cbn.
  rewrite Hi. cbn. eexists. now repeat split.
Qed.

Lemma legacy_only_is_normalized_witness :
  exists cfg,
    from_env Examples.env_legacy = Returned cfg /\
    folder_id cfg = "F1" /\
    folders cfg = [("default", "F1")] /\
    default_folder cfg = "default".
Proof.
  apply (legacy_only_is_normalized Examples.env_legacy "secret.json" "F1");
    reflexivity.
Defined.

(** X2.  When both schemes are supplied, nothing is reconciled: the legacy
    identifier, the parsed folders and the default-folder variable are
    taken as given, and [default_folder] stays empty if the variable is
    unset. *)
Theorem both_schemes_are_kept (env : Env) (secret id a0 f0 : string)
        (rest : list (string * string)) :
  getenv env "MCPGD_CLIENT_SECRET_PATH" = Some secret ->
  Str.nonempty secret = true ->
  getenv env "MCPGD_FOLDER_ID" = Some id ->
  Str.nonempty id = true ->
  parse_folders (getenv_default env "MCPGD_FOLDERS" EmptyString)
  = Returned ((a0, f0) :: rest) ->
  exists cfg,
    from_env env = Returned cfg /\
    folder_id cfg = id /\
    folders cfg = (a0, f0) :: rest /\
    default_folder cfg = getenv_default env "MCPGD_DEFAULT_FOLDER" EmptyString.
Proof.
  intros Hs Hn Hid Hi Hparse.
  apply parse_folders_dict in Hparse.
  rewrite (ConfigFacts.from_env_with_secret env secret Hs Hn). cbv zeta.
  rewrite <- Hparse.
  assert (E : getenv_default env "MCPGD_FOLDER_ID" EmptyString = id)
    by (unfold getenv_default; now rewrite Hid).
  rewrite E, (ConfigFacts.normalize_both ((a0, f0) :: rest) _ id eq_refl Hi).
  cbn.
  rewrite Hi. cbn. eexists. now repeat split.
Qed.

Lemma both_schemes_are_kept_witness :
  exists cfg,
    from_env Examples.env_both = Returned cfg /\
    folder_id cfg = "F1" /\
    folders cfg = [("a", "1"); ("b", "2")] /\
    default_folder cfg = EmptyString.
Proof.
  apply (both_schemes_are_kept Examples.env_both "secret.json" "F1" "a" "1"
                               [("b", "2")]);
    reflexivity.
Defined.

(** X3.  Every configuration [from_env] returns has a non-empty credential
    path, a non-empty token path, at least one folder, and no alias
    twice. *)
Theorem from_env_result_invariant (env : Env) (cfg : Config) :
  from_env env = Returned cfg ->
  Str.nonempty (client_secret_path cfg) = true /\
  Str.nonempty (token_path cfg) = true /\
  dict_nonempty (folders cfg) = true /\
  NoDup (dict_keys (folders cfg)).
Proof.
  intros H.
  pose proof (from_env_by_scheme env cfg H) as Hcases. cbv zeta in Hcases.
  destruct (from_env_needs_secret env cfg H) as (secret & Hs & Hn).
  rewrite (ConfigFacts.from_env_with_secret env secret Hs Hn) in H.
  cbv zeta in H.
  destruct (normalize _ _ _) as [[[fs df] fid]|e] in H; [|discriminate].
  cbn in H.
  destruct (negb (Str.nonempty fid) && negb (dict_nonempty fs)); [discriminate|].
  injection H as H. subst cfg. cbn [client_secret_path token_path] in *.
  split; [exact Hn|]. split.
  { destruct (getenv env "MCPGD_TOKEN_PATH") as [p|].
    - destruct (Str.nonempty p) eqn:Ep; [exact Ep|].
      now apply path_join_nonempty.
    - now apply path_join_nonempty. }
  cbn [folders] in *.
  destruct Hcases as [(_ & _ & -> & _)
                     |[(a0 & f0 & rest & Hp & _ & -> & _)
                      |(Hne & _ & -> & _)]].
  - split; [reflexivity|].
    constructor; [simpl; tauto|constructor].
  - split; [now rewrite Hp|].
    apply insert_all_nodup. constructor.
  - split; [exact Hne|].
    apply insert_all_nodup. constructor.
Qed.

Lemma from_env_result_invariant_witness :
  Str.nonempty (client_secret_path Examples.config_legacy) = true /\
  Str.nonempty (token_path Examples.config_legacy) = true /\
  dict_nonempty (folders Examples.config_legacy) = true /\
  NoDup (dict_keys (folders Examples.config_legacy)).
Proof.
  apply (from_env_result_invariant Examples.env_legacy). reflexivity.
Defined.

(** X4.  The token path is the token-path variable when it is set and not
    empty; otherwise it is [.mcp_google_spreadsheet.json] in the home
    directory, with a [/] put between when the home directory does not end
    with one. *)
Theorem token_path_default (env : Env) (cfg : Config) :
  from_env env = Returned cfg ->
  (forall p, getenv env "MCPGD_TOKEN_PATH" = Some p ->
             Str.nonempty p = true -> token_path cfg = p) /\
  (absent_or_empty (getenv env "MCPGD_TOKEN_PATH") = true ->
   forall h c, home_dir env = h ++ String c EmptyString ->
               token_path cfg =
               if Ascii.eqb c "/"
               then home_dir env ++ ".mcp_google_spreadsheet.json"
               else home_dir env ++ "/.mcp_google_spreadsheet.json").
Proof.
  intros H.
  destruct (from_env_needs_secret env cfg H) as (secret & Hs & Hn).
  rewrite (ConfigFacts.from_env_with_secret env secret Hs Hn) in H.
  cbv zeta in H.
  destruct (normalize _ _ _) as [[[fs df] fid]|e] in H; [|discriminate].
  cbn in H.
  destruct (negb (Str.nonempty fid) && negb (dict_nonempty fs)); [discriminate|].
  injection H as H. subst cfg. cbn [token_path]. split.
  - intros p Hp Hne. now rewrite Hp, Hne.
  - intros Habs h c Hh.
    assert (E : path_join (home_dir env) ".mcp_google_spreadsheet.json" =
                if Ascii.eqb c "/"
                then home_dir env ++ ".mcp_google_spreadsheet.json"
                else home_dir env ++ "/.mcp_google_spreadsheet.json").
    { unfold path_join. rewrite Hh at 1. rewrite StrFacts.rev_app. reflexivity. }
    unfold absent_or_empty in Habs.
    destruct (getenv env "MCPGD_TOKEN_PATH") as [p|]; [|exact E].
    apply negb_true_iff in Habs. now rewrite Habs.
Qed.

Lemma token_path_default_witness :
  token_path Examples.config_legacy = "/home/u/.mcp_google_spreadsheet.json".
Proof.
  apply (proj2 (token_path_default Examples.env_legacy Examples.config_legacy
                                   eq_refl)
               eq_refl "/home/" "u"%char).
  reflexivity.
Defined.

(** [get_folder_id] never raises: it returns the default folder
    identifier for no folder or the empty string, the identifier mapped to
    an alias of [folders], and any other string as it is. *)
Theorem get_folder_id_total (cfg : Config) (folder : option string) :
  exists id,
    get_folder_id cfg folder = Returned id /\
    match folder with
    | None => id = folder_id cfg
    | Some f =>
        if Str.nonempty f
        then match dict_get f (folders cfg) with
             | Some mapped => id = mapped
             | None => id = f
             end
        else id = folder_id cfg
    end.
Proof.
  unfold get_folder_id, dict_mem, dict_getitem.
  destruct folder as [f|]; [|eauto].
  destruct (Str.nonempty f); cbn [negb]; [|eauto].
  destruct (dict_get f (folders cfg)); eauto.
Qed.

(** X5.  The alias of the default folder resolves to the default folder
    identifier: for a configuration resolved from one scheme only, with a
    default-folder variable that is unset or names a folder,
    [get_folder_id(default_folder) = folder_id]. *)
Theorem default_alias_resolves_to_default_id (env : Env) (cfg : Config) :
  from_env env = Returned cfg ->
  let parsed := dict_of (folder_entries
                           (getenv_default env "MCPGD_FOLDERS" EmptyString)) in
  let dflt := getenv_default env "MCPGD_DEFAULT_FOLDER" EmptyString in
  absent_or_empty (getenv env "MCPGD_FOLDER_ID") = true \/ parsed = [] ->
  parsed = [] \/ Str.nonempty dflt = false \/ dict_mem dflt parsed = true ->
  get_folder_id cfg (Some (default_folder cfg)) = Returned (folder_id cfg).
Proof.
  intros H parsed dflt Hone Hdflt.
  pose proof (from_env_by_scheme env cfg H) as Hcases. cbv zeta in Hcases.
  fold parsed dflt in Hcases.
  pose proof (ConfigFacts.getenv_default_nonempty env "MCPGD_FOLDER_ID") as Hid.
  unfold get_folder_id, dict_mem, dict_getitem.
  destruct Hcases as [(_ & _ & -> & -> & ->)
                     |[(a0 & f0 & rest & Hp & _ & -> & -> & ->)
                      |(Hne & Hi & -> & -> & ->)]].
  - cbn. reflexivity.
  - destruct Hdflt as [Hd|[Hd|Hd]].
    + congruence.
    + rewrite Hd. rewrite Hp. cbn.
      destruct (Str.nonempty a0); cbn; [|reflexivity].
      now rewrite String.eqb_refl.
    + unfold dict_mem in Hd.
      destruct (Str.nonempty dflt) eqn:En.
      * cbn [negb].
        destruct (dict_get dflt parsed) as [x|] eqn:Eg; [|discriminate].
        now destruct (negb (Str.nonempty dflt)).
      * rewrite Hp. cbn.
        destruct (Str.nonempty a0); cbn; [|reflexivity].
        now rewrite String.eqb_refl.
  - destruct Hone as [Habs|Hnil].
    + rewrite Hid, Habs in Hi. discriminate.
    + rewrite Hnil in Hne. discriminate.
Qed.

Lemma default_alias_resolves_to_default_id_witness :
  get_folder_id Examples.config_new_default (Some "home") = Returned "H1".
Proof.
  apply (default_alias_resolves_to_default_id
           Examples.env_new_default Examples.config_new_default eq_refl).
  - left; reflexivity.
  - right; right; reflexivity.
Defined.

Lemma first_alias_of_first id items :
  (exists l1 alias l2,
      items = (l1 ++ (alias, id) :: l2)%list /\
      (forall k, ~ In (k, id) l1) /\
      first_alias_of id items = alias) \/
  ((forall k, ~ In (k, id) items) /\ first_alias_of id items = EmptyString).
Proof.
  induction items as [|[k v] r IH]; simpl.
  - right. split; [tauto|reflexivity].
  - destruct (v =? id) eqn:E.
    + apply String.eqb_eq in E. subst v. left.
      exists [], k, r. repeat split. intros k' [].
    + apply String.eqb_neq in E.
      destruct IH as [(l1 & a & l2 & -> & Hl1 & Ha)|[Hno Ha]].
      * left. exists ((k, v) :: l1), a, l2. repeat split; [|exact Ha].
        intros k' [Hk|Hk]; [congruence|]. now apply (Hl1 k').
      * right. split; [|exact Ha].
        intros k' [Hk|Hk]; [congruence|]. now apply (Hno k').
Qed.

Lemma first_alias_of_found id before alias after :
  (forall k, ~ In (k, id) before) ->
  first_alias_of id (before ++ (alias, id) :: after)%list = alias.
Proof.
  induction before as [|[k v] r IH]; intros Hno; simpl.
  - now rewrite String.eqb_refl.
  - destruct (v =? id) eqn:E.
    + apply String.eqb_eq in E. subst v. destruct (Hno k). now left.
    + apply IH. intros k' Hk. apply (Hno k'). now right.
Qed.

(** X6.  [get_folder_name] returns the first alias, in the order of the
    mapping, whose identifier is the one asked for, and the empty string
    when no alias has that identifier.  So a result that is not empty is
    an alias of that identifier; an empty result may be the empty alias
    as well as no alias. *)
Theorem get_folder_name_first_alias (cfg : Config) (id : string) :
  (forall before alias after,
      folders cfg = (before ++ (alias, id) :: after)%list ->
      (forall k, ~ In (k, id) before) ->
      get_folder_name cfg id = alias) /\
  ((forall k, ~ In (k, id) (folders cfg)) ->
   get_folder_name cfg id = EmptyString) /\
  (Str.nonempty (get_folder_name cfg id) = true ->
   In (get_folder_name cfg id, id) (folders cfg)).
Proof.
  unfold get_folder_name. split; [|split].
  - intros before alias after -> Hno. now apply first_alias_of_found.
  - intros Hno.
    destruct (first_alias_of_first id (folders cfg))
      as [(l1 & a & l2 & Hf & _ & _)|[_ Ha]]; [|exact Ha].
    destruct (Hno a). rewrite Hf. apply in_or_app. right. now left.
  - intros Hn.
    destruct (first_alias_of_first id (folders cfg))
      as [(l1 & a & l2 & Hf & _ & Ha)|[_ Ha]].
    + rewrite Ha, Hf. apply in_or_app. right. now left.
    + rewrite Ha in Hn. discriminate.
Qed.

Lemma get_folder_name_first_alias_witness :
  parse_folders ":X,home:X" = Returned [(EmptyString, "X"); ("home", "X")] /\
  get_folder_name Examples.config_empty_alias "X" = EmptyString /\
  get_folder_name Examples.config_empty_alias "H1" = "work" /\
  get_folder_name Examples.config_empty_alias "Z" = EmptyString.
Proof.
  destruct (get_folder_name_first_alias Examples.config_empty_alias "X")
    as (HX & _).
  destruct (get_folder_name_first_alias Examples.config_empty_alias "H1")
    as (HH & _).
  destruct (get_folder_name_first_alias Examples.config_empty_alias "Z")
    as (_ & HZ & _).
  split; [reflexivity|]. split; [|split].
  - apply (HX [] EmptyString [("home", "X"); ("work", "H1"); ("den", "H1")]).
    + reflexivity.
    + intros k [].
  - apply (HH [(EmptyString, "X"); ("home", "X")] "work" [("den", "H1")]).
    + reflexivity.
    + intros k [[=]|[[=]|[]]].
  - apply HZ. intros k [[=]|[[=]|[[=]|[[=]|[]]]]].
Defined.

(** X7.  Alias to identifier and back: for a non-empty alias of [folders]
    whose identifier no other alias has, [get_folder_name] of
    [get_folder_id] of the alias is the alias. *)
Theorem alias_round_trip (cfg : Config) (alias id : string) :
  Str.nonempty alias = true ->
  dict_get alias (folders cfg) = Some id ->
  (forall k, In (k, id) (folders cfg) -> k = alias) ->
  get_folder_id cfg (Some alias) = Returned id /\
  get_folder_name cfg id = alias.
Proof.
  intros Hn Hg Huniq. split.
  - unfold get_folder_id, dict_mem, dict_getitem. now rewrite Hn, Hg.
  - destruct (first_alias_of_first id (folders cfg))
      as [(l1 & a & l2 & Hf & _ & Ha)|[Hno _]].
    + unfold get_folder_name. rewrite Ha. apply Huniq.
      rewrite Hf, in_app_iff. right; now left.
    + exfalso. apply (Hno alias). now apply dict_get_in.
Qed.

Lemma alias_round_trip_witness :
  get_folder_id Examples.config_new_default (Some "work") = Returned "W1" /\
  get_folder_name Examples.config_new_default "W1" = "work".
Proof.
  apply (alias_round_trip Examples.config_new_default "work" "W1").
  - reflexivity.
  - reflexivity.
  - intros k [H|[H|[]]]; [now injection H|discriminate].
Defined.

End ConfigMore.


(* ================================================================== *)
(** * Characters of the parsed folders *)

Module ParseMore.
Import Config Spec.

Lemma contains_suffix c p t :
  Str.contains c t = true -> Str.contains c (p ++ t) = true.
Proof. intros H. rewrite StrFacts.contains_app, H. apply orb_true_r. Qed.

(** What [lstrip] leaves is the end of the string. *)
Lemma lstrip_suffix s : exists p, s = p ++ Str.lstrip s.
Proof.
  remember (String.length s) as n eqn:Hn.
  assert (Hle : String.length s <= n) by lia. clear Hn.
  revert s Hle. induction n as [|n IH]; intros s Hle.
  - destruct s; [now exists EmptyString|simpl in Hle; lia].
  - destruct s as [|c1 r1]; [now exists EmptyString|].
    simpl in Hle. cbn [Str.lstrip].
    destruct (Str.space1 c1).
    { destruct (IH r1 ltac:(lia)) as [p Hp].
      exists (String c1 p). simpl. now rewrite <- Hp. }
    destruct r1 as [|c2 r2]; [now exists EmptyString|].
    simpl in Hle.
    destruct (Str.space2 c1 c2).
    { destruct (IH r2 ltac:(lia)) as [p Hp].
      exists (String c1 (String c2 p)). simpl. now rewrite <- Hp. }
    destruct r2 as [|c3 r3]; [now exists EmptyString|].
    simpl in Hle.
    destruct (Str.space3 c1 c2 c3); [|now exists EmptyString].
    destruct (IH r3 ltac:(lia)) as [p Hp].
    exists (String c1 (String c2 (String c3 p))). simpl. now rewrite <- Hp.
Qed.

Lemma lstrip_rev_suffix s : exists p, s = p ++ Str.lstrip_rev s.
Proof.
  remember (String.length s) as n eqn:Hn.
  assert (Hle : String.length s <= n) by lia. clear Hn.
  revert s Hle. induction n as [|n IH]; intros s Hle.
  - destruct s; [now exists EmptyString|simpl in Hle; lia].
  - destruct s as [|c1 r1]; [now exists EmptyString|].
    simpl in Hle. cbn [Str.lstrip_rev].
    destruct (Str.space1 c1).
    { destruct (IH r1 ltac:(lia)) as [p Hp].
      exists (String c1 p). simpl. now rewrite <- Hp. }
    destruct r1 as [|c2 r2]; [now exists EmptyString|].
    simpl in Hle.
    destruct (Str.space2 c2 c1).
    { destruct (IH r2 ltac:(lia)) as [p Hp].
      exists (String c1 (String c2 p)). simpl. now rewrite <- Hp. }
    destruct r2 as [|c3 r3]; [now exists EmptyString|].
    simpl in Hle.
    destruct (Str.space3 c3 c2 c1); [|now exists EmptyString].
    destruct (IH r3 ltac:(lia)) as [p Hp].
    exists (String c1 (String c2 (String c3 p))). simpl. now rewrite <- Hp.
Qed.

(** [strip] adds no character. *)
Lemma contains_strip c s :
  Str.contains c (Str.strip s) = true -> Str.contains c s = true.
Proof.
  unfold Str.strip, Str.rstrip. rewrite StrFacts.contains_rev. intros H.
  destruct (lstrip_rev_suffix (Str.rev (Str.lstrip s))) as [p Hp].
  assert (H1 : Str.contains c (Str.rev (Str.lstrip s)) = true)
    by (rewrite Hp; now apply contains_suffix).
  rewrite StrFacts.contains_rev in H1.
  destruct (lstrip_suffix s) as [q Hq]. rewrite Hq.
  now apply contains_suffix.
Qed.

Lemma split_nonempty sep s : Str.split sep s <> [].
Proof.
  destruct s as [|c r]; simpl; [discriminate|].
  destruct (Ascii.eqb c sep); [discriminate|].
  destruct (Str.split sep r); discriminate.
Qed.

(** A piece of [split] holds characters of the string only, and never the
    separator. *)
Lemma split_piece sep s item :
  In item (Str.split sep s) ->
  Str.contains sep item = false /\
  forall c, Str.contains c item = true -> Str.contains c s = true.
Proof.
  revert item. induction s as [|x r IH]; intros item Hin; simpl in Hin.
  - destruct Hin as [<-|[]]. split; [reflexivity|auto].
  - destruct (Ascii.eqb x sep) eqn:Ex.
    + destruct Hin as [<-|Hin].
      * split; [reflexivity|discriminate].
      * destruct (IH item Hin) as [H1 H2]. split; [exact H1|].
        intros c Hc. simpl. rewrite (H2 c Hc). apply orb_true_r.
    + pose proof (split_nonempty sep r) as Hne.
      destruct (Str.split sep r) as [|h t]; [contradiction|].
      destruct Hin as [<-|Hin].
      * destruct (IH h (or_introl eq_refl)) as [H1 H2]. split.
        -- simpl. now rewrite Ex, H1.
        -- intros c. simpl. intros Hc. apply orb_true_iff in Hc as [Hc|Hc].
           ++ now rewrite Hc.
           ++ rewrite (H2 c Hc). apply orb_true_r.
      * destruct (IH item (or_intror Hin)) as [H1 H2]. split; [exact H1|].
        intros c Hc. simpl. rewrite (H2 c Hc). apply orb_true_r.
Qed.

(** The two parts of [cut] hold characters of the string only, and the
    first never the separator. *)
Lemma cut_parts sep s a b :
  cut sep s = Some (a, b) ->
  Str.contains sep a = false /\
  forall c, (Str.contains c a = true \/ Str.contains c b = true) ->
            Str.contains c s = true.
Proof.
  revert a b. induction s as [|x r IH]; intros a b H; simpl in H; [discriminate|].
  destruct (Ascii.eqb x sep) eqn:Ex.
  - injection H as <- <-. split; [reflexivity|].
    intros c [Hc|Hc]; [discriminate|]. simpl. rewrite Hc. apply orb_true_r.
  - destruct (cut sep r) as [[a' b']|]; [|discriminate].
    injection H as <- <-. destruct (IH a' b' eq_refl) as [H1 H2]. split.
    + simpl. now rewrite Ex, H1.
    + intros c [Hc|Hc]; simpl.
      * simpl in Hc. apply orb_true_iff in Hc as [Hc|Hc].
        -- now rewrite Hc.
        -- rewrite (H2 c (or_introl Hc)). apply orb_true_r.
      * rewrite (H2 c (or_intror Hc)). apply orb_true_r.
Qed.

Lemma strip_lacks c s :
  Str.contains c s = false -> Str.contains c (Str.strip s) = false.
Proof.
  intros H. destruct (Str.contains c (Str.strip s)) eqn:E; [|reflexivity].
  apply contains_strip in E. congruence.
Qed.

(** The entries of a raw string, character-wise *)
Lemma folder_entry_chars raw alias id :
  In (alias, id) (folder_entries raw) ->
  Str.contains ":" alias = false /\
  Str.contains "," alias = false /\
  Str.contains "," id = false /\
  forall c, (Str.contains c alias = true \/ Str.contains c id = true) ->
            Str.contains c raw = true.
Proof.
  unfold folder_entries. rewrite in_flat_map. intros (item & Hitem & Hin).
  destruct (split_piece "," raw item Hitem) as [Hcomma Hsub].
  unfold entry_of in Hin.
  destruct (cut ":" (Str.strip item)) as [[a b]|] eqn:Hcut; [|destruct Hin].
  destruct Hin as [[= <- <-]|[]].
  destruct (cut_parts ":" _ a b Hcut) as [Hcolon Hparts].
  assert (Hin_item : forall c,
             Str.contains c a = true \/ Str.contains c b = true ->
             Str.contains c item = true).
  { intros c Hc. apply contains_strip. now apply Hparts. }
  assert (Hno : ~ (Str.contains "," a = true \/ Str.contains "," b = true)).
  { intros Hab. pose proof (Hin_item _ Hab). congruence. }
  repeat split.
  - now apply strip_lacks.
  - apply strip_lacks. destruct (Str.contains "," a) eqn:E; [|reflexivity].
    exfalso. apply Hno. now left.
  - apply strip_lacks. destruct (Str.contains "," b) eqn:E; [|reflexivity].
    exfalso. apply Hno. now right.
  - intros c [Hc|Hc]; apply Hsub, Hin_item; apply contains_strip in Hc; auto.
Qed.

Lemma dict_set_in {V} (d : list (string * V)) k v k' v' :
  In (k', v') (dict_set k v d) -> (k', v') = (k, v) \/ In (k', v') d.
Proof.
  induction d as [|[k0 v0] r IH]; simpl.
  - intros [H|[]]; auto.
  - destruct (k0 =? k) eqn:E.
    + apply String.eqb_eq in E. subst k0. intros [H|H]; auto.
    + intros [H|H]; auto. destruct (IH H); auto.
Qed.

Lemma insert_all_in es d k v :
  In (k, v) (insert_all es d) -> In (k, v) es \/ In (k, v) d.
Proof.
  revert d. induction es as [|[k0 v0] es IH]; intros d; simpl; [auto|].
  intros H. destruct (IH _ H) as [H1|H1]; [auto|].
  destruct (dict_set_in _ _ _ _ _ H1) as [[= -> ->]|H2]; auto.
Qed.

(** X8.  Every alias of the parsed folders is free of [:] and of [,],
    every identifier is free of [,] (it may hold [:]), and both are made of
    characters of the raw string. *)
Theorem parsed_folders_characters (raw : string) (d : list (string * string))
        (alias id : string) :
  parse_folders raw = Returned d ->
  In (alias, id) d ->
  Str.contains ":" alias = false /\
  Str.contains "," alias = false /\
  Str.contains "," id = false /\
  forall c, (Str.contains c alias = true \/ Str.contains c id = true) ->
            Str.contains c raw = true.
Proof.
  intros Hparse Hin. apply ConfigMore.parse_folders_dict in Hparse. subst d.
  unfold dict_of in Hin. apply insert_all_in in Hin as [Hin|[]].
  now apply folder_entry_chars.
Qed.

Lemma parsed_folders_characters_witness :
  Str.contains ":" "a" = false /\
  Str.contains "," "a" = false /\
  Str.contains "," "1:2" = false /\
  forall c, (Str.contains c "a" = true \/ Str.contains c "1:2" = true) ->
            Str.contains c " a : 1:2 ,b" = true.
Proof.
  apply (parsed_folders_characters " a : 1:2 ,b" [("a", "1:2")] "a" "1:2").
  - reflexivity.
  - now left.
Defined.

(** X9.  A folders variable without any [:] yields no folder at all, and
    raises nothing. *)
Theorem parse_folders_without_colon (raw : string) :
  Str.contains ":" raw = false -> parse_folders raw = Returned [].
Proof.
  intros H. rewrite ConfigFacts.parse_folders_entries.
  destruct (folder_entries raw) as [|[alias id] es] eqn:E; [reflexivity|].
  exfalso.
  assert (Hin : In (alias, id) (folder_entries raw)) by (rewrite E; now left).
  unfold folder_entries in Hin. rewrite in_flat_map in Hin.
  destruct Hin as (item & Hitem & Hin). unfold entry_of in Hin.
  destruct (cut ":" (Str.strip item)) as [[a b]|] eqn:Hcut; [|destruct Hin].
  pose proof (StrFacts.contains_cut ":" (Str.strip item)) as Hc.
  rewrite Hcut in Hc. apply contains_strip in Hc.
  destruct (split_piece "," raw item Hitem) as [_ Hsub].
  rewrite (Hsub _ Hc) in H. discriminate.
Qed.

Lemma parse_folders_without_colon_witness :
  parse_folders "work,home;H1" = Returned [].
Proof. apply parse_folders_without_colon. reflexivity. Defined.

End ParseMore.


(* ================================================================== *)
(** * Trimming and splitting, against the specification's words *)

Module TrimFacts.
Import Config Spec.

Lemma space2_lead a b : Str.space2 a b = true -> Str.space1 a = false.
Proof.
  unfold Str.space2, Str.space1. intros H.
  apply andb_true_iff in H as [H _]. apply Nat.eqb_eq in H. now rewrite H.
Qed.

Lemma space3_lead a b c :
  Str.space3 a b c = true -> Str.space1 a = false /\ Str.space2 a b = false.
Proof.
  unfold Str.space3, Str.space2, Str.space1. cbv zeta. intros H.
  repeat (apply orb_true_iff in H as [H|H]);
    repeat (apply andb_true_iff in H as [H ?]);
    apply Nat.eqb_eq in H; rewrite H; split; reflexivity.
Qed.

Lemma blank_app s t :
  blank s = true -> blank t = true -> blank (s ++ t) = true.
Proof.
  remember (String.length s) as n eqn:Hn.
  assert (Hle : String.length s <= n) by lia. clear Hn.
  revert s Hle. induction n as [|n IH]; intros s Hle Hs Ht.
  - destruct s; [exact Ht|simpl in Hle; lia].
  - destruct s as [|c1 r1]; [exact Ht|].
    simpl in Hle. cbn [blank append] in *.
    destruct (Str.space1 c1); [apply IH; [lia|assumption..]|].
    destruct r1 as [|c2 r2]; [discriminate|].
    simpl in Hle. cbn [append].
    destruct (Str.space2 c1 c2); [apply IH; [lia|assumption..]|].
    destruct r2 as [|c3 r3]; [discriminate|].
    simpl in Hle. cbn [append].
    apply andb_true_iff in Hs as [H3 Hs]. rewrite H3. cbn [andb].
    apply IH; [lia|assumption..].
Qed.

(** [lstrip] takes white space off the head, and all of it. *)
Lemma lstrip_blank s :
  exists l, s = l ++ Str.lstrip s /\ blank l = true /\
            starts_blank (Str.lstrip s) = false.
Proof.
  remember (String.length s) as n eqn:Hn.
  assert (Hle : String.length s <= n) by lia. clear Hn.
  revert s Hle. induction n as [|n IH]; intros s Hle.
  - destruct s; [now exists EmptyString|simpl in Hle; lia].
  - destruct s as [|c1 r1]; [now exists EmptyString|].
    simpl in Hle. cbn [Str.lstrip].
    destruct (Str.space1 c1) eqn:E1.
    { destruct (IH r1 ltac:(lia)) as (l & Hl & Hb & Hs).
      exists (String c1 l). cbn [append blank]. rewrite E1, <- Hl. auto. }
    destruct r1 as [|c2 r2].
    { exists EmptyString. cbn. now rewrite E1. }
    simpl in Hle.
    destruct (Str.space2 c1 c2) eqn:E2.
    { destruct (IH r2 ltac:(lia)) as (l & Hl & Hb & Hs).
      exists (String c1 (String c2 l)). cbn [append blank].
      rewrite E1, E2, <- Hl. auto. }
    destruct r2 as [|c3 r3].
    { exists EmptyString. cbn. now rewrite E1, E2. }
    simpl in Hle.
    destruct (Str.space3 c1 c2 c3) eqn:E3.
    { destruct (IH r3 ltac:(lia)) as (l & Hl & Hb & Hs).
      exists (String c1 (String c2 (String c3 l))). cbn [append blank].
      rewrite E1, E2, E3, <- Hl. auto. }
    exists EmptyString. cbn. now rewrite E1, E2, E3.
Qed.

Lemma blank_one c : Str.space1 c = true -> blank (String c EmptyString) = true.
Proof. intros H. cbn. now rewrite H. Qed.

Lemma blank_two a b :
  Str.space2 a b = true -> blank (String a (String b EmptyString)) = true.
Proof. intros H. cbn. now rewrite (space2_lead _ _ H), H. Qed.

Lemma blank_three a b c :
  Str.space3 a b c = true ->
  blank (String a (String b (String c EmptyString))) = true.
Proof.
  intros H. destruct (space3_lead _ _ _ H) as [H1 H2]. cbn.
  now rewrite H1, H2, H.
Qed.

(** [lstrip_rev] takes white space off the head of the reversed string,
    and all of it. *)
Lemma lstrip_rev_blank s :
  exists x, s = x ++ Str.lstrip_rev s /\ blank (Str.rev x) = true /\
            ends_blank (Str.rev (Str.lstrip_rev s)) = false.
Proof.
  unfold ends_blank.
  remember (String.length s) as n eqn:Hn.
  assert (Hle : String.length s <= n) by lia. clear Hn.
  revert s Hle. induction n as [|n IH]; intros s Hle.
  - destruct s; [now exists EmptyString|simpl in Hle; lia].
  - destruct s as [|c1 r1]; [now exists EmptyString|].
    simpl in Hle. cbn [Str.lstrip_rev].
    destruct (Str.space1 c1) eqn:E1.
    { destruct (IH r1 ltac:(lia)) as (x & Hx & Hb & Hs).
      exists (String c1 x). cbn [append]. rewrite <- Hx.
      split; [reflexivity|]. split; [|exact Hs].
      rewrite StrFacts.rev_cons. apply blank_app; [exact Hb|].
      now apply blank_one. }
    destruct r1 as [|c2 r2].
    { exists EmptyString. rewrite StrFacts.rev_involutive. cbn.
      now rewrite E1. }
    simpl in Hle.
    destruct (Str.space2 c2 c1) eqn:E2.
    { destruct (IH r2 ltac:(lia)) as (x & Hx & Hb & Hs).
      exists (String c1 (String c2 x)). cbn [append]. rewrite <- Hx.
      split; [reflexivity|]. split; [|exact Hs].
      rewrite !StrFacts.rev_cons, StrFacts.append_assoc.
      apply blank_app; [exact Hb|]. now apply blank_two. }
    destruct r2 as [|c3 r3].
    { exists EmptyString. rewrite StrFacts.rev_involutive. cbn.
      now rewrite E1, E2. }
    simpl in Hle.
    destruct (Str.space3 c3 c2 c1) eqn:E3.
    { destruct (IH r3 ltac:(lia)) as (x & Hx & Hb & Hs).
      exists (String c1 (String c2 (String c3 x))). cbn [append].
      rewrite <- Hx. split; [reflexivity|]. split; [|exact Hs].
      rewrite !StrFacts.rev_cons, !StrFacts.append_assoc.
      apply blank_app; [exact Hb|]. now apply blank_three. }
    exists EmptyString. rewrite StrFacts.rev_involutive. cbn.
    now rewrite E1, E2, E3.
Qed.

Lemma starts_blank_prefix t r :
  starts_blank (t ++ r) = false -> starts_blank t = false.
Proof.
  destruct t as [|c1 [|c2 [|c3 t]]]; cbn; try reflexivity.
  - destruct (Str.space1 c1); [discriminate|reflexivity].
  - destruct (Str.space1 c1); [discriminate|].
    destruct (Str.space2 c1 c2); [discriminate|reflexivity].
  - auto.
Qed.

(** [strip] trims. *)
Lemma strip_trims s : trimmed_of s (Str.strip s).
Proof.
  unfold Str.strip, Str.rstrip.
  destruct (lstrip_blank s) as (l & Hl & Hbl & Hsl).
  destruct (lstrip_rev_blank (Str.rev (Str.lstrip s)))
    as (x & Hx & Hbx & Hex).
  remember (Str.lstrip_rev (Str.rev (Str.lstrip s))) as y eqn:Hy.
  clear Hy.
  assert (Hu : Str.lstrip s = Str.rev y ++ Str.rev x).
  { rewrite <- StrFacts.rev_app, <- Hx. now rewrite StrFacts.rev_involutive. }
  exists l, (Str.rev x). repeat split.
  - now rewrite <- Hu.
  - exact Hbl.
  - exact Hbx.
  - apply (starts_blank_prefix _ (Str.rev x)). now rewrite <- Hu.
  - exact Hex.
Qed.

Lemma blank_lacks c s :
  Str.space1 c = false -> Nat.ltb (nat_of_ascii c) 128 = true ->
  blank s = true -> Str.contains c s = false.
Proof.
  intros Hc Hlt.
  assert (H1 : forall a, Str.space1 a = true -> Ascii.eqb a c = false).
  { intros a Ha. destruct (Ascii.eqb a c) eqn:E; [|reflexivity].
    apply Ascii.eqb_eq in E. subst a. congruence. }
  assert (H2 : forall a, Nat.leb 128 (nat_of_ascii a) = true ->
                         Ascii.eqb a c = false).
  { intros a Ha. destruct (Ascii.eqb a c) eqn:E; [|reflexivity].
    apply Ascii.eqb_eq in E. subst a.
    apply Nat.ltb_lt in Hlt. apply Nat.leb_le in Ha. lia. }
  remember (String.length s) as n eqn:Hn.
  assert (Hle : String.length s <= n) by lia. clear Hn.
  revert s Hle. induction n as [|n IH]; intros s Hle Hs.
  - destruct s; [reflexivity|simpl in Hle; lia].
  - destruct s as [|c1 r1]; [reflexivity|].
    simpl in Hle. cbn [blank Str.contains] in *.
    destruct (Str.space1 c1) eqn:E1.
    { rewrite (H1 _ E1). apply IH; [lia|exact Hs]. }
    destruct r1 as [|c2 r2]; [discriminate|].
    simpl in Hle. cbn [Str.contains].
    destruct (Str.space2 c1 c2) eqn:E2.
    { unfold Str.space2 in E2. apply andb_true_iff in E2 as [Ea Eb].
      apply Nat.eqb_eq in Ea.
      rewrite (H2 c1), (H2 c2); [apply IH; [lia|exact Hs]| |].
      - apply orb_true_iff in Eb as [Eb|Eb]; apply Nat.eqb_eq in Eb;
          now rewrite Eb.
      - now rewrite Ea. }
    destruct r2 as [|c3 r3]; [discriminate|].
    simpl in Hle. cbn [Str.contains].
    apply andb_true_iff in Hs as [E3 Hs].
    assert (Hb : Nat.leb 128 (nat_of_ascii c1) = true /\
                 Nat.leb 128 (nat_of_ascii c2) = true /\
                 Nat.leb 128 (nat_of_ascii c3) = true).
    { clear - E3. unfold Str.space3 in E3. cbv zeta in E3.
      repeat match goal with
             | H : (_ || _) = true |- _ => apply orb_true_iff in H as [H|H]
             | H : (_ && _) = true |- _ => apply andb_true_iff in H as [H ?]
             | H : (_ =? _)%nat = true |- _ => apply Nat.eqb_eq in H
             | H : (_ <=? _)%nat = true |- _ => apply Nat.leb_le in H
             end;
        repeat split; apply Nat.leb_le; lia. }
    destruct Hb as (Ha & Hb & Hc3).
    rewrite (H2 _ Ha), (H2 _ Hb), (H2 _ Hc3). apply IH; [lia|exact Hs].
Qed.

Lemma trimmed_contains c s t :
  Str.space1 c = false -> Nat.ltb (nat_of_ascii c) 128 = true ->
  trimmed_of s t -> Str.contains c t = Str.contains c s.
Proof.
  intros Hc Hlt (l & r & -> & Hl & Hr & _).
  rewrite !StrFacts.contains_app.
  rewrite (blank_lacks c l Hc Hlt Hl), (blank_lacks c r Hc Hlt Hr).
  now rewrite orb_false_r.
Qed.

(** An item gives at most one entry: none when it holds no [:], and else
    the one the specification describes. *)
Lemma entry_of_spec item :
  match entry_of item with
  | [] => Str.contains ":" item = false
  | [e] => is_entry item e
  | _ => False
  end.
Proof.
  unfold entry_of.
  pose proof (StrFacts.contains_cut ":" (Str.strip item)) as Hc.
  destruct (cut ":" (Str.strip item)) as [[a b]|] eqn:Hcut.
  - exists (Str.strip item), a, b. cbn [fst snd].
    repeat split; try apply strip_trims. exact Hcut.
  - rewrite <- (trimmed_contains ":" item (Str.strip item));
      [exact Hc|reflexivity|reflexivity|apply strip_trims].
Qed.

(** [split] cuts at every separator and nowhere else. *)
Lemma join_split sep s : join sep (Str.split sep s) = s.
Proof.
  induction s as [|c r IH]; [reflexivity|]. cbn [Str.split].
  pose proof (ParseMore.split_nonempty sep r) as Hne.
  destruct (Ascii.eqb c sep) eqn:E.
  - apply Ascii.eqb_eq in E. subst c.
    destruct (Str.split sep r) as [|h t]; [contradiction|].
    cbn [join append]. cbn [join] in IH. now rewrite IH.
  - destruct (Str.split sep r) as [|h t]; [contradiction|].
    cbn [join] in *. destruct t as [|h' t'].
    + now rewrite IH.
    + cbn [append]. now rewrite IH.
Qed.

Lemma split_pieces sep s :
  Forall (fun item => Str.contains sep item = false) (Str.split sep s).
Proof.
  apply Forall_forall. intros item Hin.
  apply (ParseMore.split_piece sep s item Hin).
Qed.

(** C6.  Parsing the multi-folder variable never raises and yields the
    mapping of the entries of the raw string, one after the other.  The
    items are the pieces of the raw string between its [,]: none holds a
    [,], and put together with [,] between them they are the raw string.
    An item without [:] gives no entry; any other gives one, which is the
    item trimmed, cut at its first [:], with both parts trimmed.  Trimming
    takes white space off both ends, leaves none at either end, and takes
    nothing else.  For an alias that occurs several times the last entry
    gives the identifier.  Parsing ["a:1,bad,c:3"] yields
    [{"a": "1", "c": "3"}], and so does the same string with blanks around
    its items, aliases and identifiers; in ["a:1:2, b :3,a: 4"] the second
    [a] overwrites the first. *)
Theorem parse_folders_spec :
  (forall raw,
      parse_folders raw = Returned (dict_of (folder_entries raw)) /\
      folder_entries raw = flat_map entry_of (Str.split "," raw) /\
      join "," (Str.split "," raw) = raw /\
      Forall (fun item => Str.contains "," item = false)
             (Str.split "," raw)) /\
  (forall item,
      match entry_of item with
      | [] => Str.contains ":" item = false
      | [e] => is_entry item e
      | _ => False
      end) /\
  (forall s, trimmed_of s (Str.strip s)) /\
  (forall raw alias,
      dict_get alias (dict_of (folder_entries raw)) =
      last_entry alias (folder_entries raw)) /\
  parse_folders "a:1,bad,c:3" = Returned [("a", "1"); ("c", "3")] /\
  parse_folders "  a : 1 ,bad ,  c:3  " = Returned [("a", "1"); ("c", "3")] /\
  parse_folders "a:1:2, b :3,a: 4" = Returned [("a", "4"); ("b", "3")].
Proof.
  split; [|split; [exact entry_of_spec|split; [exact strip_trims|]]].
  - intros raw. split; [apply ConfigFacts.parse_folders_entries|].
    split; [reflexivity|]. split; [apply join_split|apply split_pieces].
  - split; [|repeat split].
    intros raw alias. unfold dict_of. rewrite ConfigFacts.insert_all_get.
    now destruct (last_entry alias (folder_entries raw)).
Qed.

End TrimFacts.


(* ================================================================== *)
(** * The Drive client *)

Module DriveFacts.
Import Spec.

Lemma get_folder_id_returns cfg folder :
  exists id, Config.get_folder_id cfg folder = Returned id.
Proof.
  unfold Config.get_folder_id, dict_mem, dict_getitem.
  destruct folder as [f|]; [|eauto].
  destruct (Str.nonempty f); cbn [negb]; [|eauto].
  destruct (dict_get f (Config.folders cfg)); eauto.
Qed.

Section Client.
Context {W : Type}.
Variables service sheets_service : string -> list (string * PyVal) -> SE W PyVal.
Variable config : Config.Config.

(** A body under [try] whose handler returns never raises. *)
Lemma try_returns {A} (m : SE W A) (h : exn -> A) w :
  exists v w', try_except m (fun e => ret (h e)) w = (Returned v, w').
Proof.
  unfold try_except, ret. destruct (m w) as [[v|e] w']; eauto.
Qed.

Lemma create_spreadsheet_dict title folder w :
  exists d w',
    GoogleDrive.create_spreadsheet service sheets_service config title folder w
    = (Returned (PDict d), w').
Proof.
  unfold GoogleDrive.create_spreadsheet.
  unfold try_except at 1. unfold bind at 1.
  destruct (GoogleDrive.get_folder_id config folder w) as [[target|e] w0];
    [|unfold ret; eauto].
  unfold bind at 1.
  destruct (sheets_service "spreadsheets.create" _ w0) as [[sp|e] w1];
    [|unfold ret; eauto].
  unfold bind at 1, liftO at 1.
  destruct (py_getitem sp "spreadsheetId") as [S|e]; [|unfold ret; eauto].
  unfold bind at 1.
  match goal with |- context [try_except ?m ?h w1] =>
    destruct (try_except m h w1) as [[[]|e] w2] end;
    unfold ret; eauto.
Qed.

Lemma copy_spreadsheet_dict source title folder w :
  exists d w',
    GoogleDrive.copy_spreadsheet service config source title folder w
    = (Returned (PDict d), w').
Proof.
  unfold GoogleDrive.copy_spreadsheet, try_except, bind at 1.
  destruct (GoogleDrive.get_folder_id config folder w) as [[target|e] w0];
    [|unfold ret; eauto].
  unfold bind at 1.
  destruct (service "files.copy" _ w0) as [[result|e] w1];
    [|unfold ret; eauto].
  destruct (truthy result); [|unfold ret; eauto].
  unfold bind, liftO.
  destruct (py_get result "id") as [id|e]; unfold ret; eauto.
Qed.

Lemma annotate_all_list files v :
  truthy files = true ->
  GoogleDrive.annotate_all config files = Returned v -> exists l, v = PList l.
Proof.
  intros Ht. unfold GoogleDrive.annotate_all.
  destruct files as [| | | |s|l|d]; try discriminate.
  - destruct s; discriminate.
  - destruct (GoogleDrive.annotate_files config l) as [l'|e]; [|discriminate].
    cbn. intros [= <-]. eauto.
  - destruct d as [|[k x] r]; discriminate.
Qed.

Lemma list_files_list w :
  exists l w', GoogleDrive.list_files service config w = (Returned (PList l), w').
Proof.
  unfold GoogleDrive.list_files, try_except, bind at 1.
  destruct (service "files.list" _ w) as [[results|e] w1]; [|unfold ret; eauto].
  unfold bind at 1, liftO at 1.
  destruct (py_get_default results "files" (PList [])) as [files|e];
    [|unfold ret; eauto].
  destruct (truthy files) eqn:Ht; cbn [negb]; [|unfold ret; eauto].
  unfold bind, liftO.
  destruct (GoogleDrive.annotate_all config files) as [v|e] eqn:Ea;
    [|unfold ret; eauto].
  destruct (annotate_all_list files v Ht Ea) as [l ->]. unfold ret. eauto.
Qed.

(** X10.  No method of [GoogleDrive] raises, whatever Google's services
    do: [copy_file] and [rename_file] return a value, the three creation
    methods return a dictionary, [list_files] returns a list. *)
Theorem drive_methods_never_raise (w : W) :
  (forall file_id new_name,
      exists v w', GoogleDrive.copy_file service file_id new_name w
                   = (Returned v, w')) /\
  (forall file_id new_name,
      exists v w', GoogleDrive.rename_file service file_id new_name w
                   = (Returned v, w')) /\
  (forall title folder,
      exists d w',
        GoogleDrive.create_spreadsheet service sheets_service config
                                       title folder w
        = (Returned (PDict d), w')) /\
  (forall template_id title folder,
      exists d w',
        GoogleDrive.create_spreadsheet_from_template service config
                                                     template_id title folder w
        = (Returned (PDict d), w')) /\
  (forall source_id title folder,
      exists d w',
        GoogleDrive.create_spreadsheet_from_existing service config
                                                     source_id title folder w
        = (Returned (PDict d), w')) /\
  (exists l w',
      GoogleDrive.list_files service config w = (Returned (PList l), w')).
Proof.
  repeat split; intros.
  - apply try_returns.
  - apply try_returns.
  - apply create_spreadsheet_dict.
  - apply copy_spreadsheet_dict.
  - apply copy_spreadsheet_dict.
  - apply list_files_list.
Qed.

(** [create_spreadsheet], request by request *)
Lemma create_spreadsheet_run title folder target w :
  Config.get_folder_id config folder = Returned target ->
  GoogleDrive.create_spreadsheet service sheets_service config title folder w =
  match sheets_service "spreadsheets.create" (Requests.create title) w with
  | (Raised _, w1) => (Returned (PDict []), w1)
  | (Returned spreadsheet, w1) =>
      match py_getitem spreadsheet "spreadsheetId" with
      | Raised _ => (Returned (PDict []), w1)
      | Returned id =>
          (Returned (Requests.created id title folder config),
           match service "files.get" (Requests.parents_of id) w1 with
           | (Raised _, w2) => w2
           | (Returned file, w2) =>
               match bindO (py_get_default file "parents" (PList []))
                           py_join_comma with
               | Raised _ => w2
               | Returned previous =>
                   snd (service "files.update"
                                (Requests.move id target previous) w2)
               end
           end)
      end
  end.
Proof.
  intros Ht. unfold GoogleDrive.create_spreadsheet.
  unfold try_except at 1. unfold bind at 1.
  unfold GoogleDrive.get_folder_id, liftO at 1. rewrite Ht.
  unfold bind at 1. fold (Requests.create title).
  destruct (sheets_service "spreadsheets.create" (Requests.create title) w)
    as [[sp|e] w1]; [|reflexivity].
  unfold bind at 1, liftO at 1.
  destruct (py_getitem sp "spreadsheetId") as [id|e]; [|reflexivity].
  unfold bind at 1, try_except, bind at 1. fold (Requests.parents_of id).
  destruct (service "files.get" (Requests.parents_of id) w1)
    as [[file|e] w2]; [|reflexivity].
  unfold bind at 1, liftO at 1.
  destruct (py_get_default file "parents" (PList [])) as [parents|e];
    [|reflexivity].
  cbn [bindO]. unfold bind at 1, liftO at 1.
  destruct (py_join_comma parents) as [previous|e]; [|reflexivity].
  unfold Requests.move.
  destruct (Str.nonempty previous); unfold bind, ret;
    match goal with |- context [service "files.update" ?k w2] =>
      destruct (service "files.update" k w2) as [[r|e] w3] end;
    reflexivity.
Qed.

(** [copy_spreadsheet], by the answer to its one request *)
Lemma copy_spreadsheet_run source title folder target w :
  Config.get_folder_id config folder = Returned target ->
  GoogleDrive.copy_spreadsheet service config source title folder w =
  match service "files.copy" (Requests.copy_into source title target) w with
  | (Returned (PDict ((k, v) :: r)), w1) =>
      (Returned
         (Requests.created
            (match dict_get "id" ((k, v) :: r) with
             | Some id => id
             | None => PNone
             end) title folder config), w1)
  | (_, w1) => (Returned (PDict []), w1)
  end.
Proof.
  intros Ht. unfold GoogleDrive.copy_spreadsheet, try_except, bind at 1.
  unfold GoogleDrive.get_folder_id, liftO at 1. rewrite Ht.
  unfold bind at 1. fold (Requests.copy_into source title target).
  destruct (service "files.copy" (Requests.copy_into source title target) w)
    as [[result|e] w1]; [|reflexivity].
  destruct result as [|b|n|nz|s|l|d]; cbn [truthy].
  - reflexivity.
  - now destruct b.
  - now destruct (negb (n =? 0)%Z).
  - now destruct nz.
  - now destruct (negb (s =? EmptyString)).
  - now destruct l.
  - destruct d as [|[k v] r]; reflexivity.
Qed.

(** [copy_file] and [rename_file] make one request, with the file
    and its new name, and return its answer; when the request raises they
    return the empty dictionary. *)
Theorem copy_and_rename_pass_through (file_id new_name : PyVal) (w : W) :
  GoogleDrive.copy_file service file_id new_name w =
  match service "files.copy" (Requests.named file_id new_name) w with
  | (Returned result, w1) => (Returned result, w1)
  | (Raised _, w1) => (Returned (PDict []), w1)
  end /\
  GoogleDrive.rename_file service file_id new_name w =
  match service "files.update" (Requests.named file_id new_name) w with
  | (Returned result, w1) => (Returned result, w1)
  | (Raised _, w1) => (Returned (PDict []), w1)
  end.
Proof.
  unfold GoogleDrive.copy_file, GoogleDrive.rename_file, try_except, bind, ret.
  fold (Requests.named file_id new_name).
  split.
  - now destruct (service "files.copy" _ w) as [[r|e] w1].
  - now destruct (service "files.update" _ w) as [[r|e] w1].
Qed.

(** X11.  Once the Sheets service has created the spreadsheet and given
    its identifier, [create_spreadsheet] returns the identifier, the title
    and the folder asked for (or the default alias), whatever becomes of
    the move into the folder. *)
Theorem create_spreadsheet_survives_move
        (title : string) (folder : option string) (w w1 : W)
        (answer : list (string * PyVal)) (id : PyVal) :
  sheets_service "spreadsheets.create" (Requests.create title) w
  = (Returned (PDict answer), w1) ->
  dict_get "spreadsheetId" answer = Some id ->
  exists w',
    GoogleDrive.create_spreadsheet service sheets_service config title folder w
    = (Returned (Requests.created id title folder config), w').
Proof.
  intros Hc Hid. destruct (get_folder_id_returns config folder) as [target Ht].
  rewrite (create_spreadsheet_run title folder target w Ht), Hc.
  cbn [py_getitem]. unfold dict_getitem. rewrite Hid. eauto.
Qed.

(** X12.  When the Sheets service raises, or answers without a
    ['spreadsheetId'], [create_spreadsheet] returns the empty dictionary
    and asks nothing of the Drive service. *)
Theorem create_spreadsheet_without_identifier
        (title : string) (folder : option string) (w w1 : W)
        (answer : Outcome PyVal) :
  sheets_service "spreadsheets.create" (Requests.create title) w
  = (answer, w1) ->
  match answer with
  | Raised _ => True
  | Returned (PDict d) => dict_get "spreadsheetId" d = None
  | Returned _ => True
  end ->
  GoogleDrive.create_spreadsheet service sheets_service config title folder w
  = (Returned (PDict []), w1).
Proof.
  intros Hc Ha. destruct (get_folder_id_returns config folder) as [target Ht].
  rewrite (create_spreadsheet_run title folder target w Ht), Hc.
  destruct answer as [v|e]; [|reflexivity].
  destruct v; try reflexivity.
  cbn [py_getitem]. unfold dict_getitem. now rewrite Ha.
Qed.

(** X13.  The created spreadsheet is moved into the folder
    [get_folder_id] resolves, out of the folders it was in: when the Drive
    service lists the parents of the file, the last state is the one the
    move request leaves, and what that request returns or raises changes
    nothing to the result. *)
Theorem create_spreadsheet_moves_into_folder
        (title : string) (folder : option string) (target : string)
        (w w1 w2 : W) (answer file : list (string * PyVal)) (id : PyVal)
        (parents : list PyVal) (previous : string) :
  Config.get_folder_id config folder = Returned target ->
  sheets_service "spreadsheets.create" (Requests.create title) w
  = (Returned (PDict answer), w1) ->
  dict_get "spreadsheetId" answer = Some id ->
  service "files.get" (Requests.parents_of id) w1 = (Returned (PDict file), w2) ->
  dict_get "parents" file = Some (PList parents) ->
  join_strs parents = Returned previous ->
  GoogleDrive.create_spreadsheet service sheets_service config title folder w
  = (Returned (Requests.created id title folder config),
     snd (service "files.update" (Requests.move id target previous) w2)).
Proof.
  intros Ht Hc Hid Hg Hp Hj.
  rewrite (create_spreadsheet_run title folder target w Ht), Hc.
  cbn [py_getitem]. unfold dict_getitem. rewrite Hid, Hg.
  cbn [py_get_default bindO]. rewrite Hp. cbn [py_join_comma]. now rewrite Hj.
Qed.

(** X14.  The two copying methods ask for a copy named [title] inside the
    folder [get_folder_id] resolves.  For an answer that is a non-empty
    dictionary they return its ['id'] (or [None]) as ['spreadsheetId'],
    with the title and the folder; for any other answer, and when the
    request raises, the empty dictionary. *)
Theorem copy_spreadsheet_result
        (source_id : PyVal) (title : string) (folder : option string)
        (target : string) (w : W) :
  Config.get_folder_id config folder = Returned target ->
  let copy_of run :=
    run = match service "files.copy"
                        (Requests.copy_into source_id title target) w with
          | (Returned (PDict ((k, v) :: r)), w1) =>
              (Returned
                 (Requests.created
                    (match dict_get "id" ((k, v) :: r) with
                     | Some id => id
                     | None => PNone
                     end) title folder config), w1)
          | (_, w1) => (Returned (PDict []), w1)
          end in
  copy_of (GoogleDrive.create_spreadsheet_from_template
             service config source_id title folder w) /\
  copy_of (GoogleDrive.create_spreadsheet_from_existing
             service config source_id title folder w).
Proof.
  intros Ht copy_of. subst copy_of.
  split; apply (copy_spreadsheet_run source_id title folder target w Ht).
Qed.

(** What the loop of [list_files] makes of listed files *)
Lemma annotate_file_listed file :
  Requests.listed file ->
  exists file',
    GoogleDrive.annotate_file config file = Returned file' /\
    Requests.annotated config file file'.
Proof.
  intros (d & -> & Hp). unfold GoogleDrive.annotate_file, Requests.annotated.
  destruct (dict_get "parents" d) as [parents|] eqn:Eg.
  - destruct parents as [| | | | |l|]; try contradiction.
    destruct l as [|parent rest]; cbn [truthy].
    + exists (PDict d). split; [reflexivity|].
      exists d, d. rewrite Eg. now repeat split.
    + cbn [py_first bindO]. eexists. split; [reflexivity|].
      exists d. eexists. rewrite Eg. split; [reflexivity|].
      split; [reflexivity|]. split; [|split].
      * rewrite !dict_get_set. cbn. reflexivity.
      * rewrite dict_get_set. now rewrite String.eqb_refl.
      * intros k Hk1 Hk2. rewrite !dict_get_set.
        apply not_eq_sym in Hk1, Hk2.
        apply String.eqb_neq in Hk1, Hk2. now rewrite Hk1, Hk2.
  - cbn [truthy]. exists (PDict d). split; [reflexivity|].
    exists d, d. rewrite Eg. now repeat split.
Qed.

Lemma annotate_files_listed files :
  Forall Requests.listed files ->
  exists files',
    GoogleDrive.annotate_files config files = Returned files' /\
    Forall2 (Requests.annotated config) files files'.
Proof.
  induction 1 as [|file rest Hfile _ IH]; simpl.
  - exists []. split; [reflexivity|constructor].
  - destruct (annotate_file_listed file Hfile) as (file' & -> & Ha).
    destruct IH as (rest' & -> & Hr). cbn.
    exists (file' :: rest'). split; [reflexivity|now constructor].
Qed.

Lemma annotate_files_not_dict files file :
  In file files -> (forall d, file <> PDict d) ->
  exists e, GoogleDrive.annotate_files config files = Raised e.
Proof.
  intros Hin Hnd. induction files as [|x rest IH]; [destruct Hin|].
  simpl. destruct Hin as [->|Hin].
  - destruct file; try (cbn; eauto). now destruct (Hnd d).
  - destruct (GoogleDrive.annotate_file config x) as [x'|e]; [|cbn; eauto].
    destruct (IH Hin) as [e ->]. cbn. eauto.
Qed.

(** X15.  [list_files] asks for the files of the configured folders with
    one request.  It returns the empty list when the request raises or its
    answer is no dictionary, and the one-record list
    [[{"message": "Folders are empty"}]] when the answer has no ['files']
    or an empty one. *)
Theorem list_files_without_files (w w1 : W) (answer : Outcome PyVal) :
  service "files.list"
          (Requests.listing (GoogleDrive.files_query config)) w
  = (answer, w1) ->
  match answer with
  | Returned (PDict results) =>
      truthy (Requests.files_of results) = false ->
      GoogleDrive.list_files service config w
      = (Returned Requests.nothing_listed, w1)
  | _ => GoogleDrive.list_files service config w = (Returned (PList []), w1)
  end.
Proof.
  intros Hs.
  assert (E : GoogleDrive.list_files service config w =
              match answer with
              | Returned results =>
                  match py_get_default results "files" (PList []) with
                  | Returned files =>
                      if negb (truthy files)
                      then (Returned Requests.nothing_listed, w1)
                      else match GoogleDrive.annotate_all config files with
                           | Returned files' => (Returned files', w1)
                           | Raised _ => (Returned (PList []), w1)
                           end
                  | Raised _ => (Returned (PList []), w1)
                  end
              | Raised _ => (Returned (PList []), w1)
              end).
  { unfold GoogleDrive.list_files, try_except, bind at 1.
    fold (Requests.listing (GoogleDrive.files_query config)). rewrite Hs.
    destruct answer as [results|e]; [|reflexivity].
    unfold bind at 1, liftO at 1.
    destruct (py_get_default results "files" (PList [])) as [files|e];
      [|reflexivity].
    destruct (negb (truthy files)); [reflexivity|].
    unfold bind, liftO.
    now destruct (GoogleDrive.annotate_all config files). }
  destruct answer as [results|e]; [|exact E].
  destruct results; try exact E.
  intros Hf. rewrite E. cbn [py_get_default].
  fold (Requests.files_of d). now rewrite Hf.
Qed.

(** X16.  For an answer listing files, each a dictionary whose
    ['parents'] is a list, [list_files] returns as many files in the same
    order: a file with a parent gets that parent as ['folder_id'] and its
    alias, or the empty string, as ['folder_name'], and keeps its other
    fields; a file with no parent is returned as it is.  One listed file
    that is no dictionary makes the whole result the empty list. *)
Theorem list_files_annotates (w w1 : W) (results : list (string * PyVal))
        (file : PyVal) (files : list PyVal) :
  service "files.list"
          (Requests.listing (GoogleDrive.files_query config)) w
  = (Returned (PDict results), w1) ->
  Requests.files_of results = PList (file :: files) ->
  (Forall Requests.listed (file :: files) ->
   exists files',
     GoogleDrive.list_files service config w = (Returned (PList files'), w1) /\
     Forall2 (Requests.annotated config) (file :: files) files') /\
  (forall bad, In bad (file :: files) -> (forall d, bad <> PDict d) ->
               GoogleDrive.list_files service config w
               = (Returned (PList []), w1)).
Proof.
  intros Hs Hf.
  assert (E : GoogleDrive.list_files service config w =
              match GoogleDrive.annotate_files config (file :: files) with
              | Returned files' => (Returned (PList files'), w1)
              | Raised _ => (Returned (PList []), w1)
              end).
  { unfold GoogleDrive.list_files, try_except, bind at 1.
    fold (Requests.listing (GoogleDrive.files_query config)). rewrite Hs.
    unfold bind at 1, liftO at 1. cbn [py_get_default].
    fold (Requests.files_of results). rewrite Hf. cbn [truthy negb].
    unfold bind, liftO. cbn [GoogleDrive.annotate_all].
    now destruct (GoogleDrive.annotate_files config (file :: files)). }
  split.
  - intros Hl. destruct (annotate_files_listed _ Hl) as (files' & Ha & Hr).
    exists files'. rewrite E, Ha. now split.
  - intros bad Hin Hnd.
    destruct (annotate_files_not_dict _ bad Hin Hnd) as [e He].
    now rewrite E, He.
Qed.

End Client.

Lemma create_spreadsheet_survives_move_witness :
  exists w',
    GoogleDrive.create_spreadsheet
      (Probe.service_returning Examples.created_file)
      (Probe.service_returning Examples.created_file)
      Examples.config_legacy "Q1 Report" None []
    = (Returned (Requests.created (PStr "S9") "Q1 Report" None
                                  Examples.config_legacy), w').
Proof.
  eapply (create_spreadsheet_survives_move
            (Probe.service_returning Examples.created_file)
            (Probe.service_returning Examples.created_file)
            Examples.config_legacy "Q1 Report" None []).
  - reflexivity.
  - reflexivity.
Defined.

Lemma create_spreadsheet_without_identifier_witness :
  GoogleDrive.create_spreadsheet
    (Probe.service_returning (PDict [("kind", PStr "drive#file")]))
    (Probe.service_returning (PDict [("kind", PStr "drive#file")]))
    Examples.config_legacy "Q1 Report" None []
  = (Returned (PDict []),
     [("spreadsheets.create", map snd (Requests.create "Q1 Report"))]).
Proof.
  apply (create_spreadsheet_without_identifier
           (Probe.service_returning (PDict [("kind", PStr "drive#file")]))
           (Probe.service_returning (PDict [("kind", PStr "drive#file")]))
           Examples.config_legacy "Q1 Report" None []
           [("spreadsheets.create", map snd (Requests.create "Q1 Report"))]
           (Returned (PDict [("kind", PStr "drive#file")]))).
  - reflexivity.
  - reflexivity.
Defined.

Lemma create_spreadsheet_moves_into_folder_witness :
  GoogleDrive.create_spreadsheet
    (Probe.service_returning Examples.created_file)
    (Probe.service_returning Examples.created_file)
    Examples.config_new_default "Q1 Report" (Some "work") []
  = (Returned (Requests.created (PStr "S9") "Q1 Report" (Some "work")
                                Examples.config_new_default),
     [("spreadsheets.create", map snd (Requests.create "Q1 Report"));
      ("files.get", [PStr "S9"; PStr "parents"]);
      ("files.update",
       [PStr "S9"; PStr "W1"; PStr "root"; PStr "id, parents"])]).
Proof.
  apply (create_spreadsheet_moves_into_folder
           (Probe.service_returning Examples.created_file)
           (Probe.service_returning Examples.created_file)
           Examples.config_new_default "Q1 Report" (Some "work") "W1"
           []
           [("spreadsheets.create", map snd (Requests.create "Q1 Report"))]
           [("spreadsheets.create", map snd (Requests.create "Q1 Report"));
            ("files.get", [PStr "S9"; PStr "parents"])]
           [("spreadsheetId", PStr "S9"); ("id", PStr "S9");
            ("parents", PList [PStr "root"])]
           [("spreadsheetId", PStr "S9"); ("id", PStr "S9");
            ("parents", PList [PStr "root"])]
           (PStr "S9") [PStr "root"] "root");
    reflexivity.
Defined.

Lemma copy_spreadsheet_result_witness :
  GoogleDrive.create_spreadsheet_from_template
    (Probe.service_returning Examples.created_file)
    Examples.config_new_default (PStr "T1") "Q1 Report" None []
  = (Returned (Requests.created (PStr "S9") "Q1 Report" None
                                Examples.config_new_default),
     [("files.copy",
       [PStr "T1";
        PDict [("name", PStr "Q1 Report"); ("parents", PList [PStr "H1"])]])]).
Proof.
  apply (proj1 (copy_spreadsheet_result
                  (Probe.service_returning Examples.created_file)
                  Examples.config_new_default (PStr "T1") "Q1 Report" None
                  "H1" [] eq_refl)).
Defined.

Lemma list_files_without_files_witness :
  GoogleDrive.list_files
    (Probe.service_returning (PDict [("files", PList [])]))
    Examples.config_new_default []
  = (Returned Requests.nothing_listed,
     [("files.list",
       [PStr "('W1' in parents or 'H1' in parents) and trashed=false";
        PStr "files(id, name, mimeType, parents, createdTime, modifiedTime)";
        PStr "modifiedTime desc"])]).
Proof.
  apply (list_files_without_files
           (Probe.service_returning (PDict [("files", PList [])]))
           Examples.config_new_default []
           [("files.list",
             [PStr "('W1' in parents or 'H1' in parents) and trashed=false";
              PStr "files(id, name, mimeType, parents, createdTime, modifiedTime)";
              PStr "modifiedTime desc"])]
           (Returned (PDict [("files", PList [])]))).
  - reflexivity.
  - reflexivity.
Defined.

Lemma list_files_annotates_witness :
  let w1 := [("files.list",
              map snd (Requests.listing
                         (GoogleDrive.files_query Examples.config_new_default)))]
  in
  (exists files',
      GoogleDrive.list_files (Probe.service_returning Examples.listing_answer)
                             Examples.config_new_default []
      = (Returned (PList files'), w1) /\
      Forall2 (Requests.annotated Examples.config_new_default)
              [Examples.file_in_home; Examples.file_elsewhere] files') /\
  GoogleDrive.list_files
    (Probe.service_returning
       (PDict [("files", PList [Examples.file_in_home; PStr "oops"])]))
    Examples.config_new_default []
  = (Returned (PList []), w1).
Proof.
  intros w1. split.
  - apply (proj1 (list_files_annotates
                    (Probe.service_returning Examples.listing_answer)
                    Examples.config_new_default [] w1
                    [("files", PList [Examples.file_in_home;
                                      Examples.file_elsewhere])]
                    Examples.file_in_home [Examples.file_elsewhere]
                    eq_refl eq_refl)).
    repeat constructor; eexists; (split; [reflexivity|exact I]).
  - apply (proj2 (list_files_annotates
                    (Probe.service_returning
                       (PDict [("files", PList [Examples.file_in_home;
                                                PStr "oops"])]))
                    Examples.config_new_default [] w1
                    [("files", PList [Examples.file_in_home; PStr "oops"])]
                    Examples.file_in_home [PStr "oops"]
                    eq_refl eq_refl)
                 (PStr "oops")).
    + right; now left.
    + discriminate.
Defined.

End DriveFacts.


(* ================================================================== *)
(** * All the tools, call after call *)

Module ToolFacts.
Import Main Spec Session.

Create HintDb tools.
#[local] Hint Unfold
  list_files copy_file rename_file add_sheet create_presentation
  add_slide_to_presentation add_image_to_slide get_presentation_details
  delete_presentation create_document insert_text_to_document
  insert_heading_to_document insert_image_to_document get_document_details
  delete_document create_table_in_document search_slide_elements
  update_text_style update_shape_style delete_slide_element
  add_shape_to_slide add_line_to_slide update_slide_background
  update_slide_layout update_slide_transition add_slide_notes
  update_text_style_in_document update_paragraph_style_in_document
  insert_page_break_in_document insert_horizontal_rule_in_document
  update_table_cell_content update_table_cell_style update_table_row_style
  update_table_column_style merge_table_cells insert_table_row
  insert_table_column delete_table_row delete_table_column
  update_document_style create_table_with_content
  tested reported guarded
  list_sheets duplicate_sheet rename_sheet get_sheet_data add_rows
  add_columns update_cells batch_update_cells delete_rows delete_columns
  create_chart or_current : tools.

Section Frame.
Context {W : Type}.
Implicit Types (st : State W).

Lemma keeps_ret {A} (a : A) : keeps_current (W := W) (ret a).
Proof. intros st. reflexivity. Qed.

Lemma keeps_liftO {A} (o : Outcome A) : keeps_current (W := W) (liftO o).
Proof. intros st. reflexivity. Qed.

Lemma keeps_get_current : keeps_current (W := W) get_current.
Proof. intros st. reflexivity. Qed.

Lemma keeps_delegate {A} (call : SE W A) : keeps_current (delegate call).
Proof. intros st. unfold delegate. now destruct (call (world st)). Qed.

Lemma keeps_bind {A B} (m : @M W A) (k : A -> @M W B) :
  keeps_current m -> (forall a, keeps_current (k a)) ->
  keeps_current (bind m k).
Proof.
  intros Hm Hk st. unfold bind. specialize (Hm st).
  destruct (m st) as [[a|e] st']; cbn [snd] in *.
  - now rewrite Hk.
  - exact Hm.
Qed.

Lemma keeps_try {A} (m : @M W A) (h : exn -> @M W A) :
  keeps_current m -> (forall e, keeps_current (h e)) ->
  keeps_current (try_except m h).
Proof.
  intros Hm Hh st. unfold try_except. specialize (Hm st).
  destruct (m st) as [[a|e] st']; cbn [snd] in *.
  - exact Hm.
  - now rewrite Hh.
Qed.

End Frame.

Ltac keeps :=
  repeat first
    [ apply keeps_ret
    | apply keeps_liftO
    | apply keeps_get_current
    | apply keeps_delegate
    | apply keeps_bind; [|intro]
    | apply keeps_try; [|intro]
    | match goal with
      | |- keeps_current (if ?b then _ else _) => destruct b
      | |- keeps_current (match ?x with _ => _ end) => destruct x
      end ].

Section Calls.
Context {W : Type}.
Variable json_loads : string -> Outcome PyVal.
Variable drive : DriveClient W.
Variable drive_list_files : SE W PyVal.
Variables sheets slides docs : string -> list PyVal -> SE W PyVal.
Implicit Types (st : State W) (call : Tool).


Lemma plain_tool_keeps_current call :
  is_creation call = false ->
  keeps_current (run_tool json_loads drive drive_list_files sheets slides docs call).
Proof.
  intros H. destruct call; try discriminate; cbn [run_tool];
    try (destruct t; cbn [run_sheet]);
    autounfold with tools; keeps.
Qed.

(** X17.  Only the three creation tools write the current spreadsheet
    identifier: after any sequence of calls of the other tools, whatever
    the collaborators return or raise, it is what it was. *)
Theorem only_creation_writes_current (calls : list Tool) st :
  forallb (fun call => negb (is_creation call)) calls = true ->
  current_spreadsheet_id
    (run_all json_loads drive drive_list_files sheets slides docs calls st)
  = current_spreadsheet_id st.
Proof.
  revert st. induction calls as [|call rest IH]; intros st H; [reflexivity|].
  cbn [forallb] in H. apply andb_true_iff in H as [Hc Hr].
  apply negb_true_iff in Hc.
  cbn [run_all]. rewrite (IH _ Hr).
  apply (plain_tool_keeps_current call Hc).
Qed.

Lemma remember_created_current result st :
  world (snd (remember_created result st)) = world st /\
  (current_spreadsheet_id (snd (remember_created result st))
   = current_spreadsheet_id st \/
   truthy (current_spreadsheet_id (snd (remember_created result st))) = true).
Proof.
  destruct result as [|b|n|nz|s|l|d].
  7:{ rewrite MainFacts.remember_created_dict. cbn [snd world].
      split; [reflexivity|].
      cbn [current_spreadsheet_id].
      destruct (truthy (carried_id d)) eqn:E; auto. }
  all: unfold remember_created; destruct (truthy _); cbn; auto.
Qed.

Lemma run_creation_current c st :
  current_spreadsheet_id (snd (run_creation drive c st))
  = current_spreadsheet_id st \/
  truthy (current_spreadsheet_id (snd (run_creation drive c st))) = true.
Proof.
  assert (E : snd (run_creation drive c st) =
              match creation_delegate drive c (world st) with
              | (Returned r, w) => snd (remember_created r (with_world st w))
              | (Raised _, w) => with_world st w
              end).
  { rewrite MainFacts.run_creation_unfold. unfold bind at 1.
    rewrite MainFacts.delegate_run.
    destruct (creation_delegate drive c (world st)) as [[r|e] w];
      cbn [fst snd]; [|reflexivity].
    unfold bind.
    now destruct (remember_created r (with_world st w)) as [[[]|e] st']. }
  rewrite E.
  destruct (creation_delegate drive c (world st)) as [[r|e] w]; [|now left].
  apply (remember_created_current r (with_world st w)).
Qed.

Lemma run_tool_current call st :
  current_spreadsheet_id (snd (run_tool json_loads drive drive_list_files sheets slides docs
               call st)) = current_spreadsheet_id st \/
  truthy (current_spreadsheet_id (snd (run_tool json_loads drive drive_list_files sheets slides docs
               call st))) = true.
Proof.
  destruct (is_creation call) eqn:E.
  - destruct call; try discriminate. apply run_creation_current.
  - left. apply (plain_tool_keeps_current call E).
Qed.

Lemma serve_keeps_truthy (calls : list Tool) st :
  truthy (current_spreadsheet_id st) = true ->
  truthy (current_spreadsheet_id
            (run_all json_loads drive drive_list_files sheets slides docs
                     calls st)) = true.
Proof.
  revert st. induction calls as [|call rest IH]; intros st H; [exact H|].
  cbn [run_all]. apply IH.
  destruct (run_tool_current call st) as [E|E]; [now rewrite E|exact E].
Qed.

Lemma serve_keeps_unset_or_truthy (calls : list Tool) st :
  unset_or_truthy (current_spreadsheet_id st) ->
  unset_or_truthy
    (current_spreadsheet_id
       (run_all json_loads drive drive_list_files sheets slides docs calls st)).
Proof.
  revert st. induction calls as [|call rest IH]; intros st H; [exact H|].
  cbn [run_all]. apply IH.
  destruct (run_tool_current call st) as [E|E]; [now rewrite E|now right].
Qed.

(** X18.  The current spreadsheet identifier is never cleared: whatever
    the calls and whatever the collaborators do, an identifier that is set
    stays set (to itself or to a later one), and from the start of the
    process the global is always [None] or a non-empty value, never an
    empty one. *)
Theorem current_is_never_cleared (calls : list Tool) :
  (forall st,
      truthy (current_spreadsheet_id st) = true ->
      truthy (current_spreadsheet_id
                (run_all json_loads drive drive_list_files sheets slides docs
                         calls st)) = true) /\
  (forall w,
      unset_or_truthy
        (current_spreadsheet_id
           (run_all json_loads drive drive_list_files sheets slides docs
                    calls (initial w)))).
Proof.
  split.
  - intros st. apply serve_keeps_truthy.
  - intros w. apply serve_keeps_unset_or_truthy. now left.
Qed.

(** ** Which tools let an exception through *)

Lemma m_try_returns {A} (m : @M W A) (h : exn -> A) st :
  exists v st', try_except m (fun e => ret (h e)) st = (Returned v, st').
Proof. unfold try_except, ret. destruct (m st) as [[v|e] st']; eauto. Qed.

Lemma delegate_raises {A} (call : SE W A) st :
  (exists e w', call (world st) = (Raised e, w')) ->
  exists e st', delegate call st = (Raised e, st').
Proof.
  intros (e & w' & H). rewrite MainFacts.delegate_run, H. cbn. eauto.
Qed.

Lemma bind_raises {A B} (m : @M W A) (k : A -> @M W B) st :
  (exists e st', m st = (Raised e, st')) ->
  exists e st', bind m k st = (Raised e, st').
Proof. intros (e & st' & H). unfold bind. rewrite H. eauto. Qed.

Lemma sheet_raises t spreadsheet_id st :
  always_raises sheets ->
  exists e st', run_sheet sheets t spreadsheet_id st = (Raised e, st').
Proof.
  intros H. rewrite MainFacts.run_sheet_request.
  apply delegate_raises. destruct t; apply H.
Qed.

(** X19.  A tool whose delegate call is under [try] never raises, whatever
    its arguments and whatever its collaborator does. *)
Theorem tools_under_try_never_raise call st :
  under_try call = true ->
  exists v st',
    run_tool json_loads drive drive_list_files sheets slides docs call st
    = (Returned v, st').
Proof.
  intros H. destruct call; try discriminate; cbn [run_tool];
    autounfold with tools; apply m_try_returns.
Qed.

(** X20.  The other tools that delegate to [sheets], [slides] or [docs]
    have no [try]: when the collaborator raises, the tool raises. *)
Theorem tools_without_try_propagate call st :
  drive_tool call = false ->
  under_try call = false ->
  always_raises sheets -> always_raises slides -> always_raises docs ->
  exists e st',
    run_tool json_loads drive drive_list_files sheets slides docs call st
    = (Raised e, st').
Proof.
  intros Hd Ht Hsheets Hslides Hdocs.
  destruct call; try discriminate; cbn [run_tool];
    try (now apply sheet_raises);
    autounfold with tools;
    first [ apply bind_raises; apply delegate_raises;
            first [apply Hsheets | apply Hslides | apply Hdocs]
          | apply delegate_raises;
            first [apply Hsheets | apply Hslides | apply Hdocs] ].
Qed.

(** ** What the result-testing tools answer *)

Lemma tested_falsy (call : SE W PyVal) (k : PyVal -> @M W PyVal)
      (message : string) st :
  (exists v w', call (world st) = (Returned v, w') /\ truthy v = false) ->
  Str.nonempty message = true ->
  exists r st',
    bind (delegate call)
         (fun v => if truthy v then k v else ret (failure message)) st
    = (Returned r, st') /\ is_failure_envelope r = true.
Proof.
  intros (v & w' & Hc & Hv) Hm. unfold bind.
  rewrite MainFacts.delegate_run, Hc. cbn [fst snd]. rewrite Hv.
  unfold ret. do 2 eexists. split; [reflexivity|].
  now apply MainFacts.failure_is_envelope.
Qed.

Lemma tested_truthy (call : SE W PyVal) (ok fail : string) st :
  (exists v w', call (world st) = (Returned v, w') /\ truthy v = true) ->
  exists r st',
    tested call ok fail st = (Returned r, st') /\ is_success r = true.
Proof.
  intros (v & w' & Hc & Hv). unfold tested, bind.
  rewrite MainFacts.delegate_run, Hc. cbn [fst snd]. rewrite Hv.
  unfold ret. do 2 eexists. split; reflexivity.
Qed.

(** X21.  Every tool that tests the result of its delegate outside any
    [try] answers [{success: false, message: m}], [m] not empty, when the
    collaborators return falsy results, and a dictionary with
    [success: True] when they return truthy ones. *)
Theorem result_testing_tools_answer call st :
  tests_result call = true ->
  (always_falsy slides -> always_falsy docs ->
   exists r st',
     run_tool json_loads drive drive_list_files sheets slides docs call st
     = (Returned r, st') /\ is_failure_envelope r = true) /\
  (always_truthy slides -> always_truthy docs ->
   exists r st',
     run_tool json_loads drive drive_list_files sheets slides docs call st
     = (Returned r, st') /\ is_success r = true).
Proof.
  intros H. split.
  - intros Hslides Hdocs.
    destruct call; try discriminate; cbn [run_tool];
      autounfold with tools;
      (apply tested_falsy;
       [first [apply Hslides | apply Hdocs] | reflexivity]).
  - intros Hslides Hdocs.
    destruct call; try discriminate; cbn [run_tool];
      try (apply tested_truthy; first [apply Hslides | apply Hdocs]);
      autounfold with tools; unfold bind at 1; rewrite MainFacts.delegate_run;
      match goal with
      | |- context [fst (?client ?name ?args (world st))] =>
          first [ destruct (Hslides name args (world st)) as (v & w' & Hc & Hv);
                  rewrite Hc
                | destruct (Hdocs name args (world st)) as (v & w' & Hc & Hv);
                  rewrite Hc ]
      end;
      cbn [fst snd]; rewrite Hv;
      try (unfold ret; do 2 eexists; split; reflexivity).
    unfold bind. rewrite MainFacts.delegate_run.
    match goal with
    | |- context [fst (slides ?name ?args ?w)] =>
        destruct (Hslides name args w) as (d & w2 & Hd & _); rewrite Hd
    end.
    unfold ret. do 2 eexists. split; reflexivity.
Qed.

Lemma guarded_shape_failure (call : SE W PyVal)
      (k : PyVal -> @M W PyVal) (fail error_prefix : string) st :
  delegate_failed (call (world st)) ->
  try_except
    (bind (delegate call)
          (fun v => if truthy v then k v else ret (failure fail)))
    (fun e => ret (failure (error_prefix ++ exn_str e))) st
  = (Returned (failure (match fst (call (world st)) with
                        | Raised e => error_prefix ++ exn_str e
                        | Returned _ => fail
                        end)),
     with_world st (snd (call (world st)))).
Proof.
  intros Hf. unfold try_except, bind. rewrite MainFacts.delegate_run.
  unfold delegate_failed in Hf.
  destruct (fst (call (world st))) as [v|e]; [rewrite Hf|]; reflexivity.
Qed.

Lemma tested_under_try_run call st m :
  tests_under_try call = true ->
  delegated json_loads drive drive_list_files sheets slides docs call
            (current_spreadsheet_id st) = Some m ->
  delegate_failed (m (world st)) ->
  run_tool json_loads drive drive_list_files sheets slides docs call st
  = (Returned (failure (match fst (m (world st)) with
                        | Raised e => error_prefix call ++ exn_str e
                        | Returned _ => failure_text call
                        end)),
     with_world st (snd (m (world st)))).
Proof.
  intros H Hm Hf. destruct call; try discriminate;
    cbn [run_tool delegated failure_text error_prefix] in *.
  - destruct (slide_content json_loads content) as [c|e] eqn:Ec;
      [|discriminate].
    injection Hm as <-.
    unfold add_slide_to_presentation, try_except, bind at 1, liftO at 1.
    rewrite Ec. unfold bind at 1. rewrite MainFacts.delegate_run.
    unfold delegate_failed in Hf.
    destruct (fst (slides "add_slide" [presentation_id; PStr title; c]
                          (world st))) as [result|e]; [|reflexivity].
    unfold bind, liftO. rewrite (MainFacts.reports_success_falsy _ Hf).
    reflexivity.
  - injection Hm as <-. unfold add_image_to_slide.
    now apply guarded_shape_failure.
  - injection Hm as <-. unfold add_shape_to_slide, guarded.
    now apply guarded_shape_failure.
  - injection Hm as <-. unfold add_line_to_slide, guarded.
    now apply guarded_shape_failure.
Qed.


(** X22.  The four tools that call their delegate under [try] and test
    what it returned ([add_slide_to_presentation], [add_image_to_slide],
    [add_shape_to_slide], [add_line_to_slide]): whenever the request the
    tool makes raises or returns a falsy result, the tool returns
    [{success: False, message: m}], where [m] is the failure text of the
    tool for a falsy result and the error prefix of the tool followed by
    [str(e)] for an exception [e]; [m] is not empty. *)
Theorem tested_tools_under_try_report_failure call st m :
  tests_under_try call = true ->
  delegated json_loads drive drive_list_files sheets slides docs call
            (current_spreadsheet_id st) = Some m ->
  delegate_failed (m (world st)) ->
  let message :=
    match fst (m (world st)) with
    | Raised e => error_prefix call ++ exn_str e
    | Returned _ => failure_text call
    end in
  run_tool json_loads drive drive_list_files sheets slides docs call st
  = (Returned (failure message), with_world st (snd (m (world st)))) /\
  is_failure_envelope (failure message) = true.
Proof.
  intros H Hm Hf message. subst message. split.
  - now apply tested_under_try_run.
  - apply MainFacts.failure_is_envelope.
    destruct call; try discriminate;
      now destruct (fst (m (world st))).
Qed.








(** X23.  A creation tool has no [try] of its own: when its delegate
    raises, the tool raises the same exception, and when the delegate
    returns a truthy value that is no dictionary, the tool raises
    [AttributeError]; in both cases the current spreadsheet identifier
    stays. *)
Theorem creation_failure_propagates (c : CreationTool) st (w : W) :
  (forall e,
      creation_delegate drive c (world st) = (Raised e, w) ->
      run_creation drive c st = (Raised e, with_world st w)) /\
  (forall v,
      creation_delegate drive c (world st) = (Returned v, w) ->
      truthy v = true ->
      (forall d, v <> PDict d) ->
      run_creation drive c st
      = (Raised (AttributeError v "get"), with_world st w)).
Proof.
  split.
  - intros e H. rewrite MainFacts.run_creation_unfold. unfold bind.
    now rewrite MainFacts.delegate_run, H.
  - intros v H Hv Hd. rewrite MainFacts.run_creation_unfold. unfold bind at 1.
    rewrite MainFacts.delegate_run, H. cbn [fst snd].
    unfold bind, remember_created. rewrite Hv. unfold bind, liftO.
    destruct v; try reflexivity. now destruct (Hd d).
Qed.

End Calls.

(** ** The content of a slide *)

Lemma replace_head s c t :
  Str.replace_escaped_newlines s = String c t ->
  c = Str.newline \/ exists r, s = String c r.
Proof.
  destruct s as [|c1 r1]; [discriminate|]. cbn [Str.replace_escaped_newlines].
  destruct r1 as [|c2 r2].
  - intros [= <- <-]. right. eauto.
  - destruct (Ascii.eqb c1 Str.backslash && Ascii.eqb c2 "n").
    + intros [= <- <-]. now left.
    + intros [= <- <-]. right. eauto.
Qed.

Lemma replace_two c x r :
  Str.replace_escaped_newlines (String c (String x r)) =
  if Ascii.eqb c Str.backslash && Ascii.eqb x "n"
  then String Str.newline (Str.replace_escaped_newlines r)
  else String c (Str.replace_escaped_newlines (String x r)).
Proof. reflexivity. Qed.

Lemma has_escaped_newline_cons c s :
  has_escaped_newline (String c s) =
  prefix (String Str.backslash (String "n" EmptyString)) (String c s)
  || has_escaped_newline s.
Proof. reflexivity. Qed.

Lemma replace_leaves_none s :
  has_escaped_newline (Str.replace_escaped_newlines s) = false /\
  forall c, has_escaped_newline
              (Str.replace_escaped_newlines (String c s)) = false.
Proof.
  induction s as [|x r [IH1 IH2]].
  - split; [reflexivity|]. intros c. cbn. now rewrite andb_false_r.
  - split; [apply IH2|]. intros c.
    rewrite replace_two.
    destruct (Ascii.eqb c Str.backslash && Ascii.eqb x "n") eqn:E.
    + rewrite has_escaped_newline_cons, IH1. reflexivity.
    + rewrite has_escaped_newline_cons, (IH2 x), orb_false_r.
      cbn [prefix].
      destruct (Ascii.eqb Str.backslash c) eqn:Ec; [|reflexivity].
      cbn [andb].
      destruct (Str.replace_escaped_newlines (String x r)) as [|h t] eqn:Er;
        [reflexivity|].
      cbn [prefix]. rewrite andb_true_r.
      destruct (replace_head _ _ _ Er) as [->|[r' Hs]]; [reflexivity|].
      injection Hs as <- _.
      rewrite Ascii.eqb_sym in Ec. rewrite Ec in E. cbn [andb] in E.
      now rewrite Ascii.eqb_sym.
Qed.

(** X24.  Whatever [json.loads] does, a string content that reaches the
    delegate of [add_slide_to_presentation] is a string in which no
    backslash is followed by [n]. *)
Theorem prepared_content_has_no_escaped_newline
        (json_loads : string -> Outcome PyVal) (text : string) (v : PyVal) :
  slide_content json_loads (PStr text) = Returned v ->
  exists c, v = PStr c /\ has_escaped_newline c = false.
Proof.
  unfold slide_content.
  destruct (json_loads (Str.strip_char "`" text)) as [parsed|e].
  - cbn [bindO]. destruct parsed; try discriminate.
    intros [= <-]. eexists. split; [reflexivity|].
    apply replace_leaves_none.
  - destruct (exn_type e =? "JSONDecodeError"); [|discriminate].
    cbn [bindO]. intros [= <-]. eexists. split; [reflexivity|].
    apply replace_leaves_none.
Qed.

Lemma prepared_content_has_no_escaped_newline_witness :
  exists c,
    PStr (String "a" (String Str.newline "\b")) = PStr c /\
    has_escaped_newline c = false.
Proof.
  apply (prepared_content_has_no_escaped_newline Json.loads "`a\n\b`").
  reflexivity.
Defined.

(** X25.  [add_slide_to_presentation] reports success exactly when the
    answer of its delegate, a dictionary, has a truthy ['success']: it
    then passes on ['slide_id'] and ['dimensions']; for any other
    dictionary it answers that it failed to add the slide. *)
Theorem add_slide_reports_delegate_success {W : Type}
        (json_loads : string -> Outcome PyVal)
        (slides : string -> list PyVal -> SE W PyVal)
        (presentation_id : PyVal) (title : string) (content c : PyVal)
        (st : State W) (answer : list (string * PyVal)) (w : W) :
  slide_content json_loads content = Returned c ->
  slides "add_slide" [presentation_id; PStr title; c] (world st)
  = (Returned (PDict answer), w) ->
  let field k :=
    match dict_get k answer with Some v => v | None => PNone end in
  add_slide_to_presentation json_loads slides presentation_id title content st
  = (Returned
       (if dict_nonempty answer && truthy (field "success")
        then PDict [("success", PBool true);
                    ("message", PStr ("Added slide: " ++ title));
                    ("slide_id", field "slide_id");
                    ("dimensions", field "dimensions")]
        else failure "Failed to add slide"),
     with_world st w).
Proof.
  intros Hc Hs field. subst field.
  unfold add_slide_to_presentation, try_except, bind at 1, liftO at 1.
  rewrite Hc. unfold bind at 1. rewrite MainFacts.delegate_run, Hs.
  cbn [fst snd]. unfold bind at 1, liftO at 1, reports_success.
  destruct answer as [|kv rest]; [reflexivity|].
  cbn [truthy dict_nonempty andb py_get py_get_default bindO].
  destruct (truthy _); reflexivity.
Qed.

Lemma add_slide_reports_delegate_success_witness :
  add_slide_to_presentation
    Json.loads
    (Probe.recording
       (fun _ _ => Returned (PDict [("success", PBool true);
                                    ("slide_id", PStr "g1")])))
    (PStr "P1") "Title" (PStr "Hello") (initial [])
  = (Returned (PDict [("success", PBool true);
                      ("message", PStr "Added slide: Title");
                      ("slide_id", PStr "g1");
                      ("dimensions", PNone)]),
     with_world (initial [])
                [("add_slide", [PStr "P1"; PStr "Title"; PStr "Hello"])]).
Proof.
  apply (add_slide_reports_delegate_success
           Json.loads
           (Probe.recording
              (fun _ _ => Returned (PDict [("success", PBool true);
                                           ("slide_id", PStr "g1")])))
           (PStr "P1") "Title" (PStr "Hello") (PStr "Hello") (initial [])
           [("success", PBool true); ("slide_id", PStr "g1")]
           [("add_slide", [PStr "P1"; PStr "Title"; PStr "Hello"])]);
    reflexivity.
Defined.

(** ** The tools over the Drive client of [google_drive.py] *)

Section OverGoogleDrive.
Context {W : Type}.
Variable json_loads : string -> Outcome PyVal.
Variables service sheets_service : string -> list (string * PyVal) -> SE W PyVal.
Variable config : Config.Config.
Variables sheets slides docs : string -> list PyVal -> SE W PyVal.
Implicit Types (st : State W).

Lemma creation_over_drive_dict (c : CreationTool) w :
  exists d w',
    creation_delegate (google_drive service sheets_service config) c w
    = (Returned (PDict d), w').
Proof.
  destruct c; cbn [creation_delegate google_drive drive_create_spreadsheet
                   drive_create_spreadsheet_from_template
                   drive_create_spreadsheet_from_existing].
  - apply DriveFacts.create_spreadsheet_dict.
  - apply DriveFacts.copy_spreadsheet_dict.
  - apply DriveFacts.copy_spreadsheet_dict.
Qed.

(** X26.  Over [GoogleDrive], the tools that delegate to [drive] (the
    three creation tools, [list_files], [copy_file], [rename_file]) never
    raise, whatever Google's services do. *)
Theorem drive_tools_never_raise (call : Tool) st :
  drive_tool call = true ->
  exists v st',
    run_tool json_loads (google_drive service sheets_service config)
             (GoogleDrive.list_files service config)
             sheets slides docs call st
    = (Returned v, st').
Proof.
  intros H. destruct call; try discriminate; cbn [run_tool].
  - destruct (creation_over_drive_dict c (world st)) as (d & w' & Hd).
    rewrite (MainFacts.run_creation_dict _ _ _ _ _ Hd). eauto.
  - unfold list_files. rewrite MainFacts.delegate_run.
    destruct (DriveFacts.list_files_list service config (world st))
      as (l & w' & ->). cbn. eauto.
  - unfold copy_file. rewrite MainFacts.delegate_run.
    cbn [google_drive drive_copy_file]. unfold GoogleDrive.copy_file.
    destruct (DriveFacts.try_returns
                (result <- service "files.copy"
                             [("fileId", file_id);
                              ("body", PDict [("name", new_name)])] ;;
                 ret result)%se
                (fun _ => PDict []) (world st)) as (v & w' & ->).
    cbn. eauto.
  - unfold rename_file. rewrite MainFacts.delegate_run.
    cbn [google_drive drive_rename_file]. unfold GoogleDrive.rename_file.
    destruct (DriveFacts.try_returns
                (result <- service "files.update"
                             [("fileId", file_id);
                              ("body", PDict [("name", new_name)])] ;;
                 ret result)%se
                (fun _ => PDict []) (world st)) as (v & w' & ->).
    cbn. eauto.
Qed.

(** X27.  From the Sheets service to the session: when the service
    creates the spreadsheet and gives a non-empty identifier,
    [create_spreadsheet] returns it with the title and the folder, and the
    identifier becomes the current spreadsheet, whether or not the file
    could be moved into its folder. *)
Theorem blank_creation_sets_current
        (title : string) (folder : option string) st
        (answer : list (string * PyVal)) (id : PyVal) (w1 : W) :
  sheets_service "spreadsheets.create" (Requests.create title) (world st)
  = (Returned (PDict answer), w1) ->
  dict_get "spreadsheetId" answer = Some id ->
  truthy id = true ->
  exists w',
    create_spreadsheet (google_drive service sheets_service config)
                       title folder st
    = (Returned (Requests.created id title folder config),
       {| current_spreadsheet_id := id; world := w' |}).
Proof.
  intros Hc Hid Ht.
  destruct (DriveFacts.get_folder_id_returns config folder) as [target Hf].
  pose proof (DriveFacts.create_spreadsheet_run
                service sheets_service config title folder target (world st) Hf)
    as Hrun.
  rewrite Hc in Hrun. cbn [py_getitem] in Hrun. unfold dict_getitem in Hrun.
  rewrite Hid in Hrun. unfold Requests.created in *.
  eexists.
  change (create_spreadsheet (google_drive service sheets_service config)
                             title folder st)
    with (run_creation (google_drive service sheets_service config)
                       (Blank title folder) st).
  rewrite (MainFacts.run_creation_dict
             (google_drive service sheets_service config)
             (Blank title folder) st _ _ Hrun).
  unfold carried_id, py_or. cbn [dict_get]. cbn. rewrite Ht. cbn. rewrite Ht.
  reflexivity.
Qed.

(** X28.  From the Drive service to the session, for the two copying
    tools: a copy answered with a non-empty ['id'] makes that identifier
    the current spreadsheet; a copy answered by a non-empty dictionary
    without ['id'] is returned as a result whose ['spreadsheetId'] is
    [None], and the current spreadsheet stays. *)
Theorem copy_creation_sets_current
        (source_id : PyVal) (title : string) (folder : option string)
        (target : string) st (k : string) (v : PyVal)
        (rest : list (string * PyVal)) (w1 : W) :
  Config.get_folder_id config folder = Returned target ->
  service "files.copy" (Requests.copy_into source_id title target) (world st)
  = (Returned (PDict ((k, v) :: rest)), w1) ->
  let drive := google_drive service sheets_service config in
  let after run :=
    (forall id, dict_get "id" ((k, v) :: rest) = Some id -> truthy id = true ->
                run = (Returned (Requests.created id title folder config),
                       {| current_spreadsheet_id := id; world := w1 |})) /\
    (dict_get "id" ((k, v) :: rest) = None ->
     run = (Returned (Requests.created PNone title folder config),
            with_world st w1)) in
  after (create_spreadsheet_from_template drive source_id title folder st) /\
  after (create_spreadsheet_from_existing drive source_id title folder st).
Proof.
  intros Hf Hc drive after. subst after drive.
  pose proof (DriveFacts.copy_spreadsheet_run
                service config source_id title folder target (world st) Hf)
    as Hrun.
  rewrite Hc in Hrun.
  assert (H : forall c,
             creation_delegate (google_drive service sheets_service config) c
                               (world st)
             = GoogleDrive.copy_spreadsheet service config source_id title
                                            folder (world st) ->
             (forall id, dict_get "id" ((k, v) :: rest) = Some id ->
                         truthy id = true ->
                         run_creation (google_drive service sheets_service config)
                                      c st
                         = (Returned (Requests.created id title folder config),
                            {| current_spreadsheet_id := id; world := w1 |})) /\
             (dict_get "id" ((k, v) :: rest) = None ->
              run_creation (google_drive service sheets_service config) c st
              = (Returned (Requests.created PNone title folder config),
                 with_world st w1))).
  { intros c Hd. rewrite Hrun in Hd. unfold Requests.created in *. split.
    - intros id Hid Ht. rewrite Hid in Hd.
      rewrite (MainFacts.run_creation_dict
                 (google_drive service sheets_service config) c st _ _ Hd).
      unfold carried_id, py_or. cbn. rewrite Ht. cbn. now rewrite Ht.
    - intros Hid. rewrite Hid in Hd.
      rewrite (MainFacts.run_creation_dict
                 (google_drive service sheets_service config) c st _ _ Hd).
      reflexivity. }
  split.
  - apply (H (FromTemplate source_id title folder)). reflexivity.
  - apply (H (FromExisting source_id title folder)). reflexivity.
Qed.

End OverGoogleDrive.

Lemma only_creation_writes_current_witness :
  current_spreadsheet_id
    (run_all Json.loads Examples.broken_drive
             (GoogleDrive.list_files Probe.failing Examples.config_legacy)
             Probe.failing Probe.failing Probe.failing
             (tl Examples.calls_after_failure)
             (Examples.with_current (PStr "S1")))
  = PStr "S1".
Proof.
  apply (only_creation_writes_current
           Json.loads Examples.broken_drive
           (GoogleDrive.list_files Probe.failing Examples.config_legacy)
           Probe.failing Probe.failing Probe.failing
           (tl Examples.calls_after_failure)
           (Examples.with_current (PStr "S1"))).
  reflexivity.
Defined.

Lemma current_is_never_cleared_witness :
  truthy
    (current_spreadsheet_id
       (run_all Json.loads Examples.broken_drive
                (GoogleDrive.list_files Probe.failing Examples.config_legacy)
                Probe.failing Probe.failing Probe.failing
                Examples.calls_after_failure
                (Examples.with_current (PStr "S1"))))
  = true.
Proof.
  apply (proj1 (current_is_never_cleared
                  Json.loads Examples.broken_drive
                  (GoogleDrive.list_files Probe.failing Examples.config_legacy)
                  Probe.failing Probe.failing Probe.failing
                  Examples.calls_after_failure)).
  reflexivity.
Defined.

Lemma tools_under_try_never_raise_witness :
  exists v st',
    run_tool Json.loads Examples.broken_drive
             (GoogleDrive.list_files Probe.failing Examples.config_legacy)
             Probe.failing Probe.failing Probe.failing
             (DeleteSlideElement (PStr "P1") (PStr "p") (PStr "e1"))
             (initial [])
    = (Returned v, st').
Proof.
  apply (tools_under_try_never_raise
           Json.loads Examples.broken_drive
           (GoogleDrive.list_files Probe.failing Examples.config_legacy)
           Probe.failing Probe.failing Probe.failing
           (DeleteSlideElement (PStr "P1") (PStr "p") (PStr "e1"))
           (initial [])).
  reflexivity.
Defined.

Lemma tools_without_try_propagate_witness :
  exists e st',
    run_tool Json.loads Examples.broken_drive
             (GoogleDrive.list_files Probe.failing Examples.config_legacy)
             Probe.failing Probe.failing Probe.failing
             (CreateDocument "Minutes") (initial [])
    = (Raised e, st').
Proof.
  apply (tools_without_try_propagate
           Json.loads Examples.broken_drive
           (GoogleDrive.list_files Probe.failing Examples.config_legacy)
           Probe.failing Probe.failing Probe.failing
           (CreateDocument "Minutes") (initial [])).
  - reflexivity.
  - reflexivity.
  - intros name args w. do 2 eexists. reflexivity.
  - intros name args w. do 2 eexists. reflexivity.
  - intros name args w. do 2 eexists. reflexivity.
Defined.

Lemma result_testing_tools_answer_witness :
  (exists r st',
      run_tool Json.loads Examples.broken_drive
               (GoogleDrive.list_files Probe.failing Examples.config_legacy)
               (Probe.recording Probe.silent) (Probe.recording Probe.silent)
               (Probe.recording Probe.silent)
               (InsertPageBreakInDocument (PStr "D1") (PInt 1)) (initial [])
      = (Returned r, st') /\ is_failure_envelope r = true) /\
  (exists r st',
      run_tool Json.loads Examples.broken_drive
               (GoogleDrive.list_files Probe.failing Examples.config_legacy)
               (Probe.recording Examples.agreeing)
               (Probe.recording Examples.agreeing)
               (Probe.recording Examples.agreeing)
               (CreatePresentation "Deck") (initial [])
      = (Returned r, st') /\ is_success r = true).
Proof.
  split.
  - apply (proj1 (result_testing_tools_answer
                    Json.loads Examples.broken_drive
                    (GoogleDrive.list_files Probe.failing Examples.config_legacy)
                    (Probe.recording Probe.silent)
                    (Probe.recording Probe.silent)
                    (Probe.recording Probe.silent)
                    (InsertPageBreakInDocument (PStr "D1") (PInt 1))
                    (initial []) eq_refl)).
    + intros name args w. do 2 eexists. split; reflexivity.
    + intros name args w. do 2 eexists. split; reflexivity.
  - apply (proj2 (result_testing_tools_answer
                    Json.loads Examples.broken_drive
                    (GoogleDrive.list_files Probe.failing Examples.config_legacy)
                    (Probe.recording Examples.agreeing)
                    (Probe.recording Examples.agreeing)
                    (Probe.recording Examples.agreeing)
                    (CreatePresentation "Deck") (initial []) eq_refl)).
    + intros name args w. do 2 eexists. split; reflexivity.
    + intros name args w. do 2 eexists. split; reflexivity.
Defined.

Lemma tested_tools_under_try_report_failure_witness :
  let run :=
    run_tool Json.loads Examples.broken_drive
             (GoogleDrive.list_files Probe.failing Examples.config_legacy) in
  run Probe.failing Probe.failing Probe.failing
      (AddShapeToSlide (PStr "P1") (PStr "p") (PStr "RECTANGLE")
                       (PInt 0) (PInt 0) (PInt 10) (PInt 10)
                       PNone PNone PNone)
      (initial [])
  = (Returned (failure "Error adding shape: 503 Service Unavailable"),
     initial []) /\
  run Probe.failing (Probe.recording Probe.silent) Probe.failing
      (AddSlideToPresentation (PStr "P1") "Title" (PStr "Hello"))
      (initial [])
  = (Returned (failure "Failed to add slide"),
     with_world (initial [])
                [("add_slide", [PStr "P1"; PStr "Title"; PStr "Hello"])]).
Proof.
  intros run. subst run. split.
  - apply (proj1 (tested_tools_under_try_report_failure
                    Json.loads Examples.broken_drive
                    (GoogleDrive.list_files Probe.failing
                                            Examples.config_legacy)
                    Probe.failing Probe.failing Probe.failing
                    (AddShapeToSlide (PStr "P1") (PStr "p") (PStr "RECTANGLE")
                                     (PInt 0) (PInt 0) (PInt 10) (PInt 10)
                                     PNone PNone PNone)
                    (initial [])
                    (Probe.failing "add_shape"
                                   [PStr "P1"; PStr "p"; PStr "RECTANGLE";
                                    PInt 0; PInt 0; PInt 10; PInt 10;
                                    PNone; PNone; PNone])
                    eq_refl eq_refl I)).
  - apply (proj1 (tested_tools_under_try_report_failure
                    Json.loads Examples.broken_drive
                    (GoogleDrive.list_files Probe.failing
                                            Examples.config_legacy)
                    Probe.failing (Probe.recording Probe.silent) Probe.failing
                    (AddSlideToPresentation (PStr "P1") "Title" (PStr "Hello"))
                    (initial [])
                    (Probe.recording Probe.silent "add_slide"
                                     [PStr "P1"; PStr "Title"; PStr "Hello"])
                    eq_refl eq_refl eq_refl)).
Defined.


Lemma creation_failure_propagates_witness :
  run_creation Examples.raising_drive (Blank "Q1 Report" None)
               (Examples.with_current (PStr "S1"))
  = (Raised (Exn "RuntimeError" "boom"), Examples.with_current (PStr "S1")) /\
  run_creation (Probe.drive_returning (PList [PStr "S9"]))
               (FromExisting (PStr "S0") "Q1 Report" None)
               (Examples.with_current (PStr "S1"))
  = (Raised (AttributeError (PList [PStr "S9"]) "get"),
     Examples.with_current (PStr "S1")).
Proof.
  split.
  - apply (proj1 (creation_failure_propagates
                    Examples.raising_drive (Blank "Q1 Report" None)
                    (Examples.with_current (PStr "S1")) [])).
    reflexivity.
  - apply (proj2 (creation_failure_propagates
                    (Probe.drive_returning (PList [PStr "S9"]))
                    (FromExisting (PStr "S0") "Q1 Report" None)
                    (Examples.with_current (PStr "S1")) [])).
    + reflexivity.
    + reflexivity.
    + discriminate.
Defined.

Lemma drive_tools_never_raise_witness :
  exists v st',
    run_tool Json.loads
             (google_drive Probe.failing Probe.failing Examples.config_legacy)
             (GoogleDrive.list_files Probe.failing Examples.config_legacy)
             Probe.failing Probe.failing Probe.failing
             ListFiles (initial [])
    = (Returned v, st').
Proof.
  apply (drive_tools_never_raise
           Json.loads Probe.failing Probe.failing Examples.config_legacy
           Probe.failing Probe.failing Probe.failing ListFiles (initial [])).
  reflexivity.
Defined.

Lemma blank_creation_sets_current_witness :
  exists w',
    create_spreadsheet Examples.working_drive "Q1 Report" (Some "default")
                       (Examples.with_current (PStr "S1"))
    = (Returned (Requests.created (PStr "S9") "Q1 Report" (Some "default")
                                  Examples.config_legacy),
       {| current_spreadsheet_id := PStr "S9"; world := w' |}).
Proof.
  apply (blank_creation_sets_current
           (Probe.service_returning Examples.created_file)
           (Probe.service_returning Examples.created_file)
           Examples.config_legacy "Q1 Report" (Some "default")
           (Examples.with_current (PStr "S1"))
           [("spreadsheetId", PStr "S9"); ("id", PStr "S9");
            ("parents", PList [PStr "root"])]
           (PStr "S9")
           [("spreadsheets.create", map snd (Requests.create "Q1 Report"))]);
    reflexivity.
Defined.

Lemma copy_creation_sets_current_witness :
  create_spreadsheet_from_template
    (google_drive (Probe.service_returning (PDict [("kind", PStr "drive#file")]))
                  (Probe.service_returning (PDict [("kind", PStr "drive#file")]))
                  Examples.config_legacy)
    (PStr "T1") "Q1 Report" None (Examples.with_current (PStr "S1"))
  = (Returned (Requests.created PNone "Q1 Report" None Examples.config_legacy),
     with_world (Examples.with_current (PStr "S1"))
                [("files.copy",
                  map snd (Requests.copy_into (PStr "T1") "Q1 Report" "F1"))])
  /\
  create_spreadsheet_from_existing
    (google_drive (Probe.service_returning Examples.created_file)
                  (Probe.service_returning Examples.created_file)
                  Examples.config_legacy)
    (PStr "S0") "Q1 Report" None (Examples.with_current (PStr "S1"))
  = (Returned (Requests.created (PStr "S9") "Q1 Report" None
                                Examples.config_legacy),
     {| current_spreadsheet_id := PStr "S9";
        world := [("files.copy",
                   map snd (Requests.copy_into (PStr "S0") "Q1 Report" "F1"))]
     |}).
Proof.
  split.
  - apply (proj2 (proj1 (copy_creation_sets_current
                           (Probe.service_returning
                              (PDict [("kind", PStr "drive#file")]))
                           (Probe.service_returning
                              (PDict [("kind", PStr "drive#file")]))
                           Examples.config_legacy
                           (PStr "T1") "Q1 Report" None "F1"
                           (Examples.with_current (PStr "S1"))
                           "kind" (PStr "drive#file") []
                           [("files.copy",
                             map snd (Requests.copy_into (PStr "T1")
                                                         "Q1 Report" "F1"))]
                           eq_refl eq_refl))).
    reflexivity.
  - apply (proj1 (proj2 (copy_creation_sets_current
                           (Probe.service_returning Examples.created_file)
                           (Probe.service_returning Examples.created_file)
                           Examples.config_legacy
                           (PStr "S0") "Q1 Report" None "F1"
                           (Examples.with_current (PStr "S1"))
                           "spreadsheetId" (PStr "S9")
                           [("id", PStr "S9");
                            ("parents", PList [PStr "root"])]
                           [("files.copy",
                             map snd (Requests.copy_into (PStr "S0")
                                                         "Q1 Report" "F1"))]
                           eq_refl eq_refl)) (PStr "S9"));
      reflexivity.
Defined.

End ToolFacts.
